(** * lib/acme/certs.js: renewal orchestration of ACME certificates

    A shallow embedding of [lib/acme/certs.js].  The module is a client of
    a dozen collaborators (Redis, the certificate store, the lock service,
    the DNS resolver, the ACME client, the key/CSR/X.509 helpers).  They are
    kept abstract: a type class gives each one as a state transformer over
    an arbitrary world [W], so that every theorem holds for every
    implementation of the collaborators, and concrete mock worlds are used
    to run the code on explicit inputs.

    Asynchronous functions are written in a monad that threads the world,
    the trace of collaborator calls and the module-level variables, and
    whose outcome is a returned value, a thrown error or a promise that has
    not settled. *)

From Stdlib Require Import String Ascii List ZArith Bool Lia.
Import ListNotations.

Local Open Scope string_scope.
Local Open Scope Z_scope.

(* ===================================================================== *)
(** ** Strings, the way the code uses them *)
(* ===================================================================== *)

Module Str.

(** [s.split(sep)] for a non-empty separator: the pieces between the
    non-overlapping occurrences of [sep], scanned from the left.  [skip]
    counts the characters of a separator still to be dropped and [cur]
    is the piece being read. *)
Fixpoint split_go (sep : string) (skip : nat) (cur s : string) : list string :=
  match s with
  | EmptyString => [cur]
  | String c s' =>
      match skip with
      | S k => split_go sep k cur s'
      | O =>
          if String.prefix sep s
          then cur :: split_go sep (Nat.pred (String.length sep)) "" s'
          else split_go sep O (cur ++ String c "") s'
      end
  end.

Definition split (sep s : string) : list string := split_go sep O "" s.

(** [parts.join(sep)] *)
Definition join (sep : string) (parts : list string) : string :=
  String.concat sep parts.

(** [parts.slice(i)] *)
Definition slice {A} (i : nat) (parts : list A) : list A := skipn i parts.

(** [parts.pop()] on a non-empty array, as a value *)
Definition pop (parts : list string) : string := List.last parts "".

(** [list.includes(x)] on strings *)
Definition includes (l : list string) (x : string) : bool :=
  existsb (String.eqb x) l.

(** JavaScript truthiness of a possibly missing string. *)
Definition truthy (o : option string) : bool :=
  match o with
  | Some s => negb (String.eqb s "")
  | None => false
  end.

End Str.

(* ===================================================================== *)
(** ** Data model *)
(* ===================================================================== *)

(** The [Error] objects of the module: a message and the two fields the
    code sets on its own errors. *)
Record error := mkError {
  message : string;
  code : option string;
  responseCode : option Z
}.

Record CertificateRecord := {
  _id : Z;
  servername : string;
  privateKey : option string;
  cert : option string;
  ca : list string;
  validFrom : option Z;
  expires : option Z;
  altNames : list string;
  issuer : option string;
  status : string;
  lastCheck : option Z
}.

(** What [acme.certificates.create] resolves with. *)
Record AcmeCert := {
  ac_cert : option string;
  ac_chain : list string
}.

(** The CA account handle; only [account.key.kid] is read, for a log line. *)
Record Account := {
  kid : option string
}.

(** The value stored under [acme:account:<key>] in the settings. *)
Record AcmeAccount := {
  acc_key : string;
  acc_account : Account
}.

(** A settings document; [value] may be missing. *)
Record SettingsDoc := {
  doc_value : option AcmeAccount
}.

Record AcmeOptions := {
  key : string;
  directoryUrl : string;
  email : string;
  keyBits : Z;
  keyExponent : Z
}.

Record CaaRecord := {
  critical : Z;
  issue : option string;
  issuewild : option string;
  iodef : option string
}.

Record ParsedCert := {
  p_validFrom : Z;
  p_validTo : Z;
  dnsNames : list string;
  issuer_commonName : string
}.

Record CertUpdates := {
  u_cert : string;
  u_ca : list string;
  u_validFrom : Z;
  u_expires : Z;
  u_altNames : list string;
  u_issuer : string;
  u_lastCheck : Z;
  u_status : string
}.

Record AccountOptions := {
  subscriberEmail : string;
  agreeToTerms : bool;
  ao_accountKey : string
}.

Record CertificateOptions := {
  co_account : Account;
  co_accountKey : string;
  co_csr : string;
  co_domains : list string
}.

(** The lock object that the lock service resolves with.  Its [success]
    tells whether the lease was obtained: a wait that ran out of time
    resolves with an object whose [success] is [false]. *)
Record Lock := {
  lock_id : Z;
  success : bool
}.

Inductive query :=
| ById (id : Z)
| ByServername (name : string).

(** The values [acquireCert] and [getCertificate] can return. *)
Inductive value :=
| VRecord (r : CertificateRecord)
| VNull
| VFalse
| VCert (c : AcmeCert).

Definition of_record (o : option CertificateRecord) : value :=
  match o with
  | Some r => VRecord r
  | None => VNull
  end.

Definition of_cert (o : option AcmeCert) : value :=
  match o with
  | Some c => VCert c
  | None => VNull
  end.

(** A settled promise of a collaborator. *)
Inductive result (A : Type) :=
| Ok (a : A)
| Err (e : error).
Arguments Ok {A} a.
Arguments Err {A} e.

Inductive level := Info | Error.

Inductive logarg :=
| AStr (s : string)
| ANum (z : Z)
| AErr (e : error).

(** One entry per call that leaves the module. *)
Inductive event :=
| RedisExists (k : string)
| RedisSetExpire (k : string) (v ttl : Z)
| ResolveCaa (name : string)
| GetLock (k : string) (ttl wait : Z)
| ReleaseLock (lock : Lock)
| GetRecord (q : query)
| ResetPrivateKey (id : Z)
| GenerateKey (bits exponent : Z)
| CsrCreate (jwk : string) (domains : list string)
| SettingsFindOne (k : string)
| SettingsInsertOne (k : string) (v : AcmeAccount) (created : Z)
| AccountsCreate (o : AccountOptions)
| CertificatesCreate (o : CertificateOptions)
| CertUpdate (id : Z) (u : CertUpdates)
| AcmeInit (url : string)
| Resolve (promise : nat)
| Reject (promise : nat) (e : error)
| Log (l : level) (prefix fmt : string) (args : list logarg).

(* ===================================================================== *)
(** ** Constants *)
(* ===================================================================== *)

Definition RENEW_AFTER_REMAINING : Z := 10000 + 30 * 24 * 3600 * 1000.
Definition BLOCK_RENEW_AFTER_ERROR_TTL : Z := 10.

(** The literal of [getCertificate]'s first test, line 316. *)
Definition FRESH_REMAINING : Z := 30 * 24 * 3600 * 1000.

(** [expires > new Date(t)]: a missing [expires] compares false. *)
Definition expires_after (r : CertificateRecord) (t : Z) : bool :=
  match expires r with
  | Some e => t <? e
  | None => false
  end.

(* ===================================================================== *)
(** ** Collaborators *)
(* ===================================================================== *)

(** Everything the module requires from outside, over a world [W] that the
    collaborators read and change.  A call settles with [Ok] or [Err]; the
    three pure helpers have no world. *)
Class Collaborators (W : Type) := {
  (* wild-config *)
  config_caaDomains : list string;
  (* ../tools *)
  normalizeDomain : option string -> string;
  (* joi: [true] when [validate] reports no error *)
  joi_domain : string -> bool;
  (* dns: [typeof resolver.resolveCaa === 'function'] and the call *)
  resolveCaa_is_function : bool;
  resolveCaa : string -> W -> result (list CaaRecord) * W;
  (* Date.now() and new Date() *)
  clock : W -> Z * W;
  (* db.redis *)
  redis_exists : string -> W -> result Z * W;
  redis_set_expire : string -> Z -> Z -> W -> result unit * W;
  (* ioredfour *)
  waitAcquireLock : string -> Z -> Z -> W -> result Lock * W;
  lock_release : Lock -> W -> result unit * W;
  (* ../cert-handler *)
  getRecord : query -> W -> result (option CertificateRecord) * W;
  resetPrivateKey : Z -> W -> result string * W;
  generateKey : Z -> Z -> W -> result string * W;
  record_update : Z -> CertUpdates -> W -> result bool * W;
  (* pem-jwk, @root/csr, @fidm/x509 *)
  pem2jwk : string -> result string;
  csr_create : string -> list string -> W -> result string * W;
  fromPEM : string -> result ParsedCert;
  (* db.database.collection('settings') *)
  settings_findOne : string -> W -> result (option SettingsDoc) * W;
  settings_insertOne : string -> AcmeAccount -> Z -> W -> result Z * W;
  (* @root/acme *)
  acme_init : string -> W -> result unit * W;
  accounts_create : AccountOptions -> W -> result Account * W;
  certificates_create : CertificateOptions -> W -> result (option AcmeCert) * W
}.

(* ===================================================================== *)
(** ** Module state and the monad of asynchronous functions *)
(* ===================================================================== *)

(** The three module-level variables of lines 40-42.  An entry of
    [acmeInitPending] is the [{resolve, reject}] pair of one promise; it is
    identified by the number of that promise, and [promises] counts the
    promises created so far. *)
Record InitState := {
  acmeInitialized : bool;
  acmeInitializing : bool;
  acmeInitPending : list nat;
  promises : nat
}.

Definition init0 : InitState :=
  {| acmeInitialized := false; acmeInitializing := false;
     acmeInitPending := []; promises := O |}.

Record State (W : Type) := {
  world : W;
  trace : list event;
  vars : InitState
}.
Arguments world {W} s.
Arguments trace {W} s.
Arguments vars {W} s.

(** How an asynchronous function ends: it returns, it throws, or it waits
    for a promise that nobody has settled. *)
Inductive outcome (A : Type) :=
| Return (a : A)
| Throw (e : error)
| Pending.
Arguments Return {A} a.
Arguments Throw {A} e.
Arguments Pending {A}.

Definition M (W A : Type) : Type := State W -> outcome A * State W.

Section Monad.
Context {W : Type}.

Definition ret {A} (a : A) : M W A := fun s => (Return a, s).

Definition throw {A} (e : error) : M W A := fun s => (Throw e, s).

Definition bind {A B} (m : M W A) (k : A -> M W B) : M W B :=
  fun s =>
    match m s with
    | (Return a, s') => k a s'
    | (Throw e, s') => (Throw e, s')
    | (Pending, s') => (Pending, s')
    end.

(** [try { body } catch (err) { handler }] *)
Definition try_catch {A} (body : M W A) (handler : error -> M W A) : M W A :=
  fun s =>
    match body s with
    | (Throw e, s') => handler e s'
    | r => r
    end.

(** [try { body } finally { fin }]: [fin] runs when [body] has completed,
    normally or not; a throw of [fin] replaces the completion of
    [body]. *)
Definition try_finally {A} (body : M W A) (fin : M W unit) : M W A :=
  fun s =>
    match body s with
    | (Pending, s') => (Pending, s')
    | (r, s') =>
        match fin s' with
        | (Return _, s'') => (r, s'')
        | (Throw e, s'') => (Throw e, s'')
        | (Pending, s'') => (Pending, s'')
        end
    end.

Definition emit (ev : event) (s : State W) : State W :=
  {| world := world s; trace := trace s ++ [ev]; vars := vars s |}.

Definition set_world (w : W) (s : State W) : State W :=
  {| world := w; trace := trace s; vars := vars s |}.

Definition set_vars (v : InitState) (s : State W) : State W :=
  {| world := world s; trace := trace s; vars := v |}.

(** A call of a collaborator: the call is recorded, then the collaborator
    runs on the world. *)
Definition call {A} (ev : event) (f : W -> result A * W) : M W A :=
  fun s =>
    match f (world s) with
    | (Ok a, w) => (Return a, set_world w (emit ev s))
    | (Err e, w) => (Throw e, set_world w (emit ev s))
    end.

(** A pure helper that may throw. *)
Definition lift {A} (r : result A) : M W A :=
  fun s =>
    match r with
    | Ok a => (Return a, s)
    | Err e => (Throw e, s)
    end.

Definition log (l : level) (prefix fmt : string) (args : list logarg) : M W unit :=
  fun s => (Return tt, emit (Log l prefix fmt args) s).

End Monad.

Declare Scope async_scope.
Delimit Scope async_scope with async.
Notation "x <- m ;; k" := (bind m (fun x => k))
  (at level 61, m at next level, right associativity) : async_scope.
Notation "m ;;; k" := (bind m (fun _ => k))
  (at level 61, right associativity) : async_scope.
Local Open Scope async_scope.

(* ===================================================================== *)
(** ** The module *)
(* ===================================================================== *)

(** *** ensureAcme, lines 39-75

    The function has one [await].  Its two synchronous segments are given
    on the module variables alone, so that the sequential run below and the
    interleaved runs of [Module Interleaving] share them. *)

Inductive entry :=
| Ready                            (* line 46: return true *)
| Queued (p : nat) (v : InitState) (* lines 49-51: a new pending promise *)
| Starts.                          (* line 55: acme.init is called *)

Definition ensureAcme_enter (v : InitState) : entry :=
  if acmeInitialized v then Ready
  else if acmeInitializing v then
    Queued (promises v)
      {| acmeInitialized := acmeInitialized v;
         acmeInitializing := acmeInitializing v;
         acmeInitPending := acmeInitPending v ++ [promises v];
         promises := S (promises v) |}
  else Starts.

(** Lines 56-74, run when [acme.init] has settled with [r]: the new
    variables, the entries notified, and how the caller ends. *)
Definition ensureAcme_resume (r : result unit) (v : InitState)
  : InitState * list event * outcome bool :=
  match r with
  | Ok _ =>
      ({| acmeInitialized := true;
          acmeInitializing := false;
          acmeInitPending := acmeInitPending v;
          promises := promises v |},
       map Resolve (acmeInitPending v),
       Return true)
  | Err err =>
      ({| acmeInitialized := acmeInitialized v;
          acmeInitializing := false;
          acmeInitPending := acmeInitPending v;
          promises := promises v |},
       map (fun p => Reject p err) (acmeInitPending v),
       Throw err)
  end.

Definition type_error_expires : error :=
  mkError "Cannot read properties of null (reading 'expires')" None None.

Section Certs.
Context {W : Type} {C : Collaborators W}.

Definition now : M W Z :=
  fun s => let (t, w) := clock (world s) in (Return t, set_world w s).

Definition emits (evs : list event) (s : State W) : State W :=
  fold_left (fun s ev => emit ev s) evs s.

(** A caller that runs alone between its call and the settlement of
    [acme.init]. *)
Definition ensureAcme (acmeOptions : AcmeOptions) : M W bool :=
  fun s =>
    match ensureAcme_enter (vars s) with
    | Ready => (Return true, s)
    | Queued _ v => (Pending, set_vars v s)
    | Starts =>
        let (r, w) := acme_init (directoryUrl acmeOptions) (world s) in
        let s1 := set_world w (emit (AcmeInit (directoryUrl acmeOptions)) s) in
        let '(v, evs, out) := ensureAcme_resume r (vars s1) in
        (out, set_vars v (emits evs s1))
    end.

(** *** getAcmeAccount, lines 77-119 *)
Definition getAcmeAccount (acmeOptions : AcmeOptions) : M W (option AcmeAccount) :=
  ensureAcme acmeOptions ;;;
  let entryKey := "acme:account:" ++ key acmeOptions in
  settingsValue <- call (SettingsFindOne entryKey) (settings_findOne entryKey) ;;
  match settingsValue with
  | Some {| doc_value := Some v |} => ret (Some v)
  | _ =>
      log Info "ACME" "ACME account for %s not found, provisioning new one from %s"
        [AStr (key acmeOptions); AStr (directoryUrl acmeOptions)] ;;;
      accountKey <- call (GenerateKey (keyBits acmeOptions) (keyExponent acmeOptions))
                      (generateKey (keyBits acmeOptions) (keyExponent acmeOptions)) ;;
      jwkAccount <- lift (pem2jwk accountKey) ;;
      log Info "ACME" "Generated Acme account key for %s" [AStr (key acmeOptions)] ;;;
      let accountOptions :=
        {| subscriberEmail := email acmeOptions;
           agreeToTerms := true;
           ao_accountKey := jwkAccount |} in
      account <- call (AccountsCreate accountOptions) (accounts_create accountOptions) ;;
      let v := {| acc_key := accountKey; acc_account := account |} in
      created <- now ;;
      r <- call (SettingsInsertOne entryKey v created)
             (settings_insertOne entryKey v created) ;;
      log Info "ACME" "ACME account provisioned for %s (%s)"
        [AStr (key acmeOptions); ANum r] ;;;
      ret (Some v)
  end.

(** *** validateDomain, lines 121-164 *)

Definition invalid_domain_error : error :=
  mkError "${domain} is not a valid domain name" (Some "invalid_domain") (Some 400).

Definition caa_mismatch_error (subdomain domain : string) : error :=
  mkError ("LE not listed in the CAA record for " ++ subdomain ++ " (" ++ domain ++ ")")
    (Some "caa_mismatch") (Some 403).

(** [caaRes.some(r => config.acme.caaDomains.includes(normalizeDomain(r && r.issue)))] *)
Definition caa_listed (caaRes : list CaaRecord) : bool :=
  existsb (fun r => Str.includes config_caaDomains (normalizeDomain (issue r))) caaRes.

(** [caaRes && caaRes.length] *)
Definition caa_present (caaRes : option (list CaaRecord)) : bool :=
  match caaRes with
  | Some rs => negb (Nat.eqb (List.length rs) 0)
  | None => false
  end.

Definition caa_records (caaRes : option (list CaaRecord)) : list CaaRecord :=
  match caaRes with
  | Some rs => rs
  | None => []
  end.

(** Lines 145-149: a rejected query leaves [caaRes] undefined. *)
Definition query_caa (subdomain : string) : M W (option (list CaaRecord)) :=
  try_catch
    (rs <- call (ResolveCaa subdomain) (resolveCaa subdomain) ;; ret (Some rs))
    (fun _ => ret None).

(** The loop of lines 141-160 over the values of [i] still to visit. *)
Fixpoint caa_loop (domain : string) (parts : list string) (todo : list nat) : M W unit :=
  match todo with
  | [] => ret tt
  | i :: rest =>
      let subdomain := Str.join "." (Str.slice i parts) in
      caaRes <- query_caa subdomain ;;
      if caa_present caaRes && negb (caa_listed (caa_records caaRes)) then
        throw (caa_mismatch_error subdomain domain)
      else if caa_present caaRes then
        log Info "ACME" "Found matching CAA record for %s (%s)"
          [AStr subdomain; AStr domain]
      else caa_loop domain parts rest
  end.

(** [config.acme.caaDomains.map(normalizeDomain).filter(d => d)] *)
Definition caaDomains : list string :=
  filter (fun d => negb (String.eqb d ""))
    (map (fun d => normalizeDomain (Some d)) config_caaDomains).

Definition validateDomain (domain : string) : M W bool :=
  if negb (joi_domain domain) then throw invalid_domain_error
  else
    (if resolveCaa_is_function && negb (Nat.eqb (List.length caaDomains) 0) then
       let parts := Str.split "." domain in
       caa_loop domain parts (seq 0 (List.length parts - 1))
     else ret tt) ;;;
    ret true.

(** *** acquireCert, lines 166-292 *)

Definition domainSafeLockKey (domain : string) : string := "d:lock:safe:" ++ domain.
Definition domainOpLockKey (domain : string) : string := "d:lock:op:" ++ domain.

(** Lines 178-185; [false] stands for the [return] of the handler. *)
Definition validated (domain : string) : M W bool :=
  try_catch
    (validateDomain domain ;;;
     log Info "ACME" "Domain validation for %s passed" [AStr domain] ;;;
     ret true)
    (fun err =>
       log Error "ACME" "Failed to validate domain %s: %s"
         [AStr domain; AStr (message err)] ;;;
       ret false).

(** Lines 272-276 *)
Definition block_renewal (domain : string) : M W unit :=
  try_catch
    (call (RedisSetExpire (domainSafeLockKey domain) 1 BLOCK_RENEW_AFTER_ERROR_TTL)
       (redis_set_expire (domainSafeLockKey domain) 1 BLOCK_RENEW_AFTER_ERROR_TTL))
    (fun err =>
       log Error "ACME" "Redis call failed key=%s domains=%s error=%s"
         [AStr (domainSafeLockKey domain); AStr domain; AStr (message err)]).

(** The handler of lines 271-284, on the value that the variable
    [certificateData] holds when it runs. *)
Definition on_failure (domain : string) (certificateData : option CertificateRecord)
    (err : error) : M W value :=
  block_renewal domain ;;;
  log Error "ACME" "Failed to generate cert domains=%s error=%s"
    [AStr domain; AStr (message err)] ;;;
  match certificateData with
  | Some r => if Str.truthy (cert r) then ret (VRecord r) else throw err
  | None => throw err
  end.

(** Lines 285-291 *)
Definition release (domain : string) (lock : Lock) : M W unit :=
  try_catch
    (call (ReleaseLock lock) (lock_release lock))
    (fun err =>
       log Error "Lock" "Failed to release lock for %s: %s"
         [AStr (domainOpLockKey domain); AErr err]).

(** Line 239 *)
Definition account_id (acmeAccount : AcmeAccount) : string :=
  Str.pop (Str.split "/acct/"
    (if Str.truthy (kid (acc_account acmeAccount))
     then match kid (acc_account acmeAccount) with Some k => k | None => "" end
     else "")).

(** Lines 220-270, from the account on. *)
Definition issue_cert (domain : string) (acmeOptions : AcmeOptions)
    (certificateData : CertificateRecord) (csr : string) : M W value :=
  acmeAccount <- getAcmeAccount acmeOptions ;;
  match acmeAccount with
  | None =>
      log Info "ACME" "Skip certificate renwal for %s, acme account not found"
        [AStr domain] ;;;
      ret VFalse
  | Some acmeAccount =>
      jwkAccount <- lift (pem2jwk (acc_key acmeAccount)) ;;
      let certificateOptions :=
        {| co_account := acc_account acmeAccount;
           co_accountKey := jwkAccount;
           co_csr := csr;
           co_domains := [domain] |} in
      log Info "ACME" "Generate ACME cert for %s (account=%s)"
        [AStr domain; AStr (account_id acmeAccount)] ;;;
      cert <- call (CertificatesCreate certificateOptions)
                (certificates_create certificateOptions) ;;
      match cert with
      | Some {| ac_cert := Some pem; ac_chain := chain |} =>
          if negb (String.eqb pem "") then
            log Info "ACME" "Received certificate from ACME for %s" [AStr domain] ;;;
            now_ <- now ;;
            parsed <- lift (fromPEM pem) ;;
            let updates :=
              {| u_cert := pem;
                 u_ca := chain;
                 u_validFrom := p_validFrom parsed;
                 u_expires := p_validTo parsed;
                 u_altNames := dnsNames parsed;
                 u_issuer := issuer_commonName parsed;
                 u_lastCheck := now_;
                 u_status := "valid" |} in
            updated <- call (CertUpdate (_id certificateData) updates)
                         (record_update (_id certificateData) updates) ;;
            if negb updated then
              log Error "ACME" "Failed to generate certificate for %s" [AStr domain] ;;;
              ret (of_cert cert)
            else
              log Info "ACME" "Certificate successfully generated for %s (expires %s)"
                [AStr domain; ANum (p_validTo parsed)] ;;;
              r <- call (GetRecord (ById (_id certificateData)))
                     (getRecord (ById (_id certificateData))) ;;
              ret (of_record r)
          else
            log Error "ACME" "Failed to generate certificate for %s" [AStr domain] ;;;
            ret (of_cert cert)
      | _ =>
          log Error "ACME" "Failed to generate certificate for %s" [AStr domain] ;;;
          ret (of_cert cert)
      end
  end.

(** Lines 201-270, on the record that the store returned under the
    lease; [null.expires] throws. *)
Definition renew (domain : string) (acmeOptions : AcmeOptions)
    (certificateData : option CertificateRecord) : M W value :=
  match certificateData with
  | None => throw type_error_expires
  | Some certificateData =>
      t <- now ;;
      if expires_after certificateData (t + RENEW_AFTER_REMAINING) then
        ret (VRecord certificateData)
      else
        privateKey <-
          (if Str.truthy (privateKey certificateData) then
             ret (match privateKey certificateData with Some k => k | None => "" end)
           else
             log Info "ACME" "Provision new private key for %s" [AStr domain] ;;;
             call (ResetPrivateKey (_id certificateData))
               (resetPrivateKey (_id certificateData))) ;;
        jwkPrivateKey <- lift (pem2jwk privateKey) ;;
        csr <- call (CsrCreate jwkPrivateKey [domain]) (csr_create jwkPrivateKey [domain]) ;;
        issue_cert domain acmeOptions certificateData csr
  end.

(** The [try]/[catch] of lines 198-284.  The variable [certificateData]
    is assigned once, when the re-fetch of line 200 has resolved: the
    handler sees the caller's record if the re-fetch throws and the
    re-fetched value afterwards. *)
Definition critical_section (domain : string) (acmeOptions : AcmeOptions)
    (certificateData : CertificateRecord) : M W value :=
  fun s =>
    match call (GetRecord (ById (_id certificateData)))
            (getRecord (ById (_id certificateData))) s with
    | (Return reloaded, s1) =>
        try_catch (renew domain acmeOptions reloaded) (on_failure domain reloaded) s1
    | (Throw err, s1) => on_failure domain (Some certificateData) err s1
    | (Pending, s1) => (Pending, s1)
    end.

(** The lazily built [getLock]/[releaseLock] of lines 188-195 only wrap
    the lock service and are not given a state of their own. *)
Definition acquireCert (domain : string) (acmeOptions : AcmeOptions)
    (certificateData : CertificateRecord) : M W value :=
  blocked <- call (RedisExists (domainSafeLockKey domain))
               (redis_exists (domainSafeLockKey domain)) ;;
  if negb (blocked =? 0) then
    log Info "ACME" "Renewal blocked by failsafe lock for %s" [AStr domain] ;;;
    ret (VRecord certificateData)
  else
    valid <- validated domain ;;
    if negb valid then ret (VRecord certificateData)
    else
      lock <- call (GetLock (domainOpLockKey domain) (10 * 60 * 1000) (3 * 60 * 1000))
                (waitAcquireLock (domainOpLockKey domain) (10 * 60 * 1000) (3 * 60 * 1000)) ;;
      try_finally
        (critical_section domain acmeOptions certificateData)
        (release domain lock).

(** *** getCertificate, lines 294-333 *)

Definition missing_certificate_error : error :=
  mkError "Missing certificate info for ${domain}" (Some "missing_certificate") (Some 404).

(** Lines 325-327: the call is not awaited.  The run given here is the
    one where the detached call completes before the caller goes on; its
    value is dropped and its error is logged. *)
Definition detached (domain : string) (task : M W value) : M W unit :=
  fun s =>
    match task s with
    | (Throw err, s') =>
        log Error "ACME" "Cert renewal error %s: %s" [AStr domain; AStr (message err)] s'
    | (_, s') => (Return tt, s')
    end.

Definition getCertificate (domain : string) (acmeOptions : AcmeOptions) : M W value :=
  ensureAcme acmeOptions ;;;
  let domain := normalizeDomain (Some domain) in
  certificateData <- call (GetRecord (ByServername domain))
                       (getRecord (ByServername domain)) ;;
  match certificateData with
  | None => throw missing_certificate_error
  | Some certificateData =>
      t <- now ;;
      if expires_after certificateData (t + FRESH_REMAINING) then
        ret (VRecord certificateData)
      else
        t' <- now ;;
        if expires_after certificateData t' then
          detached domain (acquireCert domain acmeOptions certificateData) ;;;
          ret (VRecord certificateData)
        else acquireCert domain acmeOptions certificateData
  end.

End Certs.

(* ===================================================================== *)
(** ** Callers of ensureAcme that overlap *)
(* ===================================================================== *)

(** The event loop runs one synchronous segment at a time.  A schedule is
    a list of such segments: caller [c] enters [ensureAcme], or the
    [acme.init] that caller [c] started settles and [c] resumes. *)
Module Interleaving.

Inductive action :=
| Call (c : nat)
| InitSettles (c : nat) (r : result unit).

Record Proc := {
  pvars : InitState;
  initiating : list nat;           (* callers whose acme.init is outstanding *)
  waiting : list (nat * nat);      (* queued callers and their promises *)
  ended : list (nat * outcome bool);
  notified : list event            (* resolve/reject calls on pending entries *)
}.

Definition proc0 : Proc :=
  {| pvars := init0; initiating := []; waiting := []; ended := []; notified := [] |}.

Definition step (p : Proc) (a : action) : Proc :=
  match a with
  | Call c =>
      match ensureAcme_enter (pvars p) with
      | Ready =>
          {| pvars := pvars p; initiating := initiating p; waiting := waiting p;
             ended := ended p ++ [(c, Return true)]; notified := notified p |}
      | Queued q v =>
          {| pvars := v; initiating := initiating p; waiting := waiting p ++ [(c, q)];
             ended := ended p; notified := notified p |}
      | Starts =>
          {| pvars := pvars p; initiating := initiating p ++ [c]; waiting := waiting p;
             ended := ended p; notified := notified p |}
      end
  | InitSettles c r =>
      if existsb (Nat.eqb c) (initiating p) then
        let '(v, evs, out) := ensureAcme_resume r (pvars p) in
        {| pvars := v;
           initiating := filter (fun c' => negb (Nat.eqb c c')) (initiating p);
           waiting := waiting p;
           ended := ended p ++ [(c, out)];
           notified := notified p ++ evs |}
      else p
  end.

Definition run (schedule : list action) (p : Proc) : Proc :=
  fold_left step schedule p.

(** Nothing assigns [true] to [acmeInitializing], so nobody is queued. *)
Definition nobody_waits (p : Proc) : Prop :=
  acmeInitializing (pvars p) = false /\
  acmeInitPending (pvars p) = [] /\
  waiting p = [].

End Interleaving.

(* ===================================================================== *)
(** ** A mock world *)
(* ===================================================================== *)

(** Scripted collaborators for running the module on explicit inputs: a
    set of Redis keys, a list of stored records, a DNS zone of CAA records,
    and fixed answers of the lock service, the CA and the store update. *)
Module Mock.

Record Script := {
  allow_list : list string;                       (* config.acme.caaDomains *)
  zone : list (string * list CaaRecord);          (* names with CAA records *)
  lock_answer : result Lock;
  ca_answer : result (option AcmeCert);
  update_answer : result bool;
  parse_answer : result ParsedCert
}.

Record World := {
  flags : list string;
  store : list CertificateRecord;
  settings : list (string * AcmeAccount);
  time : Z
}.

Definition error_of (msg : string) : error := mkError msg None None.

(** A lease that was obtained, and the answer to a wait that ran out of
    time. *)
Definition granted : Lock := {| lock_id := 1; success := true |}.
Definition not_granted : Lock := {| lock_id := 2; success := false |}.

Fixpoint lookup {A} (k : string) (l : list (string * A)) : option A :=
  match l with
  | [] => None
  | (k', a) :: l' => if String.eqb k k' then Some a else lookup k l'
  end.

Definition matches (q : query) (r : CertificateRecord) : bool :=
  match q with
  | ById id => _id r =? id
  | ByServername name => String.eqb (servername r) name
  end.

Definition apply_updates (u : CertUpdates) (r : CertificateRecord) : CertificateRecord :=
  {| _id := _id r; servername := servername r; privateKey := privateKey r;
     cert := Some (u_cert u); ca := u_ca u;
     validFrom := Some (u_validFrom u); expires := Some (u_expires u);
     altNames := u_altNames u; issuer := Some (u_issuer u);
     status := u_status u; lastCheck := Some (u_lastCheck u) |}.

Definition set_key (k : string) (r : CertificateRecord) : CertificateRecord :=
  {| _id := _id r; servername := servername r; privateKey := Some k;
     cert := cert r; ca := ca r; validFrom := validFrom r; expires := expires r;
     altNames := altNames r; issuer := issuer r; status := status r;
     lastCheck := lastCheck r |}.

Definition on_store (f : list CertificateRecord -> list CertificateRecord) (w : World) : World :=
  {| flags := flags w; store := f (store w); settings := settings w; time := time w |}.

Definition collaborators (sc : Script) : Collaborators World :=
  {| config_caaDomains := allow_list sc;
     normalizeDomain := fun o => match o with Some d => d | None => "" end;
     joi_domain := fun d => forallb (fun l => negb (String.eqb l "")) (Str.split "." d);
     resolveCaa_is_function := true;
     resolveCaa := fun name w =>
       match lookup name (zone sc) with
       | Some rs => (Ok rs, w)
       | None => (Err (error_of "ENODATA"), w)
       end;
     clock := fun w => (time w, w);
     redis_exists := fun k w =>
       (Ok (if existsb (String.eqb k) (flags w) then 1 else 0), w);
     redis_set_expire := fun k _ _ w =>
       (Ok tt, {| flags := k :: flags w; store := store w;
                  settings := settings w; time := time w |});
     waitAcquireLock := fun _ _ _ w => (lock_answer sc, w);
     lock_release := fun _ w => (Ok tt, w);
     getRecord := fun q w => (Ok (find (matches q) (store w)), w);
     resetPrivateKey := fun id w =>
       (Ok "fresh-key",
        on_store (map (fun r => if _id r =? id then set_key "fresh-key" r else r)) w);
     generateKey := fun _ _ w => (Ok "account-key", w);
     record_update := fun id u w =>
       match update_answer sc with
       | Ok true =>
           (Ok true,
            on_store (map (fun r => if _id r =? id then apply_updates u r else r)) w)
       | a => (a, w)
       end;
     pem2jwk := fun pem => Ok ("jwk:" ++ pem);
     csr_create := fun _ _ w => (Ok "csr", w);
     fromPEM := fun _ => parse_answer sc;
     settings_findOne := fun k w =>
       (Ok (match lookup k (settings w) with
            | Some v => Some {| doc_value := Some v |}
            | None => None
            end), w);
     settings_insertOne := fun k v _ w =>
       (Ok 1, {| flags := flags w; store := store w;
                 settings := (k, v) :: settings w; time := time w |});
     acme_init := fun _ w => (Ok tt, w);
     accounts_create := fun _ w => (Ok {| kid := Some "https://ca.test/acct/42" |}, w);
     certificates_create := fun _ w => (ca_answer sc, w) |}.

Definition start (w : World) : State World :=
  {| world := w; trace := []; vars := init0 |}.

(** A stored record of [example.com], with or without certificate. *)
Definition record (pem : option string) (exp : option Z) : CertificateRecord :=
  {| _id := 7; servername := "example.com"; privateKey := Some "site-key";
     cert := pem; ca := []; validFrom := None; expires := exp;
     altNames := []; issuer := None; status := "pending"; lastCheck := None |}.

Definition options : AcmeOptions :=
  {| key := "production"; directoryUrl := "https://ca.test/directory";
     email := "postmaster@example.com"; keyBits := 2048; keyExponent := 65537 |}.

Definition parsed : ParsedCert :=
  {| p_validFrom := 5000; p_validTo := 9000000000;
     dnsNames := ["example.com"]; issuer_commonName := "Test CA" |}.

Definition issued : AcmeCert :=
  {| ac_cert := Some "new-pem"; ac_chain := ["chain-pem"] |}.

(** The CA issues, the store refuses the update. *)
Definition update_refused : Script :=
  {| allow_list := []; zone := []; lock_answer := Ok granted;
     ca_answer := Ok (Some issued); update_answer := Ok false;
     parse_answer := Ok parsed |}.

(** Everything works. *)
Definition healthy : Script :=
  {| allow_list := []; zone := []; lock_answer := Ok granted;
     ca_answer := Ok (Some issued); update_answer := Ok true;
     parse_answer := Ok parsed |}.

(** The CA rejects the order. *)
Definition ca_down : Script :=
  {| allow_list := []; zone := []; lock_answer := Ok granted;
     ca_answer := Err (error_of "order failed"); update_answer := Ok true;
     parse_answer := Ok parsed |}.

(** The lock service rejects the request. *)
Definition lock_timeout : Script :=
  {| allow_list := []; zone := []; lock_answer := Err (error_of "lock timeout");
     ca_answer := Ok (Some issued); update_answer := Ok true;
     parse_answer := Ok parsed |}.

(** The wait for the lease runs out of time: the lock service resolves
    with a lock that was not obtained. *)
Definition lock_wait_timed_out : Script :=
  {| allow_list := []; zone := []; lock_answer := Ok not_granted;
     ca_answer := Ok (Some issued); update_answer := Ok true;
     parse_answer := Ok parsed |}.

Definition caa (issuer_name : string) : CaaRecord :=
  {| critical := 0; issue := Some issuer_name; issuewild := None; iodef := None |}.

(** An allow-list and a zone with CAA records at chosen names. *)
Definition with_zone (z : list (string * list CaaRecord)) : Script :=
  {| allow_list := ["letsencrypt.org"]; zone := z; lock_answer := Ok granted;
     ca_answer := Ok (Some issued); update_answer := Ok true;
     parse_answer := Ok parsed |}.

(** The world at time 1000 with the given Redis keys and stored records. *)
Definition world_of (keys : list string) (records : list CertificateRecord) : World :=
  {| flags := keys; store := records; settings := []; time := 1000 |}.

Definition state (w : World) (tr : list event) (v : InitState) : State World :=
  {| world := w; trace := tr; vars := v |}.

Definition initialized : InitState :=
  {| acmeInitialized := true; acmeInitializing := false;
     acmeInitPending := []; promises := O |}.

(** The calls of [acquireCert] for [example.com] up to the lease and up
    to the re-fetch, when validation makes no DNS query. *)
Definition until_lease : list event :=
  [RedisExists "d:lock:safe:example.com";
   Log Info "ACME" "Domain validation for %s passed" [AStr "example.com"];
   GetLock "d:lock:op:example.com" 600000 180000].

Definition until_refetch : list event :=
  (until_lease ++ [GetRecord (ById 7)])%list.

(** The collaborators of a script, with a directory that cannot be
    reached. *)
Definition unreachable (sc : Script) : Collaborators World :=
  {| config_caaDomains := @config_caaDomains _ (collaborators sc);
     normalizeDomain := @normalizeDomain _ (collaborators sc);
     joi_domain := @joi_domain _ (collaborators sc);
     resolveCaa_is_function := @resolveCaa_is_function _ (collaborators sc);
     resolveCaa := @resolveCaa _ (collaborators sc);
     clock := @clock _ (collaborators sc);
     redis_exists := @redis_exists _ (collaborators sc);
     redis_set_expire := @redis_set_expire _ (collaborators sc);
     waitAcquireLock := @waitAcquireLock _ (collaborators sc);
     lock_release := @lock_release _ (collaborators sc);
     getRecord := @getRecord _ (collaborators sc);
     resetPrivateKey := @resetPrivateKey _ (collaborators sc);
     generateKey := @generateKey _ (collaborators sc);
     record_update := @record_update _ (collaborators sc);
     pem2jwk := @pem2jwk _ (collaborators sc);
     csr_create := @csr_create _ (collaborators sc);
     fromPEM := @fromPEM _ (collaborators sc);
     settings_findOne := @settings_findOne _ (collaborators sc);
     settings_insertOne := @settings_insertOne _ (collaborators sc);
     acme_init := fun url w =>
       if String.eqb url "https://down.test/directory"
       then (Err (error_of "directory unreachable"), w)
       else (Ok tt, w);
     accounts_create := @accounts_create _ (collaborators sc);
     certificates_create := @certificates_create _ (collaborators sc) |}.

Definition options_down : AcmeOptions :=
  {| key := "production"; directoryUrl := "https://down.test/directory";
     email := "postmaster@example.com"; keyBits := 2048; keyExponent := 65537 |}.

Definition account : AcmeAccount :=
  {| acc_key := "account-key"; acc_account := {| kid := Some "https://ca.test/acct/42" |} |}.

(** A world in which the account of [options] is already stored. *)
Definition world_with_account (records : list CertificateRecord) : World :=
  {| flags := []; store := records;
     settings := [("acme:account:production", account)]; time := 1000 |}.

(** An allow-list whose only entry is empty, and a CAA record of another
    CA at [example.com]. *)
Definition blank_allow_list : Script :=
  {| allow_list := [""]; zone := [("example.com", [caa "X"])]; lock_answer := Ok granted;
     ca_answer := Ok (Some issued); update_answer := Ok true;
     parse_answer := Ok parsed |}.

End Mock.

(* ===================================================================== *)
(** ** Vocabulary of the statements *)
(* ===================================================================== *)

(** Events that set the cooldown flag or release a lease. *)
Definition lease_or_cooldown (ev : event) : bool :=
  match ev with
  | RedisSetExpire _ _ _ | ReleaseLock _ => true
  | _ => false
  end.

Definition sets_cooldown (ev : event) : bool :=
  match ev with
  | RedisSetExpire _ _ _ => true
  | _ => false
  end.

Definition spares_cooldown (ev : event) : bool := negb (sets_cooldown ev).

Definition contacts_ca (ev : event) : bool :=
  match ev with
  | CertificatesCreate _ | AccountsCreate _ => true
  | _ => false
  end.

(** Events that validation may cause. *)
Definition validation_event (ev : event) : bool :=
  match ev with
  | ResolveCaa _ | Log _ _ _ _ => true
  | _ => false
  end.

Definition is_log (ev : event) : bool :=
  match ev with
  | Log _ _ _ _ => true
  | _ => false
  end.

(** [certificateData && certificateData.cert] *)
Definition carries_cert (o : option CertificateRecord) : bool :=
  match o with
  | Some r => Str.truthy (cert r)
  | None => false
  end.

(** The labels of a domain are read off its suffixes: every suffix of at
    least two labels, the longest first.  This follows the wording "from
    the full name up to but not including the bare TLD". *)
Fixpoint label_suffixes (labels : list string) : list string :=
  match labels with
  | [] => []
  | l :: rest =>
      match rest with
      | [] => []
      | _ :: _ => Str.join "." labels :: label_suffixes rest
      end
  end.

Definition failed_to_generate (domain : string) : event :=
  Log Error "ACME" "Failed to generate certificate for %s" [AStr domain].

(** The [updates] of lines 252-261 for a certificate [pem] with [chain]
    that parses as [parsed], when the clock shows [now_]. *)
Definition written (pem : string) (chain : list string) (parsed : ParsedCert) (now_ : Z)
    : CertUpdates :=
  {| u_cert := pem; u_ca := chain;
     u_validFrom := p_validFrom parsed; u_expires := p_validTo parsed;
     u_altNames := dnsNames parsed; u_issuer := issuer_commonName parsed;
     u_lastCheck := now_; u_status := "valid" |}.

Section Vocabulary.
Context {W : Type} {C : Collaborators W}.

(** Three properties in the words of the specification, to be tested on
    runs.  After a failure under the lease: the cooldown flag is written,
    and the prior record is returned if it carries a certificate, the
    failure is thrown otherwise. *)
Definition cooldown_then_degrade (prior : CertificateRecord)
    (out : outcome value * State W) : Prop :=
  existsb sets_cooldown (trace (snd out)) = true /\
  if carries_cert (Some prior) then fst out = Return (VRecord prior)
  else exists e, fst out = Throw e.

(** The caller gets a record or an error. *)
Definition record_or_error (out : outcome value * State W) : Prop :=
  (exists r, fst out = Return (VRecord r)) \/ (exists e, fst out = Throw e).

Definition later (r' r : CertificateRecord) : bool :=
  match expires r', expires r with
  | Some e', Some e => e <? e'
  | _, _ => false
  end.

(** For an expired record: a record with a later expiry, or the original
    record when issuance failed and it carries certificate data, or an
    error. *)
Definition renewed_or_degraded (original : CertificateRecord)
    (out : outcome value * State W) : Prop :=
  (exists r, fst out = Return (VRecord r) /\ later r original = true) \/
  (fst out = Return (VRecord original) /\
   carries_cert (Some original) = true /\
   existsb contacts_ca (trace (snd out)) = true) \/
  (exists e, fst out = Throw e).

(** The CAA walk in the words of the specification, as a relation
    between the names still to query, the state before, and the outcome
    and state after. *)
Inductive caa_walk (domain : string)
  : list string -> State W -> outcome bool * State W -> Prop :=
| walk_completed s :
    caa_walk domain [] s (Return true, s)
| walk_resolution_failure name rest s e w out :
    resolveCaa name (world s) = (Err e, w) ->
    caa_walk domain rest (set_world w (emit (ResolveCaa name) s)) out ->
    caa_walk domain (name :: rest) s out
| walk_no_records name rest s w out :
    resolveCaa name (world s) = (Ok [], w) ->
    caa_walk domain rest (set_world w (emit (ResolveCaa name) s)) out ->
    caa_walk domain (name :: rest) s out
| walk_mismatch name rest s rs w :
    resolveCaa name (world s) = (Ok rs, w) ->
    rs <> [] ->
    (forall r, In r rs ->
       Str.includes config_caaDomains (normalizeDomain (issue r)) = false) ->
    caa_walk domain (name :: rest) s
      (Throw (caa_mismatch_error name domain),
       set_world w (emit (ResolveCaa name) s))
| walk_authorized name rest s rs w r :
    resolveCaa name (world s) = (Ok rs, w) ->
    In r rs ->
    Str.includes config_caaDomains (normalizeDomain (issue r)) = true ->
    caa_walk domain (name :: rest) s
      (Return true,
       emit (Log Info "ACME" "Found matching CAA record for %s (%s)"
               [AStr name; AStr domain])
         (set_world w (emit (ResolveCaa name) s))).

(** The loop of [validateDomain] ends the function with [true]. *)
Definition as_true (out : outcome unit * State W) : outcome bool * State W :=
  (match fst out with
   | Return _ => Return true
   | Throw e => Throw e
   | Pending => Pending
   end, snd out).

(** The trace of [s'] continues the trace of [s] with events that
    satisfy [P]. *)
Definition adds (P : event -> bool) (s s' : State W) : Prop :=
  exists l, trace s' = (trace s ++ l)%list /\ forallb P l = true.

Definition grows (s s' : State W) : Prop := adds (fun _ => true) s s'.

(** ... and [ev] is among the events added. *)
Definition emitted (ev : event) (s s' : State W) : Prop :=
  exists l, trace s' = (trace s ++ l)%list /\ In ev l.

(** Every run of [m] adds only events that satisfy [P]. *)
Definition within (P : event -> bool) {A} (m : M W A) : Prop :=
  forall s, adds P s (snd (m s)).

Definition monotone {A} (m : M W A) : Prop := within (fun _ => true) m.

(** What can be said of the values returned: never [false], and a CA
    response only after the failure was logged for the domain. *)
Definition reports_failure (domain : string) (s : State W)
    (out : outcome value * State W) : Prop :=
  match fst out with
  | Return VFalse => False
  | Return (VCert _) => emitted (failed_to_generate domain) s (snd out)
  | _ => True
  end.

(** The cooldown flag is clear and validation has passed: [acquireCert]
    started in [s] is about to ask for the lease in [s2]. *)
Definition reaches_lock (domain : string) (s s2 : State W) : Prop :=
  exists w1,
    redis_exists (domainSafeLockKey domain) (world s) = (Ok 0, w1) /\
    validated domain (set_world w1 (emit (RedisExists (domainSafeLockKey domain)) s))
      = (Return true, s2).

(** The request for the lease of [acquireCert] started in [s] has
    resolved with [lock] in [s3]. *)
Definition holds_lease (domain : string) (s : State W) (lock : Lock) (s3 : State W) : Prop :=
  exists s2 w3,
    reaches_lock domain s s2 /\
    waitAcquireLock (domainOpLockKey domain) (10 * 60 * 1000) (3 * 60 * 1000) (world s2)
      = (Ok lock, w3) /\
    s3 = set_world w3
           (emit (GetLock (domainOpLockKey domain) (10 * 60 * 1000) (3 * 60 * 1000)) s2).

(** ... and the re-fetch of line 200 has returned [reloaded] in [s4]. *)
Definition reloads (domain : string) (certificateData : CertificateRecord)
    (s : State W) (lock : Lock) (reloaded : option CertificateRecord) (s4 : State W) : Prop :=
  exists s3 w4,
    holds_lease domain s lock s3 /\
    getRecord (ById (_id certificateData)) (world s3) = (Ok reloaded, w4) /\
    s4 = set_world w4 (emit (GetRecord (ById (_id certificateData))) s3).

(** The private key [k] of lines 206-211 for the record [r], from [s] to
    [s']: the stored key, or the key that the store sets. *)
Definition private_key (domain : string) (r : CertificateRecord) (s : State W)
    (k : string) (s' : State W) : Prop :=
  if Str.truthy (privateKey r) then privateKey r = Some k /\ s' = s
  else
    exists w,
      resetPrivateKey (_id r) (world s) = (Ok k, w) /\
      s' = set_world w
             (emit (ResetPrivateKey (_id r))
                (emit (Log Info "ACME" "Provision new private key for %s" [AStr domain]) s)).

(** Every step of lines 201-270 succeeds on the record [r] re-fetched in
    [s4]: [r] is not fresh, a key and a CSR are obtained, the account is
    available, the CA answers with the certificate [pem] and [chain],
    [pem] parses as [parsed], the clock shows [now_], the store accepts
    the update and then gives back [renewed]. *)
Definition issues (domain : string) (acmeOptions : AcmeOptions) (r : CertificateRecord)
    (s4 : State W) (pem : string) (chain : list string) (parsed : ParsedCert) (now_ : Z)
    (renewed : option CertificateRecord) : Prop :=
  exists t w5 k s6 jwk csr w7 acmeAccount s8 jwkAccount w9 w10 w11 w12,
    clock (world s4) = (t, w5) /\
    expires_after r (t + RENEW_AFTER_REMAINING) = false /\
    private_key domain r (set_world w5 s4) k s6 /\
    pem2jwk k = Ok jwk /\
    csr_create jwk [domain] (world s6) = (Ok csr, w7) /\
    getAcmeAccount acmeOptions (set_world w7 (emit (CsrCreate jwk [domain]) s6))
      = (Return (Some acmeAccount), s8) /\
    pem2jwk (acc_key acmeAccount) = Ok jwkAccount /\
    certificates_create
      {| co_account := acc_account acmeAccount; co_accountKey := jwkAccount;
         co_csr := csr; co_domains := [domain] |} (world s8)
      = (Ok (Some {| ac_cert := Some pem; ac_chain := chain |}), w9) /\
    String.eqb pem "" = false /\
    clock w9 = (now_, w10) /\
    fromPEM pem = Ok parsed /\
    record_update (_id r) (written pem chain parsed now_) w10 = (Ok true, w11) /\
    getRecord (ById (_id r)) w11 = (Ok renewed, w12).

(** The lease was not obtained, in the words of the specification: the
    failure is thrown to the caller, no cooldown flag is written and no
    lease is released. *)
Definition lease_failure_propagated (s : State W) (out : outcome value * State W) : Prop :=
  (exists e, fst out = Throw e) /\
  adds (fun ev => negb (lease_or_cooldown ev)) s (snd out).

(** [getCertificate] started in [s] has found the record
    [certificateData], read the clock twice and seen [expires <= now]:
    it is about to call [acquireCert] in [s3]. *)
Definition finds_expired (domain : string) (acmeOptions : AcmeOptions)
    (s : State W) (certificateData : CertificateRecord) (s3 : State W) : Prop :=
  exists s1 w2 t w3 t' w4,
    ensureAcme acmeOptions s = (Return true, s1) /\
    getRecord (ByServername (normalizeDomain (Some domain))) (world s1)
      = (Ok (Some certificateData), w2) /\
    clock w2 = (t, w3) /\
    expires_after certificateData (t + FRESH_REMAINING) = false /\
    clock w3 = (t', w4) /\
    expires_after certificateData t' = false /\
    s3 = set_world w4
           (emit (GetRecord (ByServername (normalizeDomain (Some domain)))) s1).

End Vocabulary.

(* ===================================================================== *)
(** ** Footprints *)
(* ===================================================================== *)

(** The calls a function may make, as predicates on events.  [one d ds]
    is [ds = [d]]. *)
Definition one (d : string) (ds : list string) : bool :=
  match ds with
  | [d'] => String.eqb d' d
  | _ => false
  end.

Definition same_id (id : option Z) (id' : Z) : bool :=
  match id with
  | Some i => id' =? i
  | None => true
  end.

(** [ensureAcme] and [getAcmeAccount] for the options [o]: the directory
    of [o], the settings entry of the account key of [o], a key of the
    size asked for, a registration under the e-mail of [o] with the terms
    agreed. *)
Definition account_event (o : AcmeOptions) (ev : event) : bool :=
  match ev with
  | AcmeInit url => String.eqb url (directoryUrl o)
  | Resolve _ | Reject _ _ | Log _ _ _ _ => true
  | SettingsFindOne k => String.eqb k ("acme:account:" ++ key o)
  | SettingsInsertOne k _ _ => String.eqb k ("acme:account:" ++ key o)
  | GenerateKey bits exponent => (bits =? keyBits o) && (exponent =? keyExponent o)
  | AccountsCreate ao => String.eqb (subscriberEmail ao) (email o) && agreeToTerms ao
  | _ => false
  end.

(** The issuance steps for the domain [d] on the record [id]: a CSR and
    an order for [[d]] alone, an update of that record to status [valid]
    with a certificate that is not empty, a re-read of that record. *)
Definition issuance_event (d : string) (o : AcmeOptions) (id : option Z) (ev : event) : bool :=
  account_event o ev ||
  match ev with
  | CsrCreate _ ds => one d ds
  | CertificatesCreate co => one d (co_domains co)
  | CertUpdate id' u =>
      same_id id id' && String.eqb (u_status u) "valid" && negb (String.eqb (u_cert u) "")
  | GetRecord (ById id') => same_id id id'
  | _ => false
  end.

(** ... and the provision of a private key for that record. *)
Definition renewal_event (d : string) (o : AcmeOptions) (id : option Z) (ev : event) : bool :=
  issuance_event d o id ev ||
  match ev with
  | ResetPrivateKey id' => same_id id id'
  | _ => false
  end.

(** The critical section: the renewal of some record and the write of the
    cooldown flag of [d] with value 1 and the configured lifetime. *)
Definition critical_event (d : string) (o : AcmeOptions) (ev : event) : bool :=
  renewal_event d o None ev ||
  match ev with
  | RedisSetExpire k v ttl =>
      String.eqb k (domainSafeLockKey d) && (v =? 1) && (ttl =? BLOCK_RENEW_AFTER_ERROR_TTL)
  | _ => false
  end.

(** [acquireCert]: the critical section, the read of the cooldown flag of
    [d], CAA queries, and the lease of [d] for ten minutes with a wait of
    three. *)
Definition acquire_event (d : string) (o : AcmeOptions) (ev : event) : bool :=
  critical_event d o ev ||
  match ev with
  | RedisExists k => String.eqb k (domainSafeLockKey d)
  | ResolveCaa _ | ReleaseLock _ => true
  | GetLock k ttl wait =>
      String.eqb k (domainOpLockKey d) && (ttl =? 600000) && (wait =? 180000)
  | _ => false
  end.

Definition is_release (ev : event) : bool :=
  match ev with
  | ReleaseLock _ => true
  | _ => false
  end.

Definition is_insert (ev : event) : bool :=
  match ev with
  | SettingsInsertOne _ _ _ => true
  | _ => false
  end.

(** The names of the CAA queries among some events, in order. *)
Definition queried (l : list event) : list string :=
  flat_map (fun ev => match ev with ResolveCaa name => [name] | _ => [] end) l.

Section Dispatching.
Context {W : Type} {C : Collaborators W}.

(** [getCertificate]: the initialization, the lookup of the record by the
    normalized name, and [acquireCert] for that name. *)
Definition dispatch_event (domain : string) (o : AcmeOptions) (ev : event) : bool :=
  acquire_event (normalizeDomain (Some domain)) o ev ||
  match ev with
  | GetRecord (ByServername name) => String.eqb name (normalizeDomain (Some domain))
  | _ => false
  end.

End Dispatching.

Section Settling.
Context {W : Type}.

(** Started with [acmeInitializing] unset, [m] settles and leaves it
    unset. *)
Definition settles {A} (m : M W A) : Prop :=
  forall s, acmeInitializing (vars s) = false ->
    fst (m s) <> Pending /\ acmeInitializing (vars (snd (m s))) = false.

End Settling.

(* ===================================================================== *)
(** ** Running the monad *)
(* ===================================================================== *)

Section Running.
Context {W : Type} {C : Collaborators W}.

Lemma bind_return {A B} (m : M W A) (k : A -> M W B) s a s' :
  m s = (Return a, s') -> bind m k s = k a s'.
Proof. intros H. unfold bind. rewrite H. reflexivity. Qed.

Lemma bind_throw {A B} (m : M W A) (k : A -> M W B) s e s' :
  m s = (Throw e, s') -> bind m k s = (Throw e, s').
Proof. intros H. unfold bind. rewrite H. reflexivity. Qed.

Lemma bind_pending {A B} (m : M W A) (k : A -> M W B) s s' :
  m s = (Pending, s') -> bind m k s = (Pending, s').
Proof. intros H. unfold bind. rewrite H. reflexivity. Qed.

Lemma call_ok {A} ev (f : W -> result A * W) s a w :
  f (world s) = (Ok a, w) -> call ev f s = (Return a, set_world w (emit ev s)).
Proof. intros H. unfold call. rewrite H. reflexivity. Qed.

Lemma call_err {A} ev (f : W -> result A * W) s e w :
  f (world s) = (Err e, w) -> call ev f s = (Throw e, set_world w (emit ev s)).
Proof. intros H. unfold call. rewrite H. reflexivity. Qed.

(** A collaborator call settles and records exactly its own event. *)
Lemma call_cases {A} ev (f : W -> result A * W) s :
  exists w,
    (exists a, call ev f s = (Return a, set_world w (emit ev s))) \/
    (exists e, call ev f s = (Throw e, set_world w (emit ev s))).
Proof.
  unfold call. destruct (f (world s)) as [[a | e] w]; exists w; eauto.
Qed.

Lemma trace_emit ev (s : State W) : trace (emit ev s) = (trace s ++ [ev])%list.
Proof. reflexivity. Qed.

Lemma trace_set_world w (s : State W) : trace (set_world w s) = trace s.
Proof. reflexivity. Qed.

End Running.

(* ===================================================================== *)
(** ** Validation inside acquireCert *)
(* ===================================================================== *)

Section Validation.
Context {W : Type} {C : Collaborators W}.

Lemma query_caa_ok subdomain (s : State W) rs w :
  resolveCaa subdomain (world s) = (Ok rs, w) ->
  query_caa subdomain s = (Return (Some rs), set_world w (emit (ResolveCaa subdomain) s)).
Proof.
  intros H. unfold query_caa, try_catch.
  rewrite (bind_return _ _ _ _ _ (call_ok _ _ _ _ _ H)). reflexivity.
Qed.

Lemma query_caa_err subdomain (s : State W) e w :
  resolveCaa subdomain (world s) = (Err e, w) ->
  query_caa subdomain s = (Return None, set_world w (emit (ResolveCaa subdomain) s)).
Proof.
  intros H. unfold query_caa, try_catch.
  rewrite (bind_throw _ _ _ _ _ (call_err _ _ _ _ _ H)). reflexivity.
Qed.

(** The loop settles, and all it does outside is query and log. *)
Lemma caa_loop_events domain parts todo :
  forall s : State W,
  exists evs,
    trace (snd (caa_loop domain parts todo s)) = (trace s ++ evs)%list /\
    forallb validation_event evs = true /\
    vars (snd (caa_loop domain parts todo s)) = vars s /\
    (fst (caa_loop domain parts todo s) = Return tt \/
     exists sub, fst (caa_loop domain parts todo s) = Throw (caa_mismatch_error sub domain)).
Proof.
  induction todo as [| i rest IH]; intros s.
  - exists []. cbn. rewrite app_nil_r. repeat split; auto.
  - cbn [caa_loop].
    destruct (resolveCaa (Str.join "." (Str.slice i parts)) (world s)) as [[rs | e] w] eqn:E.
    + rewrite (bind_return _ _ _ _ _ (query_caa_ok _ _ _ _ E)).
      cbn [caa_present caa_records].
      destruct (negb (Nat.eqb (List.length rs) 0)) eqn:P; cbn [andb].
      * destruct (negb (caa_listed rs)).
        -- exists [ResolveCaa (Str.join "." (Str.slice i parts))]. cbn. repeat split; eauto.
        -- eexists [ResolveCaa (Str.join "." (Str.slice i parts)); _]. cbn.
           rewrite <- app_assoc. cbn. repeat split; auto.
      * destruct (IH (set_world w (emit (ResolveCaa (Str.join "." (Str.slice i parts))) s)))
          as (evs & Ht & Hev & Hv & Hr).
        exists (ResolveCaa (Str.join "." (Str.slice i parts)) :: evs).
        rewrite Ht, Hv. cbn. rewrite <- app_assoc. cbn. repeat split; auto.
    + rewrite (bind_return _ _ _ _ _ (query_caa_err _ _ _ _ E)).
      cbn [caa_present andb].
      destruct (IH (set_world w (emit (ResolveCaa (Str.join "." (Str.slice i parts))) s)))
        as (evs & Ht & Hev & Hv & Hr).
      exists (ResolveCaa (Str.join "." (Str.slice i parts)) :: evs).
      rewrite Ht, Hv. cbn. rewrite <- app_assoc. cbn. repeat split; auto.
Qed.

(** [validateDomain] returns [true] or throws one of its two errors. *)
Lemma validateDomain_events domain (s : State W) :
  exists evs,
    trace (snd (validateDomain domain s)) = (trace s ++ evs)%list /\
    forallb validation_event evs = true /\
    vars (snd (validateDomain domain s)) = vars s /\
    (fst (validateDomain domain s) = Return true \/
     fst (validateDomain domain s) = Throw invalid_domain_error \/
     exists sub, fst (validateDomain domain s) = Throw (caa_mismatch_error sub domain)).
Proof.
  unfold validateDomain.
  destruct (negb (joi_domain domain)).
  - exists []. cbn. rewrite app_nil_r. repeat split; auto.
  - destruct (resolveCaa_is_function && negb (Nat.eqb (List.length caaDomains) 0)).
    + destruct (caa_loop_events domain (Str.split "." domain)
                  (seq 0 (List.length (Str.split "." domain) - 1)) s)
        as (evs & Ht & Hev & Hv & Hr).
      exists evs. unfold bind.
      destruct (caa_loop domain (Str.split "." domain)
                  (seq 0 (List.length (Str.split "." domain) - 1)) s) as [[[] | e |] s'];
        cbn in *; destruct Hr as [Hr | [sub Hr]]; try discriminate;
        repeat split; auto; right; right; exists sub; congruence.
    + exists []. cbn. rewrite app_nil_r. repeat split; auto.
Qed.

(** The [try]/[catch] around validation never throws. *)
Lemma validated_events domain (s : State W) :
  exists evs b,
    fst (validated domain s) = Return b /\
    trace (snd (validated domain s)) = (trace s ++ evs)%list /\
    forallb validation_event evs = true /\
    vars (snd (validated domain s)) = vars s.
Proof.
  destruct (validateDomain_events domain s) as (evs & Ht & Hev & Hv & Hr).
  unfold validated, try_catch, bind.
  destruct (validateDomain domain s) as [[b | e |] s']; cbn in *.
  - eexists (evs ++ [_])%list, true. rewrite Ht, forallb_app, Hev, app_assoc. repeat split; auto.
  - eexists (evs ++ [_])%list, false. rewrite Ht, forallb_app, Hev, app_assoc. repeat split; auto.
  - destruct Hr as [Hr | [Hr | [sub Hr]]]; discriminate.
Qed.

Lemma validated_failure domain (s : State W) e s2 :
  validateDomain domain s = (Throw e, s2) ->
  validated domain s =
    (Return false,
     emit (Log Error "ACME" "Failed to validate domain %s: %s"
             [AStr domain; AStr (message e)]) s2).
Proof.
  intros H. unfold validated, try_catch.
  rewrite (bind_throw _ _ _ _ _ H). reflexivity.
Qed.

End Validation.

(* ===================================================================== *)
(** ** acquireCert before the lease *)
(* ===================================================================== *)

Lemma validation_event_harmless evs :
  forallb validation_event evs = true ->
  forallb (fun ev => negb (lease_or_cooldown ev)) evs = true.
Proof.
  induction evs as [| ev evs IH]; cbn; [reflexivity |].
  intros H. apply andb_true_iff in H as [Hev H].
  rewrite (IH H), andb_true_r. destruct ev; try discriminate; reflexivity.
Qed.

Section BeforeLease.
Context {W : Type} {C : Collaborators W}.

Lemma acquireCert_blocked domain acmeOptions certificateData (s : State W) n w :
  redis_exists (domainSafeLockKey domain) (world s) = (Ok n, w) ->
  n <> 0 ->
  acquireCert domain acmeOptions certificateData s =
    (Return (VRecord certificateData),
     emit (Log Info "ACME" "Renewal blocked by failsafe lock for %s" [AStr domain])
       (set_world w (emit (RedisExists (domainSafeLockKey domain)) s))).
Proof.
  intros Hex Hn. unfold acquireCert.
  rewrite (bind_return _ _ _ _ _ (call_ok _ _ _ _ _ Hex)).
  apply Z.eqb_neq in Hn. rewrite Hn. reflexivity.
Qed.

(** C4.  When the cooldown flag of the domain is set, [acquireCert]
    returns the record it was given.  The only call that leaves the
    module is the [exists] on the flag, followed by one log line: no lock
    is requested, no validation (DNS) query, no store fetch and no CA
    call is made, and the world is the one the [exists] call left. *)
Theorem acquireCert_cooldown_gate domain acmeOptions certificateData (s : State W) n w :
  redis_exists (domainSafeLockKey domain) (world s) = (Ok n, w) ->
  n <> 0 ->
  fst (acquireCert domain acmeOptions certificateData s) = Return (VRecord certificateData) /\
  trace (snd (acquireCert domain acmeOptions certificateData s)) =
    (trace s ++ [RedisExists (domainSafeLockKey domain);
                 Log Info "ACME" "Renewal blocked by failsafe lock for %s" [AStr domain]])%list /\
  world (snd (acquireCert domain acmeOptions certificateData s)) = w /\
  vars (snd (acquireCert domain acmeOptions certificateData s)) = vars s.
Proof.
  intros Hex Hn.
  rewrite (acquireCert_blocked domain acmeOptions certificateData s n w Hex Hn). cbn.
  rewrite <- app_assoc. auto.
Qed.

(** C9.  When [validateDomain] fails on the domain, [acquireCert] returns
    the record it was given: with the flag clear it logs the failure and
    stops there, and the error, which is one of [invalid_domain] and
    [caa_mismatch], is not thrown. *)
Theorem acquireCert_absorbs_validation_failure
    domain acmeOptions certificateData (s : State W) n w1 e s2 :
  redis_exists (domainSafeLockKey domain) (world s) = (Ok n, w1) ->
  validateDomain domain (set_world w1 (emit (RedisExists (domainSafeLockKey domain)) s))
    = (Throw e, s2) ->
  fst (acquireCert domain acmeOptions certificateData s) = Return (VRecord certificateData) /\
  (n = 0 ->
   acquireCert domain acmeOptions certificateData s =
     (Return (VRecord certificateData),
      emit (Log Error "ACME" "Failed to validate domain %s: %s"
              [AStr domain; AStr (message e)]) s2)) /\
  (e = invalid_domain_error \/ exists sub, e = caa_mismatch_error sub domain).
Proof.
  intros Hex Hv.
  assert (Hrun : n = 0 ->
    acquireCert domain acmeOptions certificateData s =
      (Return (VRecord certificateData),
       emit (Log Error "ACME" "Failed to validate domain %s: %s"
               [AStr domain; AStr (message e)]) s2)).
  { intros ->. unfold acquireCert.
    rewrite (bind_return _ _ _ _ _ (call_ok _ _ _ _ _ Hex)). cbn [Z.eqb negb].
    rewrite (bind_return _ _ _ _ _ (validated_failure _ _ _ _ Hv)). reflexivity. }
  split; [| split; [exact Hrun |]].
  - destruct (Z.eq_dec n 0) as [Hn | Hn].
    + rewrite (Hrun Hn). reflexivity.
    + rewrite (acquireCert_blocked domain acmeOptions certificateData s n w1 Hex Hn).
      reflexivity.
  - destruct (validateDomain_events domain
                (set_world w1 (emit (RedisExists (domainSafeLockKey domain)) s)))
      as (evs & _ & _ & _ & Hr).
    rewrite Hv in Hr. cbn in Hr.
    destruct Hr as [Hr | [Hr | [sub Hr]]]; [discriminate | left | right; exists sub];
      congruence.
Qed.

(** When the request for the operation lease is rejected, [acquireCert]
    throws that failure.  Among the calls it has made there is no write
    of the cooldown flag and no release of a lease, and the request for
    the lease is the last of them. *)
Lemma acquireCert_lock_rejected domain acmeOptions certificateData (s s2 : State W) e w3 :
  reaches_lock domain s s2 ->
  waitAcquireLock (domainOpLockKey domain) (10 * 60 * 1000) (3 * 60 * 1000) (world s2)
    = (Err e, w3) ->
  fst (acquireCert domain acmeOptions certificateData s) = Throw e /\
  exists evs,
    trace (snd (acquireCert domain acmeOptions certificateData s)) =
      (trace s ++ evs ++
         [GetLock (domainOpLockKey domain) (10 * 60 * 1000) (3 * 60 * 1000)])%list /\
    forallb (fun ev => negb (lease_or_cooldown ev)) evs = true.
Proof.
  intros (w1 & Hex & Hval) Hlock. unfold acquireCert.
  rewrite (bind_return _ _ _ _ _ (call_ok _ _ _ _ _ Hex)). cbn [Z.eqb negb].
  rewrite (bind_return _ _ _ _ _ Hval). cbn [negb].
  rewrite (bind_throw _ _ _ _ _ (call_err _ _ _ _ _ Hlock)).
  split; [reflexivity |].
  destruct (validated_events domain
              (set_world w1 (emit (RedisExists (domainSafeLockKey domain)) s)))
    as (evs & b & _ & Ht & Hev & _).
  rewrite Hval in Ht. cbn in Ht.
  exists (RedisExists (domainSafeLockKey domain) :: evs). cbn.
  rewrite Ht, <- !app_assoc. cbn.
  split; [reflexivity | apply validation_event_harmless, Hev].
Qed.

End BeforeLease.

(* ===================================================================== *)
(** ** acquireCert under the lease *)
(* ===================================================================== *)

Section UnderLease.
Context {W : Type} {C : Collaborators W}.

(** Releasing never throws: a failure is logged. *)
Lemma release_run domain lock (s : State W) :
  exists s' l,
    release domain lock s = (Return tt, s') /\
    trace s' = (trace s ++ ReleaseLock lock :: l)%list /\
    forallb is_log l = true /\
    vars s' = vars s.
Proof.
  unfold release, try_catch, call.
  destruct (lock_release lock (world s)) as [[[] | e] w].
  - eexists _, []. split; [reflexivity |]. cbn. auto.
  - eexists _, [_]. split; [reflexivity |]. cbn. rewrite <- app_assoc. cbn. auto.
Qed.

(** Setting the cooldown flag never throws: a failure is logged. *)
Lemma block_renewal_run domain (s : State W) :
  exists s' l,
    block_renewal domain s = (Return tt, s') /\
    trace s' =
      (trace s ++
         RedisSetExpire (domainSafeLockKey domain) 1 BLOCK_RENEW_AFTER_ERROR_TTL :: l)%list /\
    forallb is_log l = true /\
    vars s' = vars s.
Proof.
  unfold block_renewal, try_catch, call.
  destruct (redis_set_expire (domainSafeLockKey domain) 1 BLOCK_RENEW_AFTER_ERROR_TTL (world s))
    as [[[] | e] w].
  - eexists _, []. split; [reflexivity |]. cbn. auto.
  - eexists _, [_]. split; [reflexivity |]. cbn. rewrite <- app_assoc. cbn. auto.
Qed.

Lemma try_finally_release {A} (body : M W A) domain lock (s : State W) :
  try_finally body (release domain lock) s =
    match body s with
    | (Pending, s') => (Pending, s')
    | (r, s') => (r, snd (release domain lock s'))
    end.
Proof.
  unfold try_finally. destruct (body s) as [[a | e |] s']; [| | reflexivity];
    destruct (release_run domain lock s') as (s'' & l & Hr & _); rewrite Hr; reflexivity.
Qed.

Lemma acquireCert_under_lease domain acmeOptions certificateData (s : State W) lock s3 :
  holds_lease domain s lock s3 ->
  acquireCert domain acmeOptions certificateData s =
    try_finally (critical_section domain acmeOptions certificateData)
      (release domain lock) s3.
Proof.
  intros (s2 & w3 & (w1 & Hex & Hval) & Hlock & ->). unfold acquireCert.
  rewrite (bind_return _ _ _ _ _ (call_ok _ _ _ _ _ Hex)). cbn [Z.eqb negb].
  rewrite (bind_return _ _ _ _ _ Hval). cbn [negb].
  rewrite (bind_return _ _ _ _ _ (call_ok _ _ _ _ _ Hlock)). reflexivity.
Qed.

Lemma acquireCert_reloaded domain acmeOptions certificateData (s : State W) lock reloaded s4 :
  reloads domain certificateData s lock reloaded s4 ->
  acquireCert domain acmeOptions certificateData s =
    try_finally
      (fun _ => try_catch (renew domain acmeOptions reloaded) (on_failure domain reloaded) s4)
      (release domain lock) s4.
Proof.
  intros (s3 & w4 & Hlease & Hget & ->).
  rewrite (acquireCert_under_lease _ _ _ _ _ _ Hlease).
  unfold try_finally, critical_section.
  rewrite (call_ok _ _ _ _ _ Hget). reflexivity.
Qed.

(** What the handler of line 271 does with an error [e] thrown in [s5]. *)
Lemma on_failure_run domain reloaded e (s5 : State W) :
  on_failure domain reloaded e s5 =
    (if carries_cert reloaded then Return (of_record reloaded) else Throw e,
     emit (Log Error "ACME" "Failed to generate cert domains=%s error=%s"
             [AStr domain; AStr (message e)])
       (snd (block_renewal domain s5))).
Proof.
  unfold on_failure.
  destruct (block_renewal_run domain s5) as (s6 & l & Hb & _).
  rewrite (bind_return _ _ _ _ _ Hb), Hb. cbn.
  destruct reloaded as [r |]; cbn; [destruct (Str.truthy (cert r)) |]; reflexivity.
Qed.

Lemma acquireCert_step_throws domain acmeOptions certificateData (s : State W)
    lock reloaded s4 e s5 :
  reloads domain certificateData s lock reloaded s4 ->
  renew domain acmeOptions reloaded s4 = (Throw e, s5) ->
  acquireCert domain acmeOptions certificateData s =
    (if carries_cert reloaded then Return (of_record reloaded) else Throw e,
     snd (release domain lock
            (emit (Log Error "ACME" "Failed to generate cert domains=%s error=%s"
                     [AStr domain; AStr (message e)])
               (snd (block_renewal domain s5))))).
Proof.
  intros Hre Hthrow.
  rewrite (acquireCert_reloaded _ _ _ _ _ _ _ Hre), try_finally_release.
  unfold try_catch. rewrite Hthrow, on_failure_run.
  destruct (carries_cert reloaded); reflexivity.
Qed.

Lemma acquireCert_step_returns domain acmeOptions certificateData (s : State W)
    lock reloaded s4 v s5 :
  reloads domain certificateData s lock reloaded s4 ->
  renew domain acmeOptions reloaded s4 = (Return v, s5) ->
  acquireCert domain acmeOptions certificateData s =
    (Return v, snd (release domain lock s5)).
Proof.
  intros Hre Hret.
  rewrite (acquireCert_reloaded _ _ _ _ _ _ _ Hre), try_finally_release.
  unfold try_catch. rewrite Hret. reflexivity.
Qed.

Lemma renew_fresh domain acmeOptions r (s4 : State W) t w5 :
  clock (world s4) = (t, w5) ->
  expires_after r (t + RENEW_AFTER_REMAINING) = true ->
  renew domain acmeOptions (Some r) s4 = (Return (VRecord r), set_world w5 s4).
Proof.
  intros Hclock Hfresh. unfold renew, bind, now.
  rewrite Hclock, Hfresh. reflexivity.
Qed.

(** C6.  Holding the lease, [acquireCert] fetches the record again; when
    the expiry of the fetched record exceeds the clock plus
    [RENEW_AFTER_REMAINING] it returns that record, and after the fetch
    the only call is the release of the lease (with a log line if the
    release fails): no key, CSR, account, CA or update step.  The renewal
    horizon and the 30-day threshold of [getCertificate] are two
    constants, the first larger by 10 seconds, so that some records are
    fresh for the dispatcher and not for the coordinator. *)
Theorem acquireCert_recheck_under_lease
    domain acmeOptions certificateData (s : State W) lock r s4 t w5 :
  reloads domain certificateData s lock (Some r) s4 ->
  clock (world s4) = (t, w5) ->
  expires_after r (t + RENEW_AFTER_REMAINING) = true ->
  fst (acquireCert domain acmeOptions certificateData s) = Return (VRecord r) /\
  (exists l,
     trace (snd (acquireCert domain acmeOptions certificateData s)) =
       (trace s4 ++ ReleaseLock lock :: l)%list /\
     forallb is_log l = true) /\
  FRESH_REMAINING < RENEW_AFTER_REMAINING /\
  RENEW_AFTER_REMAINING = FRESH_REMAINING + 10000 /\
  FRESH_REMAINING = 2592000000 /\
  (forall r0 t0, expires r0 = Some (t0 + RENEW_AFTER_REMAINING) ->
     expires_after r0 (t0 + FRESH_REMAINING) = true /\
     expires_after r0 (t0 + RENEW_AFTER_REMAINING) = false).
Proof.
  intros Hre Hclock Hfresh.
  rewrite (acquireCert_step_returns _ _ _ _ _ _ _ _ _ Hre
             (renew_fresh domain acmeOptions r s4 t w5 Hclock Hfresh)).
  split; [reflexivity |]. split.
  - destruct (release_run domain lock (set_world w5 s4)) as (s' & l & Hr & Ht & Hl & _).
    exists l. rewrite Hr. cbn. rewrite Ht. auto.
  - unfold FRESH_REMAINING, RENEW_AFTER_REMAINING. repeat split; try lia.
    + unfold expires_after. rewrite H. apply Z.ltb_lt. lia.
    + unfold expires_after. rewrite H. apply Z.ltb_irrefl.
Qed.

(** C10.  The fallback of the handler reads the record re-fetched under
    the lease.  If the re-fetch found no record, reading its [expires]
    throws and [acquireCert] throws that error; if it found a record
    without certificate and a later step throws, [acquireCert] throws
    that error.  Both hold whatever record the caller passed, with or
    without certificate. *)
Theorem acquireCert_fallback_is_reloaded
    domain acmeOptions certificateData (s : State W) lock reloaded s4 :
  reloads domain certificateData s lock reloaded s4 ->
  carries_cert reloaded = false ->
  (reloaded = None ->
   fst (acquireCert domain acmeOptions certificateData s) = Throw type_error_expires) /\
  (forall e s5,
     renew domain acmeOptions reloaded s4 = (Throw e, s5) ->
     fst (acquireCert domain acmeOptions certificateData s) = Throw e).
Proof.
  intros Hre Hnocert. split.
  - intros ->.
    rewrite (acquireCert_step_throws _ _ _ _ _ _ _ type_error_expires s4 Hre eq_refl).
    reflexivity.
  - intros e s5 Hthrow.
    rewrite (acquireCert_step_throws _ _ _ _ _ _ _ _ _ Hre Hthrow), Hnocert.
    reflexivity.
Qed.

End UnderLease.

(* ===================================================================== *)
(** ** The CAA walk *)
(* ===================================================================== *)

Module StrFacts.

Lemma append_empty_r (s : string) : (s ++ "")%string = s.
Proof. induction s as [| c s IH]; cbn; [| rewrite IH]; reflexivity. Qed.

Lemma append_assoc (a b c : string) : ((a ++ b) ++ c)%string = (a ++ b ++ c)%string.
Proof. induction a as [| x a IH]; cbn; [| rewrite IH]; reflexivity. Qed.

Lemma split_go_nonempty sep skip cur s : Str.split_go sep skip cur s <> [].
Proof.
  revert skip cur. induction s as [| c s IH]; intros skip cur; cbn [Str.split_go]; [easy |].
  destruct skip; [| apply IH].
  destruct (String.prefix sep (String c s)); [easy | apply IH].
Qed.

(** Joining the pieces of a split on dots gives the string back. *)
Lemma join_split_go cur s :
  Str.join "." (Str.split_go "." O cur s) = (cur ++ s)%string.
Proof.
  revert cur. induction s as [| c s IH]; intros cur.
  - cbn. now rewrite append_empty_r.
  - cbn [Str.split_go String.prefix String.length Nat.pred].
    destruct (ascii_dec "." c) as [<- | Hc].
    + replace (String.prefix "" s) with true by (destruct s; reflexivity).
      unfold Str.join in *. cbn [String.concat].
      destruct (Str.split_go "." 0 "" s) as [| p ps] eqn:E.
      * exfalso. exact (split_go_nonempty _ _ _ _ E).
      * rewrite <- E, IH. reflexivity.
    + rewrite IH, append_assoc. reflexivity.
Qed.

Lemma join_split (s : string) : Str.join "." (Str.split "." s) = s.
Proof. apply (join_split_go "" s). Qed.

(** The values of [i] of the loop of line 141 name the suffixes of at
    least two labels. *)
Lemma loop_names (parts : list string) :
  map (fun i => Str.join "." (Str.slice i parts)) (seq 0 (List.length parts - 1))
  = label_suffixes parts.
Proof.
  induction parts as [| l rest IH]; [reflexivity |].
  cbn [List.length label_suffixes]. rewrite Nat.sub_succ, Nat.sub_0_r.
  destruct rest as [| l2 rest2]; [reflexivity |].
  cbn [List.length seq map]. f_equal.
  rewrite <- seq_shift, map_map.
  cbn [List.length] in IH. rewrite Nat.sub_succ, Nat.sub_0_r in IH.
  exact IH.
Qed.

End StrFacts.

Section CaaWalk.
Context {W : Type} {C : Collaborators W}.

(** The loop of the code follows the walk of the specification. *)
Lemma caa_loop_walk domain parts todo :
  forall s : State W,
    caa_walk domain (map (fun i => Str.join "." (Str.slice i parts)) todo) s
      (as_true (caa_loop domain parts todo s)).
Proof.
  induction todo as [| i rest IH]; intros s.
  - apply walk_completed.
  - cbn [map caa_loop].
    set (name := Str.join "." (Str.slice i parts)).
    destruct (resolveCaa name (world s)) as [[rs | e] w] eqn:E.
    + rewrite (bind_return _ _ _ _ _ (query_caa_ok _ _ _ _ E)).
      cbn [caa_present caa_records].
      destruct rs as [| r0 rs].
      * cbn [List.length Nat.eqb negb andb].
        eapply walk_no_records; [exact E | apply IH].
      * cbn [List.length Nat.eqb negb andb].
        destruct (caa_listed (r0 :: rs)) eqn:L; cbn [negb].
        -- apply existsb_exists in L as (r & Hin & Hr).
           eapply walk_authorized; eauto.
        -- eapply walk_mismatch; [exact E | discriminate |].
           intros r Hin. unfold caa_listed in L.
           destruct (Str.includes config_caaDomains (normalizeDomain (issue r))) eqn:I;
             [| reflexivity].
           assert (existsb
                     (fun r => Str.includes config_caaDomains (normalizeDomain (issue r)))
                     (r0 :: rs) = true) by (apply existsb_exists; eauto).
           congruence.
    + rewrite (bind_return _ _ _ _ _ (query_caa_err _ _ _ _ E)).
      cbn [caa_present andb].
      eapply walk_resolution_failure; [exact E | apply IH].
Qed.

(** The walk of the specification leaves no choice. *)
Lemma caa_walk_deterministic domain names (s : State W) out1 out2 :
  caa_walk domain names s out1 -> caa_walk domain names s out2 -> out1 = out2.
Proof.
  intros H1. revert out2.
  induction H1 as [s | name rest s e w out Hq _ IH | name rest s w out Hq _ IH
                   | name rest s rs w Hq Hne Hall | name rest s rs w r Hq Hin Hr];
    intros out2 H2; inversion H2; subst;
    repeat match goal with
      | Ha : resolveCaa ?n ?w = _, Hb : resolveCaa ?n ?w = _ |- _ =>
          rewrite Ha in Hb; inversion Hb; subst; clear Hb
      end;
    try congruence; try (apply IH; assumption); try contradiction;
    match goal with
    | Hno : forall r, In r ?rs -> _ = false, Hi : In ?r ?rs, Hyes : _ = true |- _ =>
        rewrite (Hno r Hi) in Hyes; discriminate
    end.
Qed.

(** C7.  With a well-formed domain, a resolver that offers CAA queries
    and a non-empty allow-list, [validateDomain] is the walk of the
    specification over the suffixes of the domain that have at least two
    labels, the longest first: a failed or empty answer moves on to the
    next suffix, a non-empty answer without a listed issuer throws
    [caa_mismatch] at once, a non-empty answer with a listed issuer
    returns at once, and the end of the list returns.  The first suffix
    is the domain itself and the number of suffixes is the number of
    labels less one, so the last label alone is never queried. *)
Theorem validateDomain_walks_suffixes domain (s : State W) :
  joi_domain domain = true ->
  resolveCaa_is_function = true ->
  caaDomains <> [] ->
  caa_walk domain (label_suffixes (Str.split "." domain)) s (validateDomain domain s) /\
  (forall l l' rest, Str.split "." domain = l :: l' :: rest ->
     exists names, label_suffixes (Str.split "." domain) = domain :: names) /\
  List.length (label_suffixes (Str.split "." domain)) =
    (List.length (Str.split "." domain) - 1)%nat /\
  (forall name, In name (label_suffixes (Str.split "." domain)) ->
     exists i, (i + 2 <= List.length (Str.split "." domain))%nat /\
               name = Str.join "." (Str.slice i (Str.split "." domain))).
Proof.
  intros Hjoi Hfun Hlist. repeat split.
  - replace (validateDomain domain s) with
      (as_true (caa_loop domain (Str.split "." domain)
                  (seq 0 (List.length (Str.split "." domain) - 1)) s)).
    + rewrite <- StrFacts.loop_names. apply caa_loop_walk.
    + unfold validateDomain, as_true. rewrite Hjoi, Hfun. cbn [negb andb].
      destruct caaDomains as [| d ds]; [congruence |]. cbn [List.length Nat.eqb negb].
      unfold bind.
      destruct (caa_loop domain (Str.split "." domain)
                  (seq 0 (List.length (Str.split "." domain) - 1)) s) as [[[] | e |] s'];
        reflexivity.
  - intros l l' rest Hsplit. rewrite Hsplit. cbn [label_suffixes].
    rewrite <- Hsplit, StrFacts.join_split. eauto.
  - rewrite <- StrFacts.loop_names, length_map, length_seq. reflexivity.
  - intros name Hin. rewrite <- StrFacts.loop_names in Hin.
    apply in_map_iff in Hin as (i & <- & Hi). apply in_seq in Hi.
    exists i. split; [lia | reflexivity].
Qed.

End CaaWalk.

(* ===================================================================== *)
(** ** The trace only grows *)
(* ===================================================================== *)

Create HintDb growth.

Section Growth.
Context {W : Type} {C : Collaborators W}.
Variable P : event -> bool.

Lemma adds_refl (s : State W) : adds P s s.
Proof. exists []. now rewrite app_nil_r. Qed.

Lemma adds_trans (s1 s2 s3 : State W) : adds P s1 s2 -> adds P s2 s3 -> adds P s1 s3.
Proof.
  intros (l1 & H1 & P1) (l2 & H2 & P2). exists (l1 ++ l2)%list.
  now rewrite H2, H1, app_assoc, forallb_app, P1, P2.
Qed.

Lemma adds_emit ev (s s' : State W) :
  P ev = true -> adds P s s' -> adds P s (emit ev s').
Proof.
  intros Hev H. eapply adds_trans; [exact H |]. exists [ev]. cbn. now rewrite Hev.
Qed.

Lemma adds_set_world w (s s' : State W) : adds P s s' -> adds P s (set_world w s').
Proof. intros (l & H & Hl). now exists l. Qed.

Lemma adds_set_vars v (s s' : State W) : adds P s s' -> adds P s (set_vars v s').
Proof. intros (l & H & Hl). now exists l. Qed.

Lemma trace_emits evs (s : State W) : trace (emits evs s) = (trace s ++ evs)%list.
Proof.
  revert s. induction evs as [| ev evs IH]; intros s; cbn.
  - now rewrite app_nil_r.
  - unfold emits in IH. rewrite IH. cbn. now rewrite <- app_assoc.
Qed.

Lemma adds_emits evs (s s' : State W) :
  forallb P evs = true -> adds P s s' -> adds P s (emits evs s').
Proof.
  intros Hevs H. eapply adds_trans; [exact H |]. exists evs. split; [apply trace_emits | exact Hevs].
Qed.

Lemma within_ret {A} (a : A) : within P (ret (W := W) a).
Proof. intros s. apply adds_refl. Qed.

Lemma within_throw {A} e : within P (throw (W := W) (A := A) e).
Proof. intros s. apply adds_refl. Qed.

Lemma within_lift {A} (r : result A) : within P (lift (W := W) r).
Proof. intros s. destruct r; apply adds_refl. Qed.

Lemma within_now : within P now.
Proof.
  intros s. unfold now. destruct (clock (world s)). apply adds_set_world, adds_refl.
Qed.

Lemma within_log l p f a : P (Log l p f a) = true -> within P (log (W := W) l p f a).
Proof. intros Hev s. apply adds_emit; [exact Hev | apply adds_refl]. Qed.

Lemma within_call {A} ev (f : W -> result A * W) : P ev = true -> within P (call ev f).
Proof.
  intros Hev s. unfold call. destruct (f (world s)) as [[a | e] w];
    (apply adds_set_world, adds_emit; [exact Hev | apply adds_refl]).
Qed.

Lemma within_bind {A B} (m : M W A) (k : A -> M W B) :
  within P m -> (forall a, within P (k a)) -> within P (bind m k).
Proof.
  intros Hm Hk s. unfold bind. specialize (Hm s).
  destruct (m s) as [[a | e |] s']; cbn in *; try exact Hm.
  eapply adds_trans; [exact Hm | apply Hk].
Qed.

Lemma within_try_catch {A} (m : M W A) (h : error -> M W A) :
  within P m -> (forall e, within P (h e)) -> within P (try_catch m h).
Proof.
  intros Hm Hh s. unfold try_catch. specialize (Hm s).
  destruct (m s) as [[a | e |] s']; cbn in *; try exact Hm.
  eapply adds_trans; [exact Hm | apply Hh].
Qed.

Lemma within_try_finally {A} (m : M W A) (f : M W unit) :
  within P m -> within P f -> within P (try_finally m f).
Proof.
  intros Hm Hf s. unfold try_finally. specialize (Hm s).
  destruct (m s) as [[a | e |] s']; cbn in *; try exact Hm;
    specialize (Hf s'); destruct (f s') as [[u | e' |] s'']; cbn in *;
    eapply adds_trans; eauto.
Qed.

End Growth.

#[export] Hint Resolve within_ret within_throw within_lift within_now : growth.

(** Steps through the binds, conditionals and matches of a computation;
    [side] proves that an event satisfies the predicate. *)
Ltac within_steps side :=
  repeat first
    [ progress auto with growth
    | apply within_bind
    | apply within_try_catch
    | apply within_try_finally
    | apply within_log; side
    | apply within_call; side
    | match goal with
      | |- within _ (if ?b then _ else _) => destruct b
      | |- within _ (match ?x with _ => _ end) => destruct x
      | |- forall _, within _ _ => intro
      end ].

Section GrowthOfTheModule.
Context {W : Type} {C : Collaborators W}.

Lemma grows_refl (s : State W) : grows s s.
Proof. apply adds_refl. Qed.

Lemma grows_trans (s1 s2 s3 : State W) : grows s1 s2 -> grows s2 s3 -> grows s1 s3.
Proof. apply adds_trans. Qed.

Lemma grows_emit ev (s s' : State W) : grows s s' -> grows s (emit ev s').
Proof. now apply adds_emit. Qed.

Lemma grows_set_world w (s s' : State W) : grows s s' -> grows s (set_world w s').
Proof. apply adds_set_world. Qed.

Lemma grows_set_vars v (s s' : State W) : grows s s' -> grows s (set_vars v s').
Proof. apply adds_set_vars. Qed.

Lemma adds_grows P (s s' : State W) : adds P s s' -> grows s s'.
Proof.
  intros (l & H & _). exists l. split; [exact H |].
  clear H. induction l; [reflexivity | exact IHl].
Qed.

Lemma emitted_here ev (s s' : State W) : grows s s' -> emitted ev s (emit ev s').
Proof.
  intros (l & H & _). exists (l ++ [ev])%list. cbn. rewrite H, app_assoc.
  split; [reflexivity | apply in_or_app; right; now left].
Qed.

Lemma emitted_grows ev (s s1 s2 : State W) :
  emitted ev s s1 -> grows s1 s2 -> emitted ev s s2.
Proof.
  intros (l1 & H1 & Hin) (l2 & H2 & _). exists (l1 ++ l2)%list.
  rewrite H2, H1, app_assoc. split; [reflexivity | apply in_or_app; now left].
Qed.

Lemma grows_emitted ev (s s1 s2 : State W) :
  grows s s1 -> emitted ev s1 s2 -> emitted ev s s2.
Proof.
  intros (l1 & H1 & _) (l2 & H2 & Hin). exists (l1 ++ l2)%list.
  rewrite H2, H1, app_assoc. split; [reflexivity | apply in_or_app; now right].
Qed.

(** The functions of the module under a predicate [P] that holds of
    every event other than the write of the cooldown flag. *)
Variable P : event -> bool.
Hypothesis P_spares : forall ev, sets_cooldown ev = false -> P ev = true.

Lemma within_ensureAcme acmeOptions : within P (ensureAcme acmeOptions).
Proof.
  intros s. unfold ensureAcme.
  destruct (ensureAcme_enter (vars s)) as [| p v |].
  - apply adds_refl.
  - apply adds_set_vars, adds_refl.
  - destruct (acme_init (directoryUrl acmeOptions) (world s)) as [r w].
    destruct (ensureAcme_resume r _) as [[v evs] out] eqn:E. cbn [snd].
    apply adds_set_vars, adds_emits;
      [| apply adds_set_world, adds_emit; [now apply P_spares | apply adds_refl]].
    unfold ensureAcme_resume in E. destruct r; inversion E; subst evs;
      apply forallb_forall; intros ev Hin; apply in_map_iff in Hin as (q & <- & _);
      now apply P_spares.
Qed.

Lemma within_getAcmeAccount acmeOptions : within P (getAcmeAccount acmeOptions).
Proof.
  unfold getAcmeAccount. pose proof (within_ensureAcme acmeOptions).
  within_steps ltac:(now apply P_spares).
Qed.

Lemma within_issue_cert domain acmeOptions certificateData csr :
  within P (issue_cert domain acmeOptions certificateData csr).
Proof.
  unfold issue_cert. pose proof (within_getAcmeAccount acmeOptions).
  within_steps ltac:(now apply P_spares).
Qed.

Lemma within_renew domain acmeOptions reloaded :
  within P (renew domain acmeOptions reloaded).
Proof.
  unfold renew.
  pose proof (fun r csr => within_issue_cert domain acmeOptions r csr).
  within_steps ltac:(now apply P_spares).
Qed.

Lemma within_release domain lock : within P (release domain lock).
Proof. unfold release. within_steps ltac:(now apply P_spares). Qed.

Lemma within_validated domain : within P (validated domain).
Proof.
  intros s. destruct (validated_events domain s) as (evs & b & _ & Ht & Hev & _).
  exists evs. split; [exact Ht |].
  apply forallb_forall. intros ev Hin.
  apply P_spares. rewrite forallb_forall in Hev. specialize (Hev ev Hin).
  destruct ev; try discriminate; reflexivity.
Qed.

(** Up to the re-fetch under the lease, no cooldown flag is written. *)
Lemma reloads_within domain certificateData (s : State W) lock reloaded s4 :
  reloads domain certificateData s lock reloaded s4 -> adds P s s4.
Proof.
  intros (s3 & w4 & (s2 & w3 & (w1 & Hex & Hval) & Hlock & ->) & Hget & ->).
  pose proof (within_validated domain
                (set_world w1 (emit (RedisExists (domainSafeLockKey domain)) s))) as Hv.
  rewrite Hval in Hv. cbn [snd] in Hv.
  apply adds_set_world, adds_emit; [now apply P_spares |].
  apply adds_set_world, adds_emit; [now apply P_spares |].
  eapply adds_trans; [| exact Hv].
  apply adds_set_world, adds_emit; [now apply P_spares | apply adds_refl].
Qed.

End GrowthOfTheModule.

Section Monotone.
Context {W : Type} {C : Collaborators W}.

Lemma monotone_ensureAcme acmeOptions : monotone (ensureAcme acmeOptions).
Proof. apply within_ensureAcme. reflexivity. Qed.

Lemma monotone_getAcmeAccount acmeOptions : monotone (getAcmeAccount acmeOptions).
Proof. apply within_getAcmeAccount. reflexivity. Qed.

Lemma monotone_release domain lock : monotone (release domain lock).
Proof. apply within_release. reflexivity. Qed.

Lemma monotone_validated domain : monotone (validated domain).
Proof. apply within_validated. reflexivity. Qed.

End Monotone.

(* ===================================================================== *)
(** ** Failures under the lease *)
(* ===================================================================== *)

Section FailureHandling.
Context {W : Type} {C : Collaborators W}.

Lemma spares_cooldown_spec ev : sets_cooldown ev = false -> spares_cooldown ev = true.
Proof. unfold spares_cooldown. now intros ->. Qed.

(** C2, amended.  When a step of the critical section after the re-fetch
    throws, no cooldown flag has been written so far; [acquireCert] then
    writes it (a failure of that write is logged only), logs the error,
    and returns the record re-fetched under the lease if it carries a
    certificate and throws the error otherwise; the lease is released
    last.  When the steps return a value instead, as they do for a CA
    answer without certificate or a refused store update, [acquireCert]
    returns that value and the whole run writes no cooldown flag. *)
Theorem acquireCert_failure_handling
    domain acmeOptions certificateData (s : State W) lock reloaded s4 :
  reloads domain certificateData s lock reloaded s4 ->
  (forall e s5,
     renew domain acmeOptions reloaded s4 = (Throw e, s5) ->
     fst (acquireCert domain acmeOptions certificateData s) =
       (if carries_cert reloaded then Return (of_record reloaded) else Throw e) /\
     adds spares_cooldown s s5 /\
     exists l1 l2,
       trace (snd (acquireCert domain acmeOptions certificateData s)) =
         (trace s5 ++
            RedisSetExpire (domainSafeLockKey domain) 1 BLOCK_RENEW_AFTER_ERROR_TTL :: l1 ++
            Log Error "ACME" "Failed to generate cert domains=%s error=%s"
              [AStr domain; AStr (message e)] ::
            ReleaseLock lock :: l2)%list /\
       forallb is_log l1 = true /\ forallb is_log l2 = true) /\
  (forall v s5,
     renew domain acmeOptions reloaded s4 = (Return v, s5) ->
     fst (acquireCert domain acmeOptions certificateData s) = Return v /\
     adds spares_cooldown s (snd (acquireCert domain acmeOptions certificateData s))).
Proof.
  intros Hre.
  pose proof (reloads_within spares_cooldown spares_cooldown_spec _ _ _ _ _ _ Hre) as H4.
  pose proof (within_renew spares_cooldown spares_cooldown_spec
                domain acmeOptions reloaded s4) as H5.
  split.
  - intros e s5 Hthrow. rewrite Hthrow in H5. cbn [snd] in H5.
    rewrite (acquireCert_step_throws _ _ _ _ _ _ _ _ _ Hre Hthrow).
    split; [reflexivity |]. split; [exact (adds_trans _ _ _ _ H4 H5) |].
    destruct (block_renewal_run domain s5) as (s6 & l1 & Hb & Ht6 & Hl1 & _).
    rewrite Hb. cbn [snd].
    destruct (release_run domain lock
                (emit (Log Error "ACME" "Failed to generate cert domains=%s error=%s"
                         [AStr domain; AStr (message e)]) s6))
      as (s7 & l2 & Hr & Ht7 & Hl2 & _).
    rewrite Hr. cbn [snd]. exists l1, l2.
    rewrite Ht7, trace_emit, Ht6, <- !app_assoc. cbn [app]. auto.
  - intros v s5 Hret. rewrite Hret in H5. cbn [snd] in H5.
    rewrite (acquireCert_step_returns _ _ _ _ _ _ _ _ _ Hre Hret).
    split; [reflexivity |]. cbn [snd].
    eapply adds_trans; [exact (adds_trans _ _ _ _ H4 H5) |].
    apply (within_release spares_cooldown spares_cooldown_spec).
Qed.

End FailureHandling.

(* ===================================================================== *)
(** ** A lease that was not obtained *)
(* ===================================================================== *)

Section LeaseNotObtained.
Context {W : Type} {C : Collaborators W}.

Lemma monotone_renew domain acmeOptions reloaded :
  monotone (renew (W := W) domain acmeOptions reloaded).
Proof. apply within_renew. reflexivity. Qed.

(** The handler of line 271 writes the cooldown flag. *)
Lemma on_failure_blocks domain reloaded e (s5 : State W) :
  exists l,
    trace (snd (on_failure domain reloaded e s5)) = (trace s5 ++ l)%list /\
    existsb sets_cooldown l = true.
Proof.
  rewrite on_failure_run.
  destruct (block_renewal_run domain s5) as (s6 & l & Hb & Ht & _).
  rewrite Hb. cbn [snd]. rewrite trace_emit, Ht, <- app_assoc.
  eexists. split; reflexivity.
Qed.

(** The critical section starts with the re-fetch of the record, and
    when it throws it has written the cooldown flag. *)
Lemma critical_section_run domain acmeOptions certificateData (s3 : State W) :
  exists l,
    trace (snd (critical_section domain acmeOptions certificateData s3)) =
      (trace s3 ++ GetRecord (ById (_id certificateData)) :: l)%list /\
    (forall e,
       fst (critical_section domain acmeOptions certificateData s3) = Throw e ->
       existsb sets_cooldown l = true).
Proof.
  unfold critical_section, call.
  destruct (getRecord (ById (_id certificateData)) (world s3)) as [[reloaded | e] w].
  - unfold try_catch.
    destruct (monotone_renew domain acmeOptions reloaded
                (set_world w (emit (GetRecord (ById (_id certificateData))) s3)))
      as (lr & Ht & _).
    destruct (renew domain acmeOptions reloaded _) as [[v | e |] s5]; cbn [fst snd] in *.
    + exists lr. rewrite Ht. cbn [trace set_world emit]. rewrite <- app_assoc.
      split; [reflexivity | discriminate].
    + destruct (on_failure_blocks domain reloaded e s5) as (l & Hf & Hc).
      exists (lr ++ l)%list. rewrite Hf, Ht. cbn [trace set_world emit].
      rewrite <- !app_assoc. split; [reflexivity |].
      intros _ _. rewrite existsb_app, Hc. apply orb_true_r.
    + exists lr. rewrite Ht. cbn [trace set_world emit]. rewrite <- app_assoc.
      split; [reflexivity | discriminate].
  - destruct (on_failure_blocks domain (Some certificateData) e
                (set_world w (emit (GetRecord (ById (_id certificateData))) s3)))
      as (l & Hf & Hc).
    exists l. rewrite Hf. cbn [trace set_world emit]. rewrite <- app_assoc.
    split; [reflexivity | intros _ _; exact Hc].
Qed.

(** C8, as the code runs.  A request for the operation lease that is
    rejected is thrown to the caller, after which no cooldown flag is
    written and no lease released.  A wait that runs out of time is not a
    rejection: the lock service resolves with a lock whose [success] is
    [false], and line 197 does not look at it.  [acquireCert] then runs
    the critical section as if it held the lease: its next call is the
    re-fetch of the record, every call of the renewal may follow, when it
    settles it has called the release on the lock that was not obtained,
    and when it throws it has written the cooldown flag. *)
Theorem acquireCert_lease_not_obtained domain acmeOptions certificateData (s s2 : State W) :
  reaches_lock domain s s2 ->
  (forall e w3,
     waitAcquireLock (domainOpLockKey domain) (10 * 60 * 1000) (3 * 60 * 1000) (world s2)
       = (Err e, w3) ->
     fst (acquireCert domain acmeOptions certificateData s) = Throw e /\
     exists evs,
       trace (snd (acquireCert domain acmeOptions certificateData s)) =
         (trace s ++ evs ++
            [GetLock (domainOpLockKey domain) (10 * 60 * 1000) (3 * 60 * 1000)])%list /\
       forallb (fun ev => negb (lease_or_cooldown ev)) evs = true) /\
  (forall lock w3,
     waitAcquireLock (domainOpLockKey domain) (10 * 60 * 1000) (3 * 60 * 1000) (world s2)
       = (Ok lock, w3) ->
     success lock = false ->
     acquireCert domain acmeOptions certificateData s =
       try_finally (critical_section domain acmeOptions certificateData)
         (release domain lock)
         (set_world w3
            (emit (GetLock (domainOpLockKey domain) (10 * 60 * 1000) (3 * 60 * 1000)) s2)) /\
     exists l,
       trace (snd (acquireCert domain acmeOptions certificateData s)) =
         (trace s2 ++
            GetLock (domainOpLockKey domain) (10 * 60 * 1000) (3 * 60 * 1000) ::
            GetRecord (ById (_id certificateData)) :: l)%list /\
       (fst (acquireCert domain acmeOptions certificateData s) <> Pending ->
        In (ReleaseLock lock) l) /\
       (forall e,
          fst (acquireCert domain acmeOptions certificateData s) = Throw e ->
          existsb sets_cooldown l = true)).
Proof.
  intros Hreach. split.
  - intros e w3 Hlock.
    exact (acquireCert_lock_rejected domain acmeOptions certificateData s s2 e w3
             Hreach Hlock).
  - intros lock w3 Hlock _.
    assert (Hlease : holds_lease domain s lock
              (set_world w3
                 (emit (GetLock (domainOpLockKey domain) (10 * 60 * 1000) (3 * 60 * 1000))
                    s2))) by (exists s2, w3; auto).
    rewrite (acquireCert_under_lease _ _ _ _ _ _ Hlease). split; [reflexivity |].
    rewrite try_finally_release.
    destruct (critical_section_run domain acmeOptions certificateData
                (set_world w3
                   (emit (GetLock (domainOpLockKey domain) (10 * 60 * 1000) (3 * 60 * 1000))
                      s2))) as (l & Ht & Hthrow).
    destruct (critical_section domain acmeOptions certificateData _) as [[v | e |] s'];
      cbn [fst snd] in *.
    + destruct (release_run domain lock s') as (s'' & l2 & Hr & Ht2 & _).
      rewrite Hr. cbn [snd]. exists (l ++ ReleaseLock lock :: l2)%list.
      rewrite Ht2, Ht. cbn [trace set_world emit]. rewrite <- !app_assoc. cbn [app].
      split; [reflexivity |]. split; [| discriminate].
      intros _. apply in_or_app. right. now left.
    + destruct (release_run domain lock s') as (s'' & l2 & Hr & Ht2 & _).
      rewrite Hr. cbn [snd]. exists (l ++ ReleaseLock lock :: l2)%list.
      rewrite Ht2, Ht. cbn [trace set_world emit]. rewrite <- !app_assoc. cbn [app].
      split; [reflexivity |]. split.
      * intros _. apply in_or_app. right. now left.
      * intros e0 _. rewrite existsb_app, (Hthrow e eq_refl). reflexivity.
    + exists l. rewrite Ht. cbn [trace set_world emit]. rewrite <- !app_assoc. cbn [app].
      split; [reflexivity |]. split; [| discriminate].
      intros H. now contradiction H.
Qed.

End LeaseNotObtained.

(* ===================================================================== *)
(** ** The values that are returned *)
(* ===================================================================== *)

Ltac grow :=
  repeat first
    [ assumption
    | apply grows_refl
    | apply grows_emit
    | apply grows_set_world
    | apply grows_set_vars ].

(** Splits on every collaborator answer and test met by a run. *)
Ltac run_cases :=
  repeat match goal with
    | |- context [match ?x with _ => _ end] =>
        lazymatch x with
        | context [match _ with _ => _ end] => fail
        | _ => destruct x eqn:?
        end
    end.

Section ReturnedValues.
Context {W : Type} {C : Collaborators W}.

Lemma reports_before domain (s s1 : State W) out :
  grows s s1 -> reports_failure domain s1 out -> reports_failure domain s out.
Proof.
  unfold reports_failure. destruct (fst out) as [[| | |] | |]; auto.
  apply grows_emitted.
Qed.

Lemma reports_after domain (s s1 s2 : State W) r :
  reports_failure domain s (r, s1) -> grows s1 s2 -> reports_failure domain s (r, s2).
Proof.
  unfold reports_failure. cbn. destruct r as [[| | |] | |]; auto.
  apply emitted_grows.
Qed.

(** [getAcmeAccount] never returns a falsy account: the test of line 221
    cannot succeed. *)
Lemma getAcmeAccount_some acmeOptions (s s' : State W) a :
  getAcmeAccount acmeOptions s = (Return a, s') -> a <> None.
Proof.
  unfold getAcmeAccount, bind, call, lift, log, ret, now.
  run_cases; intros H; inversion H; discriminate.
Qed.

Lemma issue_cert_reports domain acmeOptions certificateData csr (s : State W) :
  reports_failure domain s (issue_cert domain acmeOptions certificateData csr s).
Proof.
  unfold issue_cert, bind at 1.
  pose proof (monotone_getAcmeAccount acmeOptions s) as Hg.
  destruct (getAcmeAccount acmeOptions s) as [[[a |] | e |] s1] eqn:E; cbn [snd] in Hg;
    try exact I.
  - unfold bind, call, lift, log, ret, now, of_cert, of_record.
    run_cases; unfold reports_failure; cbn [fst snd]; try exact I;
      apply emitted_here; grow.
  - exfalso. exact (getAcmeAccount_some _ _ _ _ E eq_refl).
Qed.

Lemma renew_reports domain acmeOptions reloaded (s : State W) :
  reports_failure domain s (renew domain acmeOptions reloaded s).
Proof.
  unfold renew. destruct reloaded as [r |]; [| exact I].
  unfold bind, now, call, lift, log, ret.
  run_cases; try exact I;
    (eapply reports_before; [| apply issue_cert_reports]); grow.
Qed.

Lemma on_failure_reports domain reloaded e (s s5 : State W) :
  reports_failure domain s (on_failure domain reloaded e s5).
Proof.
  rewrite on_failure_run. unfold reports_failure. cbn [fst].
  destruct reloaded as [r |]; cbn; [destruct (Str.truthy (cert r)) |]; exact I.
Qed.

Lemma critical_section_reports domain acmeOptions certificateData (s : State W) :
  reports_failure domain s (critical_section domain acmeOptions certificateData s).
Proof.
  unfold critical_section, call.
  destruct (getRecord (ById (_id certificateData)) (world s)) as [[reloaded | e] w].
  - unfold try_catch.
    destruct (renew domain acmeOptions reloaded _) as [[v | e |] s2] eqn:R.
    + eapply reports_before; [| rewrite <- R; apply renew_reports]. grow.
    + apply on_failure_reports.
    + exact I.
  - apply on_failure_reports.
Qed.

Lemma acquireCert_reports domain acmeOptions certificateData (s : State W) :
  reports_failure domain s (acquireCert domain acmeOptions certificateData s).
Proof.
  unfold acquireCert, bind at 1, call at 1.
  destruct (redis_exists (domainSafeLockKey domain) (world s)) as [[n | e] w1];
    [| exact I].
  destruct (negb (n =? 0)); [exact I |].
  unfold bind at 1.
  pose proof (monotone_validated domain
                (set_world w1 (emit (RedisExists (domainSafeLockKey domain)) s))) as Hg.
  destruct (validated domain _) as [[[|] | e |] s2]; cbn [snd negb] in *; try exact I.
  unfold bind, call.
  destruct (waitAcquireLock _ _ _ (world s2)) as [[lock | e] w3]; [| exact I].
  rewrite try_finally_release.
  match goal with
  | |- context [critical_section _ _ _ ?s3] =>
      pose proof (critical_section_reports domain acmeOptions certificateData s3) as Hc;
      pose proof (monotone_release domain lock) as Hr;
      destruct (critical_section domain acmeOptions certificateData s3) as [[v | e |] s4]
  end; try exact I.
  eapply reports_before; [| eapply reports_after; [exact Hc | apply Hr]].
  eapply grows_trans; [| apply grows_set_world, grows_emit; exact Hg]. grow.
Qed.

Lemma getCertificate_reports domain acmeOptions (s : State W) :
  reports_failure (normalizeDomain (Some domain)) s (getCertificate domain acmeOptions s).
Proof.
  unfold getCertificate, bind at 1.
  pose proof (monotone_ensureAcme acmeOptions s) as Hg.
  destruct (ensureAcme acmeOptions s) as [[b | e |] s1]; cbn [snd] in Hg; try exact I.
  unfold bind at 1, call.
  destruct (getRecord _ (world s1)) as [[[cd |] | e] w2]; try exact I.
  unfold bind at 1, now at 1. cbn [world set_world].
  destruct (clock w2) as [t w3].
  destruct (expires_after cd (t + FRESH_REMAINING)); [exact I |].
  unfold bind at 1, now at 1. cbn [world set_world].
  destruct (clock w3) as [t' w4].
  destruct (expires_after cd t').
  - unfold bind, ret. run_cases; exact I.
  - eapply reports_before; [| apply acquireCert_reports]. grow.
Qed.

End ReturnedValues.

(* ===================================================================== *)
(** ** getCertificate *)
(* ===================================================================== *)

Section Dispatcher.
Context {W : Type} {C : Collaborators W}.

Lemma getCertificate_runs_acquireCert domain acmeOptions (s : State W) certificateData s3 :
  finds_expired domain acmeOptions s certificateData s3 ->
  getCertificate domain acmeOptions s =
    acquireCert (normalizeDomain (Some domain)) acmeOptions certificateData s3.
Proof.
  intros (s1 & w2 & t & w3 & t' & w4 & Hinit & Hget & Hc1 & Hfresh & Hc2 & Hstale & ->).
  unfold getCertificate.
  rewrite (bind_return _ _ _ _ _ Hinit).
  rewrite (bind_return _ _ _ _ _ (call_ok _ _ _ _ _ Hget)).
  unfold bind at 1, now at 1. cbn [world set_world]. rewrite Hc1, Hfresh.
  unfold bind at 1, now at 1. cbn [world set_world]. rewrite Hc2, Hstale.
  reflexivity.
Qed.

Lemma acquireCert_refetch_throws domain acmeOptions certificateData (s : State W)
    lock s3 e w4 :
  holds_lease domain s lock s3 ->
  getRecord (ById (_id certificateData)) (world s3) = (Err e, w4) ->
  fst (acquireCert domain acmeOptions certificateData s) =
    if Str.truthy (cert certificateData) then Return (VRecord certificateData) else Throw e.
Proof.
  intros Hlease Hget.
  rewrite (acquireCert_under_lease _ _ _ _ _ _ Hlease), try_finally_release.
  unfold critical_section. rewrite (call_err _ _ _ _ _ Hget), on_failure_run.
  cbn [carries_cert of_record]. destruct (Str.truthy (cert certificateData)); reflexivity.
Qed.

(** C3, amended.  [getCertificate] never returns [false].  It returns
    the CA's response instead of a record only after it has logged
    "Failed to generate certificate" for the domain, which is what it
    does when the CA answers without a certificate or the store refuses
    the update.  When the store has no record for the domain it throws
    [missing_certificate]. *)
Theorem getCertificate_values domain acmeOptions (s : State W) :
  fst (getCertificate domain acmeOptions s) <> Return VFalse /\
  (forall c,
     fst (getCertificate domain acmeOptions s) = Return (VCert c) ->
     emitted (failed_to_generate (normalizeDomain (Some domain))) s
       (snd (getCertificate domain acmeOptions s))) /\
  (forall s1 w2,
     ensureAcme acmeOptions s = (Return true, s1) ->
     getRecord (ByServername (normalizeDomain (Some domain))) (world s1) = (Ok None, w2) ->
     fst (getCertificate domain acmeOptions s) = Throw missing_certificate_error).
Proof.
  pose proof (getCertificate_reports domain acmeOptions s) as H.
  unfold reports_failure in H. repeat split.
  - intros E. rewrite E in H. exact H.
  - intros c E. rewrite E in H. exact H.
  - intros s1 w2 Hinit Hget. unfold getCertificate.
    rewrite (bind_return _ _ _ _ _ Hinit).
    rewrite (bind_return _ _ _ _ _ (call_ok _ _ _ _ _ Hget)). reflexivity.
Qed.

Lemma emitted_emits ev evs w (s s' : State W) :
  grows s s' -> In ev evs -> emitted ev s (set_world w (emits evs s')).
Proof.
  intros (l & H & _) Hin. exists (l ++ evs)%list.
  cbn [trace set_world]. rewrite trace_emits, H, app_assoc.
  split; [reflexivity | apply in_or_app; now right].
Qed.

(** The run of the steps of lines 220-270 when all of them succeed. *)
Lemma issue_cert_issues domain acmeOptions r csr (s s1 : State W)
    acmeAccount jwkAccount pem chain w2 now_ w3 parsed w4 renewed w5 :
  getAcmeAccount acmeOptions s = (Return (Some acmeAccount), s1) ->
  pem2jwk (acc_key acmeAccount) = Ok jwkAccount ->
  certificates_create
    {| co_account := acc_account acmeAccount; co_accountKey := jwkAccount;
       co_csr := csr; co_domains := [domain] |} (world s1)
    = (Ok (Some {| ac_cert := Some pem; ac_chain := chain |}), w2) ->
  String.eqb pem "" = false ->
  clock w2 = (now_, w3) ->
  fromPEM pem = Ok parsed ->
  record_update (_id r) (written pem chain parsed now_) w3 = (Ok true, w4) ->
  getRecord (ById (_id r)) w4 = (Ok renewed, w5) ->
  issue_cert domain acmeOptions r csr s =
    (Return (of_record renewed),
     set_world w5
       (emits
          [Log Info "ACME" "Generate ACME cert for %s (account=%s)"
             [AStr domain; AStr (account_id acmeAccount)];
           CertificatesCreate
             {| co_account := acc_account acmeAccount; co_accountKey := jwkAccount;
                co_csr := csr; co_domains := [domain] |};
           Log Info "ACME" "Received certificate from ACME for %s" [AStr domain];
           CertUpdate (_id r) (written pem chain parsed now_);
           Log Info "ACME" "Certificate successfully generated for %s (expires %s)"
             [AStr domain; ANum (p_validTo parsed)];
           GetRecord (ById (_id r))] s1)).
Proof.
  intros Hacc Hjwk Hca Hpem Hclock Hparse Hupdate Hget.
  unfold issue_cert. rewrite (bind_return _ _ _ _ _ Hacc).
  unfold bind, lift, log, call, now, ret. rewrite Hjwk.
  cbn [world emit set_world]. rewrite Hca, Hpem. cbn [negb world emit set_world].
  rewrite Hclock, Hparse. cbn [world emit set_world].
  unfold written in Hupdate. rewrite Hupdate.
  cbn [negb world emit set_world]. rewrite Hget. reflexivity.
Qed.

(** When every step succeeds, the renewal returns what the store gives
    back after the update, and it has ordered a certificate for the
    domain and written it to the record. *)
Lemma renew_issues domain acmeOptions r (s4 : State W) pem chain parsed now_ renewed :
  issues domain acmeOptions r s4 pem chain parsed now_ renewed ->
  exists s5,
    renew domain acmeOptions (Some r) s4 = (Return (of_record renewed), s5) /\
    (exists order,
       co_domains order = [domain] /\ emitted (CertificatesCreate order) s4 s5) /\
    emitted (CertUpdate (_id r) (written pem chain parsed now_)) s4 s5.
Proof.
  intros (t & w5 & k & s6 & jwk & csr & w7 & acmeAccount & s8 & jwkAccount &
          w9 & w10 & w11 & w12 & Hclock & Hstale & Hkey & Hjwk & Hcsr & Hacc &
          Hjwk' & Hca & Hpem & Hclock' & Hparse & Hupdate & Hget).
  pose proof (issue_cert_issues domain acmeOptions r csr _ _ _ _ _ _ _ _ _ _ _ _ _
                Hacc Hjwk' Hca Hpem Hclock' Hparse Hupdate Hget) as Hissue.
  pose proof (monotone_getAcmeAccount acmeOptions
                (set_world w7 (emit (CsrCreate jwk [domain]) s6))) as Hgrow.
  rewrite Hacc in Hgrow. cbn [snd] in Hgrow.
  assert (Hkeys : grows s4 s6).
  { unfold private_key in Hkey. destruct (Str.truthy (privateKey r)).
    - destruct Hkey as [_ ->]. grow.
    - destruct Hkey as (w & _ & ->). grow. }
  assert (H8 : grows s4 s8).
  { eapply grows_trans; [| exact Hgrow]. grow. }
  eexists. split; [| split].
  - unfold renew. unfold bind at 1, now at 1. rewrite Hclock, Hstale.
    unfold private_key in Hkey. destruct (Str.truthy (privateKey r)).
    + destruct Hkey as [-> ->].
      unfold bind at 1 2, ret at 1, lift at 1. rewrite Hjwk.
      rewrite (bind_return _ _ _ _ _ (call_ok _ _ _ _ _ Hcsr)). exact Hissue.
    + destruct Hkey as (w & Hreset & ->).
      unfold bind at 1 2 3, log at 1.
      rewrite (call_ok _ _
                 (emit (Log Info "ACME" "Provision new private key for %s"
                          [AStr domain]) (set_world w5 s4)) _ _ Hreset).
      unfold lift at 1. rewrite Hjwk.
      rewrite (bind_return _ _ _ _ _ (call_ok _ _ _ _ _ Hcsr)). exact Hissue.
  - exists {| co_account := acc_account acmeAccount; co_accountKey := jwkAccount;
              co_csr := csr; co_domains := [domain] |}.
    split; [reflexivity |].
    apply emitted_emits; [exact H8 | cbn; auto].
  - apply emitted_emits; [exact H8 | cbn; auto].
Qed.

(** C5, amended.  For a record with [expires <= now], [getCertificate]
    is the run of [acquireCert] on that record, awaited and returned as
    it is.  When every step of the renewal succeeds it returns the record
    that the store gives back after the update, having ordered a
    certificate for the domain and written it to the record with the
    [validTo] of the certificate as [expires]: a record with a later
    [expires] when the store gives back that value and it lies beyond the
    old one.  When the cooldown flag is set or validation fails it
    returns the original record, with or without certificate data, and
    the flag check, the DNS queries of validation and log lines are all
    it has done: no lease, no re-fetch, no order.  Otherwise its outcome
    is: the error of the flag check or of the lease request; once the
    lease request has resolved, the original record if it carries a
    certificate and the re-fetch throws, the error otherwise; the
    re-fetched record when its expiry exceeds the clock plus the renewal
    horizon; the value returned by the steps; and, when one of them
    throws, the re-fetched record if it carries a certificate and the
    error otherwise. *)
Theorem getCertificate_expired domain acmeOptions (s : State W) certificateData s3 :
  finds_expired domain acmeOptions s certificateData s3 ->
  getCertificate domain acmeOptions s =
    acquireCert (normalizeDomain (Some domain)) acmeOptions certificateData s3 /\
  (forall lock r s4 pem chain parsed now_ renewed,
     reloads (normalizeDomain (Some domain)) certificateData s3 lock (Some r) s4 ->
     issues (normalizeDomain (Some domain)) acmeOptions r s4 pem chain parsed now_ renewed ->
     fst (getCertificate domain acmeOptions s) = Return (of_record renewed) /\
     (exists order,
        co_domains order = [normalizeDomain (Some domain)] /\
        emitted (CertificatesCreate order) s4 (snd (getCertificate domain acmeOptions s))) /\
     emitted (CertUpdate (_id r) (written pem chain parsed now_)) s4
       (snd (getCertificate domain acmeOptions s)) /\
     (forall r' e,
        renewed = Some r' ->
        expires r' = Some (u_expires (written pem chain parsed now_)) ->
        expires certificateData = Some e ->
        e < p_validTo parsed ->
        later r' certificateData = true)) /\
  (forall n w,
     redis_exists (domainSafeLockKey (normalizeDomain (Some domain))) (world s3) = (Ok n, w) ->
     n <> 0 ->
     getCertificate domain acmeOptions s =
       (Return (VRecord certificateData),
        emit (Log Info "ACME" "Renewal blocked by failsafe lock for %s"
                [AStr (normalizeDomain (Some domain))])
          (set_world w
             (emit (RedisExists (domainSafeLockKey (normalizeDomain (Some domain)))) s3)))) /\
  (forall w1 e s',
     redis_exists (domainSafeLockKey (normalizeDomain (Some domain))) (world s3) = (Ok 0, w1) ->
     validateDomain (normalizeDomain (Some domain))
       (set_world w1
          (emit (RedisExists (domainSafeLockKey (normalizeDomain (Some domain)))) s3))
       = (Throw e, s') ->
     getCertificate domain acmeOptions s =
       (Return (VRecord certificateData),
        emit (Log Error "ACME" "Failed to validate domain %s: %s"
                [AStr (normalizeDomain (Some domain)); AStr (message e)]) s') /\
     exists evs,
       trace s' =
         (trace s3 ++
            RedisExists (domainSafeLockKey (normalizeDomain (Some domain))) :: evs)%list /\
       forallb validation_event evs = true) /\
  (forall e w,
     redis_exists (domainSafeLockKey (normalizeDomain (Some domain))) (world s3) = (Err e, w) ->
     fst (getCertificate domain acmeOptions s) = Throw e) /\
  (forall s2 e w,
     reaches_lock (normalizeDomain (Some domain)) s3 s2 ->
     waitAcquireLock (domainOpLockKey (normalizeDomain (Some domain)))
       (10 * 60 * 1000) (3 * 60 * 1000) (world s2) = (Err e, w) ->
     fst (getCertificate domain acmeOptions s) = Throw e) /\
  (forall lock s' e w,
     holds_lease (normalizeDomain (Some domain)) s3 lock s' ->
     getRecord (ById (_id certificateData)) (world s') = (Err e, w) ->
     fst (getCertificate domain acmeOptions s) =
       if Str.truthy (cert certificateData)
       then Return (VRecord certificateData) else Throw e) /\
  (forall lock r s4 t w,
     reloads (normalizeDomain (Some domain)) certificateData s3 lock (Some r) s4 ->
     clock (world s4) = (t, w) ->
     expires_after r (t + RENEW_AFTER_REMAINING) = true ->
     fst (getCertificate domain acmeOptions s) = Return (VRecord r)) /\
  (forall lock reloaded s4 v s5,
     reloads (normalizeDomain (Some domain)) certificateData s3 lock reloaded s4 ->
     renew (normalizeDomain (Some domain)) acmeOptions reloaded s4 = (Return v, s5) ->
     fst (getCertificate domain acmeOptions s) = Return v) /\
  (forall lock reloaded s4 e s5,
     reloads (normalizeDomain (Some domain)) certificateData s3 lock reloaded s4 ->
     renew (normalizeDomain (Some domain)) acmeOptions reloaded s4 = (Throw e, s5) ->
     fst (getCertificate domain acmeOptions s) =
       if carries_cert reloaded then Return (of_record reloaded) else Throw e).
Proof.
  intros Hfind.
  rewrite (getCertificate_runs_acquireCert _ _ _ _ _ Hfind).
  split; [reflexivity |]. split; [| split; [| split]]; [| | | repeat split].
  - intros lock r s4 pem chain parsed now_ renewed Hre His.
    destruct (renew_issues _ _ _ _ _ _ _ _ _ His) as (s5 & Hret & (order & Hdom & Hca) & Hup).
    rewrite (acquireCert_step_returns _ _ _ _ _ _ _ _ _ Hre Hret). cbn [fst snd].
    pose proof (monotone_release (normalizeDomain (Some domain)) lock s5) as Hrel.
    split; [reflexivity |]. split; [| split].
    + exists order. split; [exact Hdom | exact (emitted_grows _ _ _ _ Hca Hrel)].
    + exact (emitted_grows _ _ _ _ Hup Hrel).
    + intros r' e _ Hr' He Hlt. unfold later. rewrite Hr', He. cbn [u_expires written].
      apply Z.ltb_lt, Hlt.
  - intros n w Hex Hn. apply (acquireCert_blocked _ _ _ _ _ _ Hex Hn).
  - intros w1 e s' Hex Hval. split.
    + unfold acquireCert.
      rewrite (bind_return _ _ _ _ _ (call_ok _ _ _ _ _ Hex)). cbn [Z.eqb negb].
      rewrite (bind_return _ _ _ _ _ (validated_failure _ _ _ _ Hval)). reflexivity.
    + destruct (validateDomain_events (normalizeDomain (Some domain))
                  (set_world w1
                     (emit (RedisExists
                              (domainSafeLockKey (normalizeDomain (Some domain)))) s3)))
        as (evs & Ht & Hev & _).
      rewrite Hval in Ht. cbn [snd] in Ht. exists evs.
      rewrite Ht. cbn [trace set_world emit]. rewrite <- app_assoc.
      split; [reflexivity | exact Hev].
  - intros e w Hex. unfold acquireCert.
    rewrite (bind_throw _ _ _ _ _ (call_err _ _ _ _ _ Hex)). reflexivity.
  - intros s2 e w (w1 & Hex & Hval) Hlock. unfold acquireCert.
    rewrite (bind_return _ _ _ _ _ (call_ok _ _ _ _ _ Hex)). cbn [Z.eqb negb].
    rewrite (bind_return _ _ _ _ _ Hval). cbn [negb].
    rewrite (bind_throw _ _ _ _ _ (call_err _ _ _ _ _ Hlock)). reflexivity.
  - intros lock s' e w Hlease Hget.
    apply (acquireCert_refetch_throws _ _ _ _ _ _ _ _ Hlease Hget).
  - intros lock r s4 t w Hre Hclock Hfresh.
    rewrite (acquireCert_step_returns _ _ _ _ _ _ _ _ _ Hre
               (renew_fresh _ acmeOptions r s4 t w Hclock Hfresh)).
    reflexivity.
  - intros lock reloaded s4 v s5 Hre Hret.
    rewrite (acquireCert_step_returns _ _ _ _ _ _ _ _ _ Hre Hret). reflexivity.
  - intros lock reloaded s4 e s5 Hre Hthrow.
    rewrite (acquireCert_step_throws _ _ _ _ _ _ _ _ _ Hre Hthrow). reflexivity.
Qed.

End Dispatcher.

(* ===================================================================== *)
(** ** ensureAcme with overlapping callers *)
(* ===================================================================== *)

Module InterleavingFacts.
Import Interleaving.

Lemma step_nobody_waits p a : nobody_waits p -> nobody_waits (step p a).
Proof.
  intros (Hi & Hp & Hw). destruct a as [c | c r]; cbn.
  - unfold ensureAcme_enter. rewrite Hi.
    destruct (acmeInitialized (pvars p)); repeat split; assumption.
  - destruct (existsb (Nat.eqb c) (initiating p)); [| repeat split; assumption].
    destruct r; cbn; repeat split; assumption.
Qed.

Lemma run_nobody_waits schedule : forall p, nobody_waits p -> nobody_waits (run schedule p).
Proof.
  induction schedule as [| a schedule IH]; intros p Hp; [exact Hp |].
  cbn. apply IH, step_nobody_waits, Hp.
Qed.

(** C1, as the code runs.  Two callers that enter [ensureAcme] before any
    [acme.init] has settled both call [acme.init]: the second one is not
    queued.  In every schedule from the initial state
    [acmeInitializing] stays [false] and the list of pending entries
    stays empty. *)
Theorem ensureAcme_overlapping_callers_both_init (c1 c2 : nat) :
  initiating (run [Call c1; Call c2] proc0) = [c1; c2] /\
  waiting (run [Call c1; Call c2] proc0) = [] /\
  (forall schedule,
     acmeInitializing (pvars (run schedule proc0)) = false /\
     acmeInitPending (pvars (run schedule proc0)) = [] /\
     waiting (run schedule proc0) = []).
Proof.
  split; [reflexivity |]. split; [reflexivity |].
  intros schedule. apply run_nobody_waits. repeat split.
Qed.

End InterleavingFacts.

(* ===================================================================== *)
(** ** Runs on the mock world *)
(* ===================================================================== *)

Module Runs.
Import Mock.

(** The three CAA scenarios of the specification for [a.b.example.com]. *)

Example caa_only_at_apex_mismatch :
  let out := @validateDomain World (collaborators (with_zone [("example.com", [caa "X"])]))
               "a.b.example.com" (start (world_of [] [])) in
  fst out = Throw (caa_mismatch_error "example.com" "a.b.example.com") /\
  trace (snd out) =
    [ResolveCaa "a.b.example.com"; ResolveCaa "b.example.com"; ResolveCaa "example.com"].
Proof. vm_compute. split; reflexivity. Qed.

Example caa_nowhere_allowed :
  let out := @validateDomain World (collaborators (with_zone []))
               "a.b.example.com" (start (world_of [] [])) in
  fst out = Return true /\
  trace (snd out) =
    [ResolveCaa "a.b.example.com"; ResolveCaa "b.example.com"; ResolveCaa "example.com"].
Proof. vm_compute. split; reflexivity. Qed.

Example caa_match_stops_walk :
  let out := @validateDomain World
               (collaborators (with_zone [("b.example.com", [caa "letsencrypt.org"]);
                                          ("example.com", [caa "X"])]))
               "a.b.example.com" (start (world_of [] [])) in
  fst out = Return true /\
  trace (snd out) =
    [ResolveCaa "a.b.example.com"; ResolveCaa "b.example.com";
     Log Info "ACME" "Found matching CAA record for %s (%s)"
       [AStr "b.example.com"; AStr "a.b.example.com"]].
Proof. vm_compute. split; reflexivity. Qed.

(** C4 on a run: the flag of [example.com] is set. *)
Lemma acquireCert_cooldown_gate_witness :
  @redis_exists World (collaborators healthy) "d:lock:safe:example.com"
    (world_of ["d:lock:safe:example.com"] [record (Some "old-pem") (Some 500)])
  = (Ok 1, world_of ["d:lock:safe:example.com"] [record (Some "old-pem") (Some 500)]) /\
  1 <> 0 /\
  fst (@acquireCert World (collaborators healthy) "example.com" options
         (record (Some "old-pem") (Some 500))
         (start (world_of ["d:lock:safe:example.com"] [record (Some "old-pem") (Some 500)])))
  = Return (VRecord (record (Some "old-pem") (Some 500))).
Proof.
  split; [reflexivity |]. split; [lia |].
  apply (@acquireCert_cooldown_gate World (collaborators healthy) "example.com" options
           (record (Some "old-pem") (Some 500))
           (start (world_of ["d:lock:safe:example.com"]
                     [record (Some "old-pem") (Some 500)]))
           1 (world_of ["d:lock:safe:example.com"] [record (Some "old-pem") (Some 500)])).
  - reflexivity.
  - lia.
Defined.

(** C9 on a run: the CAA record of [example.com] names another CA. *)
Lemma acquireCert_absorbs_validation_failure_witness :
  @redis_exists World (collaborators (with_zone [("example.com", [caa "X"])]))
    "d:lock:safe:example.com" (world_of [] [])
  = (Ok 0, world_of [] []) /\
  @validateDomain World (collaborators (with_zone [("example.com", [caa "X"])]))
    "example.com"
    (state (world_of [] []) [RedisExists "d:lock:safe:example.com"] init0)
  = (Throw (caa_mismatch_error "example.com" "example.com"),
     state (world_of [] [])
       [RedisExists "d:lock:safe:example.com"; ResolveCaa "example.com"] init0) /\
  fst (@acquireCert World (collaborators (with_zone [("example.com", [caa "X"])]))
         "example.com" options (record None (Some 500)) (start (world_of [] [])))
  = Return (VRecord (record None (Some 500))).
Proof.
  split; [reflexivity |]. split; [reflexivity |].
  apply (@acquireCert_absorbs_validation_failure World
           (collaborators (with_zone [("example.com", [caa "X"])]))
           "example.com" options (record None (Some 500)) (start (world_of [] []))
           0 (world_of [] []) (caa_mismatch_error "example.com" "example.com")
           (state (world_of [] [])
              [RedisExists "d:lock:safe:example.com"; ResolveCaa "example.com"] init0)).
  - reflexivity.
  - reflexivity.
Defined.

(** C8 on a run: the wait for the lease runs out of time. *)
Lemma acquireCert_lease_not_obtained_witness :
  @reaches_lock World (collaborators lock_wait_timed_out) "example.com"
    (start (world_of [] [record (Some "old-pem") (Some 500)]))
    (state (world_of [] [record (Some "old-pem") (Some 500)])
       [RedisExists "d:lock:safe:example.com";
        Log Info "ACME" "Domain validation for %s passed" [AStr "example.com"]] init0) /\
  @waitAcquireLock World (collaborators lock_wait_timed_out) "d:lock:op:example.com"
    (10 * 60 * 1000) (3 * 60 * 1000) (world_of [] [record (Some "old-pem") (Some 500)])
  = (Ok not_granted, world_of [] [record (Some "old-pem") (Some 500)]) /\
  success not_granted = false /\
  @acquireCert World (collaborators lock_wait_timed_out) "example.com" options
    (record (Some "old-pem") (Some 500))
    (start (world_of [] [record (Some "old-pem") (Some 500)]))
  = @try_finally World value
      (@critical_section World (collaborators lock_wait_timed_out) "example.com" options
         (record (Some "old-pem") (Some 500)))
      (@release World (collaborators lock_wait_timed_out) "example.com" not_granted)
      (state (world_of [] [record (Some "old-pem") (Some 500)]) until_lease init0).
Proof.
  assert (H : @reaches_lock World (collaborators lock_wait_timed_out) "example.com"
                (start (world_of [] [record (Some "old-pem") (Some 500)]))
                (state (world_of [] [record (Some "old-pem") (Some 500)])
                   [RedisExists "d:lock:safe:example.com";
                    Log Info "ACME" "Domain validation for %s passed"
                      [AStr "example.com"]] init0)).
  { exists (world_of [] [record (Some "old-pem") (Some 500)]). split; reflexivity. }
  split; [exact H |]. split; [reflexivity |]. split; [reflexivity |].
  apply (proj1 (proj2 (@acquireCert_lease_not_obtained World
                         (collaborators lock_wait_timed_out) "example.com" options
                         (record (Some "old-pem") (Some 500))
                         (start (world_of [] [record (Some "old-pem") (Some 500)])) _ H)
                  not_granted (world_of [] [record (Some "old-pem") (Some 500)])
                  eq_refl eq_refl)).
Defined.

(** C8 as stated fails on that run: the lease was not obtained, and
    [acquireCert] orders a certificate from the CA, returns the renewed
    record instead of throwing, and calls the release on the lock that
    was not obtained. *)
Lemma timed_out_wait_enters_critical_section :
  fst (@acquireCert World (collaborators lock_wait_timed_out) "example.com" options
         (record (Some "old-pem") (Some 500))
         (start (world_of [] [record (Some "old-pem") (Some 500)])))
  = Return (VRecord (apply_updates (written "new-pem" ["chain-pem"] parsed 1000)
                       (record (Some "old-pem") (Some 500)))) /\
  existsb contacts_ca
    (trace (snd (@acquireCert World (collaborators lock_wait_timed_out) "example.com"
                   options (record (Some "old-pem") (Some 500))
                   (start (world_of [] [record (Some "old-pem") (Some 500)])))))
  = true /\
  In (ReleaseLock not_granted)
    (trace (snd (@acquireCert World (collaborators lock_wait_timed_out) "example.com"
                   options (record (Some "old-pem") (Some 500))
                   (start (world_of [] [record (Some "old-pem") (Some 500)]))))) /\
  ~ lease_failure_propagated
      (start (world_of [] [record (Some "old-pem") (Some 500)]))
      (@acquireCert World (collaborators lock_wait_timed_out) "example.com" options
         (record (Some "old-pem") (Some 500))
         (start (world_of [] [record (Some "old-pem") (Some 500)]))).
Proof.
  split; [reflexivity |]. split; [reflexivity |]. split.
  - vm_compute. tauto.
  - intros [[e H] _]. vm_compute in H. discriminate.
Qed.

(** The states of a run of [acquireCert] for [example.com] on a world
    [w] without flag, when the lock service answers. *)
Ltac lease_is_held w :=
  exists (state w [RedisExists "d:lock:safe:example.com";
                   Log Info "ACME" "Domain validation for %s passed"
                     [AStr "example.com"]] init0), w;
  split; [exists w; split; reflexivity | split; reflexivity].

Ltac record_is_reloaded w :=
  exists (state w until_lease init0), w;
  split; [lease_is_held w | split; reflexivity].

(** C6 on a run: another actor has renewed the record meanwhile. *)
Lemma acquireCert_recheck_under_lease_witness :
  @reloads World (collaborators healthy) "example.com"
    (record (Some "old-pem") (Some 500))
    (start (world_of [] [record (Some "renewed-pem") (Some 2592011001)]))
    granted (Some (record (Some "renewed-pem") (Some 2592011001)))
    (state (world_of [] [record (Some "renewed-pem") (Some 2592011001)])
       until_refetch init0) /\
  @clock World (collaborators healthy)
    (world_of [] [record (Some "renewed-pem") (Some 2592011001)])
  = (1000, world_of [] [record (Some "renewed-pem") (Some 2592011001)]) /\
  expires_after (record (Some "renewed-pem") (Some 2592011001))
    (1000 + RENEW_AFTER_REMAINING) = true /\
  fst (@acquireCert World (collaborators healthy) "example.com" options
         (record (Some "old-pem") (Some 500))
         (start (world_of [] [record (Some "renewed-pem") (Some 2592011001)])))
  = Return (VRecord (record (Some "renewed-pem") (Some 2592011001))).
Proof.
  assert (H : @reloads World (collaborators healthy) "example.com"
                (record (Some "old-pem") (Some 500))
                (start (world_of [] [record (Some "renewed-pem") (Some 2592011001)]))
                granted (Some (record (Some "renewed-pem") (Some 2592011001)))
                (state (world_of [] [record (Some "renewed-pem") (Some 2592011001)])
                   until_refetch init0)).
  { record_is_reloaded (world_of [] [record (Some "renewed-pem") (Some 2592011001)]). }
  split; [exact H |]. split; [reflexivity |]. split; [reflexivity |].
  apply (@acquireCert_recheck_under_lease World (collaborators healthy) "example.com"
           options _ _ granted _ _ 1000
           (world_of [] [record (Some "renewed-pem") (Some 2592011001)]) H).
  - reflexivity.
  - reflexivity.
Defined.

(** C2 on a run: the CA rejects the order and the stored record has a
    certificate. *)
Lemma acquireCert_failure_handling_witness :
  @reloads World (collaborators ca_down) "example.com"
    (record (Some "old-pem") (Some 500))
    (start (world_of [] [record (Some "old-pem") (Some 500)]))
    granted (Some (record (Some "old-pem") (Some 500)))
    (state (world_of [] [record (Some "old-pem") (Some 500)]) until_refetch init0) /\
  @renew World (collaborators ca_down) "example.com" options
    (Some (record (Some "old-pem") (Some 500)))
    (state (world_of [] [record (Some "old-pem") (Some 500)]) until_refetch init0)
  = (Throw (error_of "order failed"),
     snd (@renew World (collaborators ca_down) "example.com" options
            (Some (record (Some "old-pem") (Some 500)))
            (state (world_of [] [record (Some "old-pem") (Some 500)])
               until_refetch init0))) /\
  fst (@acquireCert World (collaborators ca_down) "example.com" options
         (record (Some "old-pem") (Some 500))
         (start (world_of [] [record (Some "old-pem") (Some 500)])))
  = Return (VRecord (record (Some "old-pem") (Some 500))) /\
  existsb sets_cooldown
    (trace (snd (@acquireCert World (collaborators ca_down) "example.com" options
                   (record (Some "old-pem") (Some 500))
                   (start (world_of [] [record (Some "old-pem") (Some 500)])))))
  = true.
Proof.
  assert (H : @reloads World (collaborators ca_down) "example.com"
                (record (Some "old-pem") (Some 500))
                (start (world_of [] [record (Some "old-pem") (Some 500)]))
                granted (Some (record (Some "old-pem") (Some 500)))
                (state (world_of [] [record (Some "old-pem") (Some 500)])
                   until_refetch init0)).
  { record_is_reloaded (world_of [] [record (Some "old-pem") (Some 500)]). }
  split; [exact H |]. split; [reflexivity |]. split; [| reflexivity].
  apply (proj1 (@acquireCert_failure_handling World (collaborators ca_down) "example.com"
                  options _ _ granted _ _ H)
           (error_of "order failed")
           (snd (@renew World (collaborators ca_down) "example.com" options
                   (Some (record (Some "old-pem") (Some 500)))
                   (state (world_of [] [record (Some "old-pem") (Some 500)])
                      until_refetch init0)))).
  reflexivity.
Defined.

(** C10 on a run: the caller's record has a certificate, the record in
    the store has none, and the CA rejects the order. *)
Lemma acquireCert_fallback_is_reloaded_witness :
  @reloads World (collaborators ca_down) "example.com"
    (record (Some "old-pem") (Some 500))
    (start (world_of [] [record None (Some 500)]))
    granted (Some (record None (Some 500)))
    (state (world_of [] [record None (Some 500)]) until_refetch init0) /\
  carries_cert (Some (record None (Some 500))) = false /\
  carries_cert (Some (record (Some "old-pem") (Some 500))) = true /\
  @renew World (collaborators ca_down) "example.com" options
    (Some (record None (Some 500)))
    (state (world_of [] [record None (Some 500)]) until_refetch init0)
  = (Throw (error_of "order failed"),
     snd (@renew World (collaborators ca_down) "example.com" options
            (Some (record None (Some 500)))
            (state (world_of [] [record None (Some 500)]) until_refetch init0))) /\
  fst (@acquireCert World (collaborators ca_down) "example.com" options
         (record (Some "old-pem") (Some 500))
         (start (world_of [] [record None (Some 500)])))
  = Throw (error_of "order failed").
Proof.
  assert (H : @reloads World (collaborators ca_down) "example.com"
                (record (Some "old-pem") (Some 500))
                (start (world_of [] [record None (Some 500)]))
                granted (Some (record None (Some 500)))
                (state (world_of [] [record None (Some 500)]) until_refetch init0)).
  { record_is_reloaded (world_of [] [record None (Some 500)]). }
  split; [exact H |]. split; [reflexivity |]. split; [reflexivity |].
  split; [reflexivity |].
  apply (proj2 (@acquireCert_fallback_is_reloaded World (collaborators ca_down)
                  "example.com" options _ _ granted _ _ H eq_refl)
           (error_of "order failed")
           (snd (@renew World (collaborators ca_down) "example.com" options
                   (Some (record None (Some 500)))
                   (state (world_of [] [record None (Some 500)]) until_refetch init0)))).
  reflexivity.
Defined.

(** C5 on a run: the stored record expired at 500, the clock shows 1000
    and every step of the renewal succeeds.  [getCertificate] returns the
    record with the certificate of the CA, which expires at 9000000000. *)
Lemma getCertificate_expired_witness :
  @finds_expired World (collaborators healthy) "example.com" options
    (start (world_of [] [record (Some "old-pem") (Some 500)]))
    (record (Some "old-pem") (Some 500))
    (state (world_of [] [record (Some "old-pem") (Some 500)])
       [AcmeInit "https://ca.test/directory"; GetRecord (ByServername "example.com")]
       initialized) /\
  fst (@getCertificate World (collaborators healthy) "example.com" options
         (start (world_of [] [record (Some "old-pem") (Some 500)])))
  = Return (VRecord (apply_updates (written "new-pem" ["chain-pem"] parsed 1000)
                       (record (Some "old-pem") (Some 500)))) /\
  expires (apply_updates (written "new-pem" ["chain-pem"] parsed 1000)
             (record (Some "old-pem") (Some 500))) = Some 9000000000.
Proof.
  assert (H : @finds_expired World (collaborators healthy) "example.com" options
                (start (world_of [] [record (Some "old-pem") (Some 500)]))
                (record (Some "old-pem") (Some 500))
                (state (world_of [] [record (Some "old-pem") (Some 500)])
                   [AcmeInit "https://ca.test/directory";
                    GetRecord (ByServername "example.com")]
                   initialized)).
  { exists (state (world_of [] [record (Some "old-pem") (Some 500)])
              [AcmeInit "https://ca.test/directory"] initialized),
      (world_of [] [record (Some "old-pem") (Some 500)]), 1000,
      (world_of [] [record (Some "old-pem") (Some 500)]), 1000,
      (world_of [] [record (Some "old-pem") (Some 500)]).
    repeat split; reflexivity. }
  assert (Hre : @reloads World (collaborators healthy) "example.com"
                  (record (Some "old-pem") (Some 500))
                  (state (world_of [] [record (Some "old-pem") (Some 500)])
                     [AcmeInit "https://ca.test/directory";
                      GetRecord (ByServername "example.com")]
                     initialized)
                  granted (Some (record (Some "old-pem") (Some 500)))
                  (state (world_of [] [record (Some "old-pem") (Some 500)])
                     ([AcmeInit "https://ca.test/directory";
                       GetRecord (ByServername "example.com")] ++ until_refetch)
                     initialized)).
  { exists (state (world_of [] [record (Some "old-pem") (Some 500)])
              ([AcmeInit "https://ca.test/directory";
                GetRecord (ByServername "example.com")] ++ until_lease)
              initialized),
      (world_of [] [record (Some "old-pem") (Some 500)]).
    split; [| split; reflexivity].
    exists (state (world_of [] [record (Some "old-pem") (Some 500)])
              [AcmeInit "https://ca.test/directory";
               GetRecord (ByServername "example.com");
               RedisExists "d:lock:safe:example.com";
               Log Info "ACME" "Domain validation for %s passed" [AStr "example.com"]]
              initialized),
      (world_of [] [record (Some "old-pem") (Some 500)]).
    split; [| split; reflexivity].
    exists (world_of [] [record (Some "old-pem") (Some 500)]). split; reflexivity. }
  assert (His : @issues World (collaborators healthy) "example.com" options
                  (record (Some "old-pem") (Some 500))
                  (state (world_of [] [record (Some "old-pem") (Some 500)])
                     ([AcmeInit "https://ca.test/directory";
                       GetRecord (ByServername "example.com")] ++ until_refetch)
                     initialized)
                  "new-pem" ["chain-pem"] parsed 1000
                  (Some (apply_updates (written "new-pem" ["chain-pem"] parsed 1000)
                           (record (Some "old-pem") (Some 500))))).
  { unfold issues. do 14 eexists.
    split; [reflexivity |]. split; [reflexivity |].
    split; [split; reflexivity |]. split; [reflexivity |]. split; [reflexivity |].
    split; [vm_compute; reflexivity |]. split; [reflexivity |]. split; [reflexivity |].
    split; [reflexivity |]. split; [reflexivity |]. split; [reflexivity |].
    split; reflexivity. }
  split; [exact H |]. split; [| reflexivity].
  apply (proj1 (proj2 (@getCertificate_expired World (collaborators healthy) "example.com"
                         options _ _ _ H))
           granted _ _ "new-pem" ["chain-pem"] parsed 1000 _ Hre His).
Defined.

(** C3 on a run: no record is stored for the domain. *)
Lemma getCertificate_values_witness :
  fst (@getCertificate World (collaborators healthy) "example.com" options
         (start (world_of [] [])))
  = Throw missing_certificate_error.
Proof.
  apply (proj2 (proj2 (@getCertificate_values World (collaborators healthy)
                         "example.com" options (start (world_of [] []))))
           (state (world_of [] []) [AcmeInit "https://ca.test/directory"] initialized)
           (world_of [] [])).
  - reflexivity.
  - reflexivity.
Defined.

(** C7 on a run: [a.b.example.com] with a CAA record of another CA at
    [example.com]. *)
Lemma validateDomain_walks_suffixes_witness :
  @joi_domain World (collaborators (with_zone [("example.com", [caa "X"])]))
    "a.b.example.com" = true /\
  @resolveCaa_is_function World (collaborators (with_zone [("example.com", [caa "X"])]))
    = true /\
  @caaDomains World (collaborators (with_zone [("example.com", [caa "X"])])) <> [] /\
  @caa_walk World (collaborators (with_zone [("example.com", [caa "X"])]))
    "a.b.example.com" ["a.b.example.com"; "b.example.com"; "example.com"]
    (start (world_of [] []))
    (Throw (caa_mismatch_error "example.com" "a.b.example.com"),
     state (world_of [] [])
       [ResolveCaa "a.b.example.com"; ResolveCaa "b.example.com"; ResolveCaa "example.com"]
       init0).
Proof.
  assert (H : @caaDomains World (collaborators (with_zone [("example.com", [caa "X"])]))
              <> []) by (vm_compute; discriminate).
  split; [reflexivity |]. split; [reflexivity |]. split; [exact H |].
  apply (proj1 (@validateDomain_walks_suffixes World
                  (collaborators (with_zone [("example.com", [caa "X"])]))
                  "a.b.example.com" (start (world_of [] [])) eq_refl eq_refl H)).
Defined.

(** C2 as first stated fails on a run: the CA issues, the store refuses
    the update.  The code logs the failure, writes no cooldown flag, and
    returns the CA's answer although the prior record has a
    certificate. *)
Lemma refused_update_sets_no_cooldown :
  In (failed_to_generate "example.com")
    (trace (snd (@acquireCert World (collaborators update_refused) "example.com" options
                   (record (Some "old-pem") (Some 500))
                   (start (world_of [] [record (Some "old-pem") (Some 500)]))))) /\
  ~ cooldown_then_degrade (record (Some "old-pem") (Some 500))
      (@acquireCert World (collaborators update_refused) "example.com" options
         (record (Some "old-pem") (Some 500))
         (start (world_of [] [record (Some "old-pem") (Some 500)]))).
Proof.
  split.
  - vm_compute. tauto.
  - intros [H _]. vm_compute in H. discriminate.
Qed.

(** C3 as first stated fails on the same run: [getCertificate] returns
    the bare [{cert, chain}] of the CA, which is neither a record nor an
    error. *)
Lemma getCertificate_returns_ca_answer :
  fst (@getCertificate World (collaborators update_refused) "example.com" options
         (start (world_of [] [record (Some "old-pem") (Some 500)])))
  = Return (VCert {| ac_cert := Some "new-pem"; ac_chain := ["chain-pem"] |}) /\
  ~ record_or_error
      (@getCertificate World (collaborators update_refused) "example.com" options
         (start (world_of [] [record (Some "old-pem") (Some 500)]))).
Proof.
  split; [reflexivity |].
  intros [[r H] | [e H]]; vm_compute in H; discriminate.
Qed.

(** C5 as first stated fails on a run: the record expired at 500, has no
    certificate, and the cooldown flag is set.  [getCertificate] returns
    that record: its [expires] is not later, it carries no certificate,
    no issuance was attempted, and no error is raised. *)
Lemma expired_record_behind_cooldown :
  expires_after (record None (Some 500))
    (time (world_of ["d:lock:safe:example.com"] [record None (Some 500)])) = false /\
  fst (@getCertificate World (collaborators healthy) "example.com" options
         (start (world_of ["d:lock:safe:example.com"] [record None (Some 500)])))
  = Return (VRecord (record None (Some 500))) /\
  ~ renewed_or_degraded (record None (Some 500))
      (@getCertificate World (collaborators healthy) "example.com" options
         (start (world_of ["d:lock:safe:example.com"] [record None (Some 500)]))).
Proof.
  split; [reflexivity |]. split; [reflexivity |].
  intros [(r & H & Hl) | [(_ & H & _) | [e H]]].
  - vm_compute in H. injection H as <-. vm_compute in Hl. discriminate.
  - vm_compute in H. discriminate.
  - vm_compute in H. discriminate.
Qed.

End Runs.

(* ===================================================================== *)
(** ** Further properties of ensureAcme *)
(* ===================================================================== *)

Section EnsureAcme.
Context {W : Type} {C : Collaborators W}.

(** [ensureAcme] returns nothing but [true]. *)
Lemma ensureAcme_returns acmeOptions (s s1 : State W) b :
  ensureAcme acmeOptions s = (Return b, s1) ->
  b = true /\ acmeInitialized (vars s1) = true.
Proof.
  unfold ensureAcme, ensureAcme_enter.
  destruct (acmeInitialized (vars s)) eqn:I.
  - intros H. inversion H; subst. auto.
  - destruct (acmeInitializing (vars s)); [discriminate |].
    destruct (acme_init (directoryUrl acmeOptions) (world s)) as [[[] | e] w]; cbn;
      intros H; inversion H; subst; auto.
Qed.

(** X1.  Once a call of [ensureAcme] has returned, every later call
    returns [true] at once, whatever its options: [acme.init] is not
    called again, not even for another directory URL, and nothing
    changes. *)
Theorem ensureAcme_initializes_once acmeOptions acmeOptions' (s s1 : State W) b :
  ensureAcme acmeOptions s = (Return b, s1) ->
  ensureAcme acmeOptions' s1 = (Return true, s1).
Proof.
  intros H. apply ensureAcme_returns in H as [_ H].
  unfold ensureAcme, ensureAcme_enter. rewrite H. reflexivity.
Qed.

Lemma world_emits l (s : State W) : world (emits l s) = world s.
Proof.
  revert s. induction l as [| ev l IH]; intros s; [reflexivity |].
  cbn. unfold emits in IH. now rewrite IH.
Qed.

Lemma vars_emits l (s : State W) : vars (emits l s) = vars s.
Proof.
  revert s. induction l as [| ev l IH]; intros s; [reflexivity |].
  cbn. unfold emits in IH. now rewrite IH.
Qed.

(** A call that finds the module uninitialized and idle. *)
Lemma ensureAcme_starts acmeOptions (s : State W) r w :
  acmeInitialized (vars s) = false ->
  acmeInitializing (vars s) = false ->
  acme_init (directoryUrl acmeOptions) (world s) = (r, w) ->
  ensureAcme acmeOptions s =
    (snd (ensureAcme_resume r (vars s)),
     set_vars (fst (fst (ensureAcme_resume r (vars s))))
       (emits (snd (fst (ensureAcme_resume r (vars s))))
          (set_world w (emit (AcmeInit (directoryUrl acmeOptions)) s)))).
Proof.
  intros Hi Hg Hr. unfold ensureAcme, ensureAcme_enter. rewrite Hi, Hg, Hr.
  cbn [vars set_world emit].
  destruct (ensureAcme_resume r (vars s)) as [[v evs] out]. reflexivity.
Qed.

(** X2.  When [acme.init] rejects, [ensureAcme] rejects every pending
    entry, throws the error and leaves the module variables as they were.
    The next call therefore calls [acme.init] again, and returns [true] if
    that call succeeds. *)
Theorem ensureAcme_failure_is_retried acmeOptions acmeOptions' (s : State W) e w w' :
  acmeInitialized (vars s) = false ->
  acmeInitializing (vars s) = false ->
  acme_init (directoryUrl acmeOptions) (world s) = (Err e, w) ->
  acme_init (directoryUrl acmeOptions') w = (Ok tt, w') ->
  fst (ensureAcme acmeOptions s) = Throw e /\
  vars (snd (ensureAcme acmeOptions s)) = vars s /\
  trace (snd (ensureAcme acmeOptions s)) =
    (trace s ++ AcmeInit (directoryUrl acmeOptions)
       :: map (fun p => Reject p e) (acmeInitPending (vars s)))%list /\
  fst (ensureAcme acmeOptions' (snd (ensureAcme acmeOptions s))) = Return true /\
  trace (snd (ensureAcme acmeOptions' (snd (ensureAcme acmeOptions s)))) =
    (trace (snd (ensureAcme acmeOptions s)) ++ AcmeInit (directoryUrl acmeOptions')
       :: map Resolve (acmeInitPending (vars s)))%list.
Proof.
  intros Hi Hg Herr Hok.
  rewrite (ensureAcme_starts acmeOptions s _ _ Hi Hg Herr).
  cbn [ensureAcme_resume fst snd].
  set (s1 := set_vars _ _).
  assert (Hv : vars s1 = vars s).
  { subst s1. cbn. destruct (vars s) as [i g p n]. cbn in *. now subst. }
  assert (Hw : world s1 = w).
  { subst s1. cbn [world set_vars]. now rewrite world_emits. }
  assert (Ht : trace s1 =
               (trace s ++ AcmeInit (directoryUrl acmeOptions)
                  :: map (fun p => Reject p e) (acmeInitPending (vars s)))%list).
  { subst s1. cbn [trace set_vars]. rewrite trace_emits. cbn. now rewrite <- app_assoc. }
  split; [reflexivity |]. split; [exact Hv |]. split; [exact Ht |].
  assert (Hi1 : acmeInitialized (vars s1) = false) by now rewrite Hv.
  assert (Hg1 : acmeInitializing (vars s1) = false) by now rewrite Hv.
  rewrite <- Hw in Hok.
  rewrite (ensureAcme_starts acmeOptions' s1 _ _ Hi1 Hg1 Hok).
  cbn [ensureAcme_resume fst snd]. split; [reflexivity |].
  cbn [trace set_vars]. rewrite trace_emits, Hv. cbn. now rewrite <- app_assoc.
Qed.

End EnsureAcme.

Module InterleavingMore.
Import Interleaving.

Lemma step_ended p a x : In x (ended p) -> In x (ended (step p a)).
Proof.
  intros H. destruct a as [c | c r]; cbn.
  - destruct (ensureAcme_enter (pvars p)); cbn; auto using in_or_app.
  - destruct (existsb (Nat.eqb c) (initiating p)); [| exact H].
    destruct (ensureAcme_resume r (pvars p)) as [[v evs] out]. cbn. auto using in_or_app.
Qed.

Lemma run_ended schedule : forall p x, In x (ended p) -> In x (ended (run schedule p)).
Proof.
  induction schedule as [| a schedule IH]; intros p x H; [exact H |].
  cbn. apply IH, step_ended, H.
Qed.

Lemma step_ready p a :
  acmeInitialized (pvars p) = true ->
  acmeInitialized (pvars (step p a)) = true /\
  incl (initiating (step p a)) (initiating p).
Proof.
  intros H. destruct a as [c | c r]; cbn.
  - unfold ensureAcme_enter. rewrite H. cbn. split; [exact H | apply incl_refl].
  - destruct (existsb (Nat.eqb c) (initiating p)); [| split; [exact H | apply incl_refl]].
    destruct r; cbn; (split; [try reflexivity; exact H |]);
      intros x Hx; apply filter_In in Hx; tauto.
Qed.

(** X3.  Once the module is initialized it stays so in every schedule: no
    later segment starts another [acme.init], and every caller that enters
    afterwards ends with [true]. *)
Theorem ready_is_absorbing schedule :
  forall p,
    acmeInitialized (pvars p) = true ->
    acmeInitialized (pvars (run schedule p)) = true /\
    incl (initiating (run schedule p)) (initiating p) /\
    (forall c, In (Call c) schedule -> In (c, Return true) (ended (run schedule p))).
Proof.
  induction schedule as [| a schedule IH]; intros p H.
  - cbn. repeat split; [exact H | apply incl_refl | intros c []].
  - destruct (step_ready p a H) as [H1 Hincl].
    destruct (IH (step p a) H1) as (Hi & Hsub & Hend).
    cbn. repeat split; [exact Hi | eapply incl_tran; eassumption |].
    intros c [-> | Hin]; [| apply Hend, Hin].
    apply run_ended. cbn. unfold ensureAcme_enter. rewrite H. cbn.
    apply in_or_app. right. now left.
Qed.

End InterleavingMore.

(* ===================================================================== *)
(** ** Further properties of getAcmeAccount *)
(* ===================================================================== *)

Lemma filter_none {A} (f g : A -> bool) (l : list A) :
  (forall x, g x = true -> f x = false) -> forallb g l = true -> filter f l = [].
Proof.
  intros Hfg. induction l as [| x l IH]; cbn; [reflexivity |].
  intros H. apply andb_true_iff in H as [Hx Hl]. now rewrite (Hfg x Hx), IH.
Qed.

Section Account.
Context {W : Type} {C : Collaborators W}.

(** [ensureAcme] calls nothing but [acme.init] on the directory of its
    options and the callbacks of the pending entries. *)
Lemma ensureAcme_within (P : event -> bool) acmeOptions :
  P (AcmeInit (directoryUrl acmeOptions)) = true ->
  (forall p, P (Resolve p) = true) ->
  (forall p e, P (Reject p e) = true) ->
  within P (ensureAcme acmeOptions).
Proof.
  intros Hinit Hres Hrej s. unfold ensureAcme.
  destruct (ensureAcme_enter (vars s)) as [| p v |].
  - apply adds_refl.
  - apply adds_set_vars, adds_refl.
  - destruct (acme_init (directoryUrl acmeOptions) (world s)) as [r w].
    destruct (ensureAcme_resume r _) as [[v evs] out] eqn:E. cbn [snd].
    apply adds_set_vars, adds_emits;
      [| apply adds_set_world, adds_emit; [exact Hinit | apply adds_refl]].
    unfold ensureAcme_resume in E. destruct r; inversion E; subst evs;
      apply forallb_forall; intros ev Hin; apply in_map_iff in Hin as (q & <- & _); auto.
Qed.

(** X4.  When the settings hold an account under the key of the options,
    [getAcmeAccount] returns it as it is; after the initialization its only
    call is the lookup: no key is generated, no account is registered and
    nothing is stored. *)
Theorem getAcmeAccount_existing acmeOptions (s s1 : State W) b v w :
  ensureAcme acmeOptions s = (Return b, s1) ->
  settings_findOne ("acme:account:" ++ key acmeOptions) (world s1)
    = (Ok (Some {| doc_value := Some v |}), w) ->
  getAcmeAccount acmeOptions s =
    (Return (Some v),
     set_world w (emit (SettingsFindOne ("acme:account:" ++ key acmeOptions)) s1)).
Proof.
  intros Hinit Hfind. unfold getAcmeAccount.
  rewrite (bind_return _ _ _ _ _ Hinit).
  rewrite (bind_return _ _ _ _ _ (call_ok _ _ _ _ _ Hfind)). reflexivity.
Qed.

(** X5.  In every run [getAcmeAccount] stores at most one settings entry,
    under the key [acme:account:<key>] of its options; when it has stored
    one and returns, the account it returns is the value it stored. *)
Theorem getAcmeAccount_returns_what_it_stores acmeOptions (s : State W) :
  exists l,
    trace (snd (getAcmeAccount acmeOptions s)) = (trace s ++ l)%list /\
    (filter is_insert l = [] \/
     exists v created,
       filter is_insert l =
         [SettingsInsertOne ("acme:account:" ++ key acmeOptions) v created] /\
       (fst (getAcmeAccount acmeOptions s) = Return (Some v) \/
        exists e, fst (getAcmeAccount acmeOptions s) = Throw e)).
Proof.
  pose proof (ensureAcme_within (fun ev => negb (is_insert ev)) acmeOptions
                eq_refl (fun _ => eq_refl) (fun _ _ => eq_refl) s) as (l0 & Ht0 & Hl0).
  apply (filter_none is_insert) in Hl0;
    [| intros x Hx; now apply negb_true_iff in Hx].
  unfold getAcmeAccount, bind, call, lift, log, ret, now.
  destruct (ensureAcme acmeOptions s) as [[b | e |] s1]; cbn [snd] in Ht0;
    try (exists l0; split; [exact Ht0 | now left]).
  run_cases; cbn [fst snd trace emit set_world world vars];
    rewrite Ht0; repeat rewrite <- app_assoc; cbn [app];
    (eexists; split; [reflexivity |]);
    rewrite filter_app, Hl0; cbn [app filter is_insert];
    first [ left; reflexivity
          | right; do 2 eexists; split;
            [reflexivity | first [left; reflexivity | right; eexists; reflexivity]] ].
Qed.

End Account.

(* ===================================================================== *)
(** ** Further properties of validateDomain *)
(* ===================================================================== *)

Section ValidateDomain.
Context {W : Type} {C : Collaborators W}.

(** X6.  The syntax is checked before anything else.  For a name that Joi
    refuses and a clear cooldown flag, [acquireCert] makes no DNS query and
    asks for no lease: it logs and returns the record it was given.  The
    message logged is the text of line 129 as written, with its
    placeholder: the quotes of that line do not interpolate. *)
Theorem acquireCert_refuses_bad_syntax domain acmeOptions certificateData (s : State W) w1 :
  redis_exists (domainSafeLockKey domain) (world s) = (Ok 0, w1) ->
  joi_domain domain = false ->
  acquireCert domain acmeOptions certificateData s =
    (Return (VRecord certificateData),
     emit (Log Error "ACME" "Failed to validate domain %s: %s"
             [AStr domain; AStr "${domain} is not a valid domain name"])
       (set_world w1 (emit (RedisExists (domainSafeLockKey domain)) s))).
Proof.
  intros Hex Hjoi.
  assert (Hv : validateDomain domain
                 (set_world w1 (emit (RedisExists (domainSafeLockKey domain)) s))
               = (Throw invalid_domain_error,
                  set_world w1 (emit (RedisExists (domainSafeLockKey domain)) s))).
  { unfold validateDomain. rewrite Hjoi. reflexivity. }
  unfold acquireCert.
  rewrite (bind_return _ _ _ _ _ (call_ok _ _ _ _ _ Hex)). cbn [Z.eqb negb].
  rewrite (bind_return _ _ _ _ _ (validated_failure _ _ _ _ Hv)). reflexivity.
Qed.

Lemma caaDomains_empty :
  forallb (fun d => String.eqb (normalizeDomain (Some d)) "") config_caaDomains = true ->
  caaDomains = [].
Proof.
  unfold caaDomains. induction config_caaDomains as [| d ds IH]; cbn; [reflexivity |].
  intros H. apply andb_true_iff in H as [Hd Hds]. rewrite Hd. cbn. auto.
Qed.

(** X7.  The CAA check is skipped altogether, without a DNS query, when
    the resolver has no [resolveCaa] or when every entry of the configured
    allow-list normalizes to the empty string (an empty list included): a
    well-formed domain is then accepted whatever its CAA records say. *)
Theorem validateDomain_skips_caa domain (s : State W) :
  joi_domain domain = true ->
  resolveCaa_is_function = false \/
  forallb (fun d => String.eqb (normalizeDomain (Some d)) "") config_caaDomains = true ->
  validateDomain domain s = (Return true, s).
Proof.
  intros Hjoi Hskip. unfold validateDomain. rewrite Hjoi. cbn [negb].
  destruct Hskip as [-> | H]; [reflexivity |].
  rewrite (caaDomains_empty H). cbn. rewrite andb_false_r. reflexivity.
Qed.

Lemma caa_loop_queries domain parts todo :
  forall s : State W,
  exists l k,
    trace (snd (caa_loop domain parts todo s)) = (trace s ++ l)%list /\
    queried l = firstn k (map (fun i => Str.join "." (Str.slice i parts)) todo).
Proof.
  induction todo as [| i rest IH]; intros s.
  - exists [], O. cbn. now rewrite app_nil_r.
  - cbn [caa_loop map].
    generalize (Str.join "." (Str.slice i parts)). intros name.
    destruct (resolveCaa name (world s)) as [[rs | e] w] eqn:E.
    + rewrite (bind_return _ _ _ _ _ (query_caa_ok _ _ _ _ E)).
      cbn [caa_present caa_records].
      destruct (negb (Nat.eqb (List.length rs) 0)); cbn [andb].
      * destruct (negb (caa_listed rs)).
        -- exists [ResolveCaa name], 1%nat. split; reflexivity.
        -- eexists [ResolveCaa name; _], 1%nat.
           split; [cbn; rewrite <- app_assoc; reflexivity | reflexivity].
      * destruct (IH (set_world w (emit (ResolveCaa name) s))) as (l & k & Ht & Hq).
        exists (ResolveCaa name :: l), (S k). rewrite Ht.
        cbn [trace set_world emit]. rewrite <- app_assoc.
        split; [reflexivity |].
        change (queried (ResolveCaa name :: l)) with (name :: queried l).
        rewrite Hq. reflexivity.
    + rewrite (bind_return _ _ _ _ _ (query_caa_err _ _ _ _ E)).
      cbn [caa_present andb].
      destruct (IH (set_world w (emit (ResolveCaa name) s))) as (l & k & Ht & Hq).
      exists (ResolveCaa name :: l), (S k). rewrite Ht.
      cbn [trace set_world emit]. rewrite <- app_assoc.
      split; [reflexivity |].
      change (queried (ResolveCaa name :: l)) with (name :: queried l).
      rewrite Hq. reflexivity.
Qed.

(** X8.  Whatever the resolver answers, the names that [validateDomain]
    queries are, in this order, the first [k] suffixes of the domain that
    have at least two labels, for some [k]: each query is for the domain
    or one of its parents, none is for the last label alone, and there
    are at most as many queries as labels less one. *)
Theorem validateDomain_queries_suffixes domain (s : State W) :
  exists l k,
    trace (snd (validateDomain domain s)) = (trace s ++ l)%list /\
    queried l = firstn k (label_suffixes (Str.split "." domain)) /\
    (List.length (queried l) <= List.length (Str.split "." domain) - 1)%nat.
Proof.
  assert (H : exists l k,
             trace (snd (validateDomain domain s)) = (trace s ++ l)%list /\
             queried l = firstn k (label_suffixes (Str.split "." domain))).
  { unfold validateDomain.
    destruct (negb (joi_domain domain)).
    - exists [], O. cbn. now rewrite app_nil_r.
    - destruct (resolveCaa_is_function && negb (Nat.eqb (List.length caaDomains) 0)).
      + destruct (caa_loop_queries domain (Str.split "." domain)
                    (seq 0 (List.length (Str.split "." domain) - 1)) s)
          as (l & k & Ht & Hq).
        exists l, k. rewrite <- StrFacts.loop_names. split; [| exact Hq].
        unfold bind.
        destruct (caa_loop domain (Str.split "." domain)
                    (seq 0 (List.length (Str.split "." domain) - 1)) s) as [[[] | e |] s'];
          exact Ht.
      + exists [], O. cbn. now rewrite app_nil_r. }
  destruct H as (l & k & Ht & Hq). exists l, k. repeat split; [exact Ht | exact Hq |].
  rewrite Hq, length_firstn, <- StrFacts.loop_names, length_map, length_seq.
  apply Nat.le_min_r.
Qed.

End ValidateDomain.

(* ===================================================================== *)
(** ** What the functions call *)
(* ===================================================================== *)

Ltac footprint_side :=
  first
  [ solve [ cbn; rewrite ?String.eqb_refl, ?Z.eqb_refl, ?orb_true_r; cbn;
            first [reflexivity | assumption] ]
  | solve [ unfold dispatch_event, acquire_event, critical_event, renewal_event,
            issuance_event, account_event, one, same_id;
          cbv beta iota;
          rewrite ?String.eqb_refl, ?Z.eqb_refl, ?orb_true_r; cbn;
          first [reflexivity | assumption] ] ].

(** As [within_steps], keeping the tests that were decided. *)
Ltac footprint_steps :=
  repeat first
    [ progress auto with growth
    | apply within_bind
    | apply within_try_catch
    | apply within_try_finally
    | apply within_log; footprint_side
    | apply within_call; footprint_side
    | match goal with
      | |- within _ (if ?b then _ else _) => destruct b eqn:?
      | |- within _ (match ?x with _ => _ end) => destruct x eqn:?
      | |- forall _, within _ _ => intro
      end ].

Section Footprints.
Context {W : Type} {C : Collaborators W}.

Lemma adds_weaken (P Q : event -> bool) (s s' : State W) :
  (forall ev, P ev = true -> Q ev = true) -> adds P s s' -> adds Q s s'.
Proof.
  intros HPQ (l & Ht & Hl). exists l. split; [exact Ht |].
  rewrite forallb_forall in *. auto.
Qed.

Lemma within_weaken {A} (P Q : event -> bool) (m : M W A) :
  (forall ev, P ev = true -> Q ev = true) -> within P m -> within Q m.
Proof. intros HPQ Hm s. eapply adds_weaken; [exact HPQ | apply Hm]. Qed.

Lemma issuance_of_account d o id ev : account_event o ev = true -> issuance_event d o id ev = true.
Proof. unfold issuance_event. now intros ->. Qed.

Lemma renewal_of_issuance d o id ev : issuance_event d o id ev = true -> renewal_event d o id ev = true.
Proof. unfold renewal_event. now intros ->. Qed.

Lemma renewal_any_id d o id ev : renewal_event d o id ev = true -> renewal_event d o None ev = true.
Proof.
  unfold renewal_event, issuance_event.
  destruct (account_event o ev); [reflexivity |].
  destruct ev as [| | | | | [] | | | | | | | | | | | |]; cbn; auto.
  rewrite !orb_false_r. intros H.
  apply andb_true_iff in H as [H1 H2]. apply andb_true_iff in H1 as [_ H1].
  now rewrite H1, H2.
Qed.

Lemma critical_of_renewal d o id ev : renewal_event d o id ev = true -> critical_event d o ev = true.
Proof. intros H. unfold critical_event. now rewrite (renewal_any_id _ _ _ _ H). Qed.

Lemma acquire_of_critical d o ev : critical_event d o ev = true -> acquire_event d o ev = true.
Proof. unfold acquire_event. now intros ->. Qed.

Lemma acquire_of_log d o ev : is_log ev = true -> acquire_event d o ev = true.
Proof. destruct ev; try discriminate. reflexivity. Qed.

Lemma critical_of_log d o ev : is_log ev = true -> critical_event d o ev = true.
Proof. destruct ev; try discriminate. reflexivity. Qed.

Lemma getAcmeAccount_footprint acmeOptions :
  within (account_event acmeOptions) (getAcmeAccount acmeOptions).
Proof.
  unfold getAcmeAccount.
  assert (within (account_event acmeOptions) (ensureAcme acmeOptions)).
  { apply ensureAcme_within; [cbn; apply String.eqb_refl | reflexivity | reflexivity]. }
  footprint_steps.
Qed.

Lemma issue_cert_footprint domain acmeOptions certificateData csr :
  within (issuance_event domain acmeOptions (Some (_id certificateData)))
    (issue_cert domain acmeOptions certificateData csr).
Proof.
  unfold issue_cert.
  pose proof (within_weaken _ _ _
                (issuance_of_account domain acmeOptions (Some (_id certificateData)))
                (getAcmeAccount_footprint acmeOptions)).
  footprint_steps.
Qed.

Lemma renew_footprint domain acmeOptions reloaded :
  within (renewal_event domain acmeOptions (option_map _id reloaded))
    (renew domain acmeOptions reloaded).
Proof.
  unfold renew. destruct reloaded as [r |]; [| apply within_throw]. cbn [option_map].
  pose proof (fun csr =>
                within_weaken _ _ _ (renewal_of_issuance domain acmeOptions (Some (_id r)))
                  (issue_cert_footprint domain acmeOptions r csr)).
  footprint_steps.
Qed.

(** X9.  A record that has a private key keeps it: when the record
    re-fetched under the lease carries a key, the renewal never asks the
    store for a new one, and whatever else it calls belongs to the
    issuance for this domain and this record. *)
Theorem renew_keeps_private_key domain acmeOptions r (s : State W) :
  Str.truthy (privateKey r) = true ->
  exists l,
    trace (snd (renew domain acmeOptions (Some r) s)) = (trace s ++ l)%list /\
    forallb (issuance_event domain acmeOptions (Some (_id r))) l = true.
Proof.
  intros Hkey. revert s. change (within (issuance_event domain acmeOptions (Some (_id r)))
                                   (renew domain acmeOptions (Some r))).
  unfold renew. rewrite Hkey.
  pose proof (fun csr => issue_cert_footprint domain acmeOptions r csr).
  footprint_steps.
Qed.

End Footprints.

(* ===================================================================== *)
(** ** The shape of a run of acquireCert *)
(* ===================================================================== *)

Section Shape.
Context {W : Type} {C : Collaborators W}.

Lemma refetch_is_renewal domain acmeOptions id :
  renewal_event domain acmeOptions None (GetRecord (ById id)) = true.
Proof. reflexivity. Qed.

(** What the critical section adds to the trace: calls of the renewal,
    then nothing or the write of the cooldown flag followed by log
    lines. *)
Lemma critical_section_shape domain acmeOptions certificateData (s : State W) :
  exists l1 l2,
    trace (snd (critical_section domain acmeOptions certificateData s))
      = (trace s ++ l1 ++ l2)%list /\
    forallb (renewal_event domain acmeOptions None) l1 = true /\
    (l2 = [] \/
     exists logs,
       l2 = RedisSetExpire (domainSafeLockKey domain) 1 BLOCK_RENEW_AFTER_ERROR_TTL :: logs /\
       forallb is_log logs = true).
Proof.
  assert (Hfail : forall reloaded e (s5 : State W),
            exists logs,
              trace (snd (on_failure domain reloaded e s5)) =
                (trace s5 ++ RedisSetExpire (domainSafeLockKey domain) 1
                               BLOCK_RENEW_AFTER_ERROR_TTL :: logs)%list /\
              forallb is_log logs = true).
  { intros reloaded e s5. rewrite on_failure_run.
    destruct (block_renewal_run domain s5) as (s6 & l & Hb & Ht & Hl & _).
    rewrite Hb. cbn [snd]. eexists (l ++ [_])%list. rewrite trace_emit, Ht, <- app_assoc.
    split; [reflexivity |]. rewrite forallb_app, Hl. reflexivity. }
  unfold critical_section, call.
  destruct (getRecord (ById (_id certificateData)) (world s)) as [[reloaded | e] w].
  - unfold try_catch.
    pose proof (renew_footprint domain acmeOptions reloaded
                  (set_world w (emit (GetRecord (ById (_id certificateData))) s)))
      as Hr.
    apply (adds_weaken _ _ _ _ (renewal_any_id domain acmeOptions _)) in Hr.
    destruct Hr as (lr & Ht & Hl).
    destruct (renew domain acmeOptions reloaded _) as [[v | e |] s2]; cbn [snd] in Ht.
    + exists (GetRecord (ById (_id certificateData)) :: lr), [].
      cbn [snd]. rewrite Ht, app_nil_r. cbn [trace set_world emit].
      rewrite <- app_assoc. cbn [app forallb]. rewrite refetch_is_renewal. auto.
    + destruct (Hfail reloaded e s2) as (logs & Hf & Hlogs).
      exists (GetRecord (ById (_id certificateData)) :: lr), (RedisSetExpire (domainSafeLockKey domain) 1 BLOCK_RENEW_AFTER_ERROR_TTL :: logs).
      cbn [snd]. rewrite Hf, Ht. cbn [trace set_world emit]. rewrite <- !app_assoc.
      cbn [app]. split; [reflexivity |].
      split; [cbn [forallb]; rewrite refetch_is_renewal; exact Hl | right; eauto].
    + exists (GetRecord (ById (_id certificateData)) :: lr), [].
      cbn [snd]. rewrite Ht, app_nil_r. cbn [trace set_world emit].
      rewrite <- app_assoc. cbn [app forallb]. rewrite refetch_is_renewal. auto.
  - destruct (Hfail (Some certificateData) e
                (set_world w (emit (GetRecord (ById (_id certificateData))) s)))
      as (logs & Hf & Hlogs).
    exists [GetRecord (ById (_id certificateData))],
      (RedisSetExpire (domainSafeLockKey domain) 1 BLOCK_RENEW_AFTER_ERROR_TTL :: logs).
    rewrite Hf. cbn [trace set_world emit]. rewrite <- !app_assoc. cbn [app].
    split; [reflexivity |].
    split; [cbn [forallb]; now rewrite refetch_is_renewal | right; eauto].
Qed.

Lemma critical_section_footprint domain acmeOptions certificateData :
  within (critical_event domain acmeOptions)
    (critical_section domain acmeOptions certificateData).
Proof.
  intros s.
  destruct (critical_section_shape domain acmeOptions certificateData s)
    as (l1 & l2 & Ht & H1 & H2).
  exists (l1 ++ l2)%list. split; [exact Ht |]. rewrite forallb_app. apply andb_true_iff. split.
  - rewrite forallb_forall in *. intros ev Hin.
    apply (critical_of_renewal _ _ None), H1, Hin.
  - destruct H2 as [-> | (logs & -> & Hlogs)]; [reflexivity |].
    cbn [forallb]. apply andb_true_iff. split.
    + unfold critical_event. cbn -[Z.eqb String.eqb].
      now rewrite String.eqb_refl, !Z.eqb_refl.
    + rewrite forallb_forall in *. intros ev Hin. apply critical_of_log, Hlogs, Hin.
Qed.

Lemma release_footprint domain acmeOptions lock :
  within (acquire_event domain acmeOptions) (release domain lock).
Proof. unfold release. footprint_steps. Qed.

Lemma validated_footprint domain acmeOptions :
  within (acquire_event domain acmeOptions) (validated domain).
Proof.
  intros s. destruct (validated_events domain s) as (evs & b & _ & Ht & Hev & _).
  exists evs. split; [exact Ht |]. rewrite forallb_forall in *. intros ev Hin.
  specialize (Hev ev Hin). destruct ev; try discriminate; reflexivity.
Qed.

Lemma acquireCert_within domain acmeOptions certificateData :
  within (acquire_event domain acmeOptions) (acquireCert domain acmeOptions certificateData).
Proof.
  unfold acquireCert.
  pose proof (validated_footprint domain acmeOptions).
  pose proof (release_footprint domain acmeOptions).
  pose proof (within_weaken _ _ _ (acquire_of_critical domain acmeOptions)
                (critical_section_footprint domain acmeOptions certificateData)).
  footprint_steps.
Qed.

(** X10.  Everything [acquireCert] calls belongs to its domain and its
    options.  It reads and writes the cooldown flag under
    [d:lock:safe:<domain>] only, the write with value 1 and the configured
    lifetime; it asks for the lease [d:lock:op:<domain>] only, for ten
    minutes with a wait of three; its CSR and its order are for the domain
    alone; it looks up and stores the account under [acme:account:<key>]
    only and registers under the configured e-mail with the terms agreed;
    it updates a record only to status [valid] with a certificate that is
    not empty; and it never looks a record up by server name. *)
Theorem acquireCert_footprint domain acmeOptions certificateData (s : State W) :
  exists l,
    trace (snd (acquireCert domain acmeOptions certificateData s)) = (trace s ++ l)%list /\
    forallb (acquire_event domain acmeOptions) l = true.
Proof. apply acquireCert_within. Qed.

Lemma no_release_in_critical domain acmeOptions l :
  forallb (critical_event domain acmeOptions) l = true -> filter is_release l = [].
Proof.
  apply filter_none. intros ev. destruct ev; try reflexivity. discriminate.
Qed.

Lemma no_release_in_logs l : forallb is_log l = true -> filter is_release l = [].
Proof. apply filter_none. intros ev. destruct ev; try reflexivity; discriminate. Qed.

(** X11.  Once [acquireCert] holds the lease, every run that settles
    releases it, whether it returns or throws: the release of that very
    lease comes after all calls of the critical section, only log lines
    follow it, and it is the only release of the run. *)
Theorem acquireCert_releases_lease_once
    domain acmeOptions certificateData (s : State W) lock s3 :
  holds_lease domain s lock s3 ->
  fst (acquireCert domain acmeOptions certificateData s) <> Pending ->
  exists l1 l2,
    trace (snd (acquireCert domain acmeOptions certificateData s)) =
      (trace s3 ++ l1 ++ ReleaseLock lock :: l2)%list /\
    forallb (critical_event domain acmeOptions) l1 = true /\
    forallb is_log l2 = true /\
    filter is_release (l1 ++ ReleaseLock lock :: l2) = [ReleaseLock lock].
Proof.
  intros Hlease Hsettled.
  rewrite (acquireCert_under_lease _ _ _ _ _ _ Hlease), try_finally_release in *.
  destruct (critical_section_footprint domain acmeOptions certificateData s3)
    as (l1 & Ht & Hl1).
  destruct (critical_section domain acmeOptions certificateData s3) as [[v | e |] s4];
    cbn [fst snd] in *; [| | congruence];
    destruct (release_run domain lock s4) as (s5 & l2 & Hr & Ht5 & Hl2 & _);
    rewrite Hr; cbn [snd]; exists l1, l2;
    rewrite Ht5, Ht, <- app_assoc;
    (split; [reflexivity |]); (split; [exact Hl1 |]); (split; [exact Hl2 |]);
    rewrite filter_app, (no_release_in_critical _ _ _ Hl1); cbn;
    now rewrite (no_release_in_logs _ Hl2).
Qed.

Lemma no_cooldown_in_renewal domain acmeOptions l :
  forallb (renewal_event domain acmeOptions None) l = true -> filter sets_cooldown l = [].
Proof.
  apply filter_none. intros ev. destruct ev; try reflexivity. discriminate.
Qed.

Lemma no_cooldown_in_validation l :
  forallb validation_event l = true -> filter sets_cooldown l = [].
Proof. apply filter_none. intros ev. destruct ev; try reflexivity; discriminate. Qed.

Lemma no_cooldown_in_logs l : forallb is_log l = true -> filter sets_cooldown l = [].
Proof. apply filter_none. intros ev. destruct ev; try reflexivity; discriminate. Qed.

(** X12.  A run of [acquireCert] writes the cooldown flag at most once. *)
Theorem acquireCert_cooldown_at_most_once domain acmeOptions certificateData (s : State W) :
  exists l,
    trace (snd (acquireCert domain acmeOptions certificateData s)) = (trace s ++ l)%list /\
    (List.length (filter sets_cooldown l) <= 1)%nat.
Proof.
  unfold acquireCert, bind at 1, call at 1.
  destruct (redis_exists (domainSafeLockKey domain) (world s)) as [[n | e] w1];
    [| eexists [_]; split; [reflexivity | cbn; lia]].
  destruct (negb (n =? 0));
    [eexists [_; _]; split; [cbn; rewrite <- app_assoc; reflexivity | cbn; lia] |].
  unfold bind at 1.
  destruct (validated_events domain
              (set_world w1 (emit (RedisExists (domainSafeLockKey domain)) s)))
    as (evs & b & Hb & Ht & Hev & _).
  apply no_cooldown_in_validation in Hev.
  cbn [trace set_world emit] in Ht. rewrite <- app_assoc in Ht. cbn [app] in Ht.
  destruct (validated domain _) as [[[|] | e |] s2]; cbn [fst snd negb] in *;
    try discriminate.
  2: { exists (RedisExists (domainSafeLockKey domain) :: evs).
       unfold ret. cbn [snd]. split; [exact Ht | cbn; rewrite Hev; cbn; lia]. }
  unfold bind, call.
  destruct (waitAcquireLock _ _ _ (world s2)) as [[lock | e] w3].
  2: { exists (RedisExists (domainSafeLockKey domain) :: evs ++
                 [GetLock (domainOpLockKey domain) (10 * 60 * 1000) (3 * 60 * 1000)])%list.
       cbn [snd trace set_world emit]. rewrite Ht, <- !app_assoc. cbn [app].
       split; [reflexivity |]. cbn [filter sets_cooldown].
       rewrite filter_app, Hev. cbn. lia. }
  rewrite try_finally_release.
  set (s3 := set_world w3 _).
  assert (Ht3 : trace s3 =
                (trace s ++ RedisExists (domainSafeLockKey domain) :: evs ++
                   [GetLock (domainOpLockKey domain) (10 * 60 * 1000) (3 * 60 * 1000)])%list).
  { subst s3. cbn [trace set_world emit]. rewrite Ht, <- !app_assoc. reflexivity. }
  destruct (critical_section_shape domain acmeOptions certificateData s3)
    as (l1 & l2 & Hc & Hl1 & Hl2).
  apply no_cooldown_in_renewal in Hl1.
  assert (H2 : (List.length (filter sets_cooldown l2) <= 1)%nat).
  { destruct Hl2 as [-> | (logs & -> & Hlogs)]; [cbn; lia |].
    apply no_cooldown_in_logs in Hlogs. cbn. rewrite Hlogs. cbn. lia. }
  assert (Hcount : forall l3, filter sets_cooldown l3 = [] ->
            (List.length
               (filter sets_cooldown
                  (RedisExists (domainSafeLockKey domain) :: evs ++
                     [GetLock (domainOpLockKey domain) (10 * 60 * 1000) (3 * 60 * 1000)] ++
                     l1 ++ l2 ++ l3)) <= 1)%nat).
  { intros l3 H3. cbn [filter sets_cooldown].
    rewrite !filter_app, Hev, Hl1, H3. cbn. rewrite app_nil_r. exact H2. }
  destruct (critical_section domain acmeOptions certificateData s3) as [[v | e |] s4];
    cbn [snd] in Hc.
  - destruct (release_run domain lock s4) as (s5 & l3 & Hr & Ht5 & Hl3 & _).
    rewrite Hr. cbn [snd]. eexists. split; [| apply (Hcount (ReleaseLock lock :: l3))].
    + rewrite Ht5, Hc, Ht3. cbn [app]. repeat (rewrite <- app_assoc; cbn [app]).
      reflexivity.
    + cbn. apply no_cooldown_in_logs, Hl3.
  - destruct (release_run domain lock s4) as (s5 & l3 & Hr & Ht5 & Hl3 & _).
    rewrite Hr. cbn [snd]. eexists. split; [| apply (Hcount (ReleaseLock lock :: l3))].
    + rewrite Ht5, Hc, Ht3. cbn [app]. repeat (rewrite <- app_assoc; cbn [app]).
      reflexivity.
    + cbn. apply no_cooldown_in_logs, Hl3.
  - cbn [snd]. eexists. split; [| apply (Hcount [] eq_refl)].
    rewrite Hc, Ht3, app_nil_r. cbn [app]. repeat (rewrite <- app_assoc; cbn [app]).
    reflexivity.
Qed.

End Shape.

(* ===================================================================== *)
(** ** Nobody waits for the initialization *)
(* ===================================================================== *)

Create HintDb settling.

Section SettlesMonad.
Context {W : Type} {C : Collaborators W}.

Lemma settles_ret {A} (a : A) : settles (ret (W := W) a).
Proof. intros s H. split; [discriminate | exact H]. Qed.

Lemma settles_throw {A} e : settles (throw (W := W) (A := A) e).
Proof. intros s H. split; [discriminate | exact H]. Qed.

Lemma settles_log l p f a : settles (log (W := W) l p f a).
Proof. intros s H. split; [discriminate | exact H]. Qed.

Lemma settles_lift {A} (r : result A) : settles (lift (W := W) r).
Proof. intros s H. destruct r; (split; [discriminate | exact H]). Qed.

Lemma settles_now : settles now.
Proof.
  intros s H. unfold now. destruct (clock (world s)). split; [discriminate | exact H].
Qed.

Lemma settles_call {A} ev (f : W -> result A * W) : settles (call ev f).
Proof.
  intros s H. unfold call. destruct (f (world s)) as [[a | e] w];
    (split; [discriminate | exact H]).
Qed.

Lemma settles_bind {A B} (m : M W A) (k : A -> M W B) :
  settles m -> (forall a, settles (k a)) -> settles (bind m k).
Proof.
  intros Hm Hk s H. unfold bind. specialize (Hm s H).
  destruct (m s) as [[a | e |] s']; cbn in *.
  - apply Hk, Hm.
  - split; [discriminate | apply Hm].
  - destruct Hm as [Hm _]. congruence.
Qed.

Lemma settles_try_catch {A} (m : M W A) (h : error -> M W A) :
  settles m -> (forall e, settles (h e)) -> settles (try_catch m h).
Proof.
  intros Hm Hh s H. unfold try_catch. specialize (Hm s H).
  destruct (m s) as [[a | e |] s']; cbn in *.
  - split; [discriminate | apply Hm].
  - apply Hh, Hm.
  - destruct Hm as [Hm _]. congruence.
Qed.

Lemma settles_try_finally {A} (m : M W A) (f : M W unit) :
  settles m -> settles f -> settles (try_finally m f).
Proof.
  intros Hm Hf s H. unfold try_finally. specialize (Hm s H).
  destruct (m s) as [[a | e |] s']; cbn in *;
    try (destruct Hm as [Hm _]; congruence);
    destruct Hm as [_ Hm]; specialize (Hf s' Hm);
    destruct (f s') as [[u | e' |] s'']; cbn in *;
    try (destruct Hf as [Hf _]; congruence);
    (split; [discriminate | apply Hf]).
Qed.

End SettlesMonad.

#[export] Hint Resolve settles_ret settles_throw settles_log settles_lift
  settles_now settles_call : settling.

Ltac settle_steps :=
  repeat first
    [ progress auto with settling
    | apply settles_bind
    | apply settles_try_catch
    | apply settles_try_finally
    | match goal with
      | |- settles (if ?b then _ else _) => destruct b
      | |- settles (match ?x with _ => _ end) => destruct x
      | |- forall _, settles _ => intro
      end ].

Section SettlesModule.
Context {W : Type} {C : Collaborators W}.

Lemma settles_ensureAcme acmeOptions : settles (ensureAcme acmeOptions).
Proof.
  intros s H. unfold ensureAcme, ensureAcme_enter. rewrite H.
  destruct (acmeInitialized (vars s)); [split; [discriminate | exact H] |].
  destruct (acme_init (directoryUrl acmeOptions) (world s)) as [[[] | e] w]; cbn;
    (split; [discriminate | reflexivity]).
Qed.

Lemma settles_getAcmeAccount acmeOptions : settles (getAcmeAccount acmeOptions).
Proof.
  unfold getAcmeAccount. pose proof (settles_ensureAcme acmeOptions). settle_steps.
Qed.

Lemma settles_issue_cert domain acmeOptions certificateData csr :
  settles (issue_cert domain acmeOptions certificateData csr).
Proof.
  unfold issue_cert. pose proof (settles_getAcmeAccount acmeOptions). settle_steps.
Qed.

Lemma settles_renew domain acmeOptions reloaded : settles (renew domain acmeOptions reloaded).
Proof.
  unfold renew. pose proof (fun r csr => settles_issue_cert domain acmeOptions r csr).
  settle_steps.
Qed.

Lemma settles_on_failure domain reloaded e : settles (on_failure domain reloaded e).
Proof. unfold on_failure, block_renewal. settle_steps. Qed.

Lemma settles_release domain lock : settles (release domain lock).
Proof. unfold release. settle_steps. Qed.

Lemma settles_validated domain : settles (validated domain).
Proof.
  intros s H. destruct (validated_events domain s) as (evs & b & Hb & _ & _ & Hv).
  rewrite Hb, Hv. split; [discriminate | exact H].
Qed.

Lemma settles_critical_section domain acmeOptions certificateData :
  settles (critical_section domain acmeOptions certificateData).
Proof.
  intros s H. unfold critical_section.
  pose proof (settles_call (GetRecord (ById (_id certificateData)))
                (getRecord (ById (_id certificateData))) s H) as [Hc Hv].
  destruct (call _ _ s) as [[reloaded | e |] s1]; cbn [fst snd] in *; [| | congruence].
  - apply (settles_try_catch _ _ (settles_renew domain acmeOptions reloaded)
             (settles_on_failure domain reloaded) s1 Hv).
  - apply (settles_on_failure domain (Some certificateData) e s1 Hv).
Qed.

Lemma settles_acquireCert domain acmeOptions certificateData :
  settles (acquireCert domain acmeOptions certificateData).
Proof.
  unfold acquireCert.
  pose proof (settles_validated domain).
  pose proof (settles_critical_section domain acmeOptions certificateData).
  pose proof (settles_release domain).
  settle_steps.
Qed.

Lemma settles_detached domain (task : M W value) : settles task -> settles (detached domain task).
Proof.
  intros Ht s H. unfold detached. specialize (Ht s H).
  destruct (task s) as [[v | e |] s']; cbn in *;
    (split; [discriminate | apply Ht]).
Qed.

(** X13.  Started while [acmeInitializing] is unset, [getCertificate]
    settles, by returning or by throwing: it is never parked on the list
    of pending entries.  It leaves [acmeInitializing] unset, so the same
    holds of the call that comes next. *)
Theorem getCertificate_settles domain acmeOptions (s : State W) :
  acmeInitializing (vars s) = false ->
  fst (getCertificate domain acmeOptions s) <> Pending /\
  acmeInitializing (vars (snd (getCertificate domain acmeOptions s))) = false.
Proof.
  revert s. change (settles (getCertificate domain acmeOptions)).
  unfold getCertificate.
  pose proof (settles_ensureAcme acmeOptions).
  pose proof (fun d cd => settles_acquireCert d acmeOptions cd).
  pose proof (fun d cd => settles_detached d _ (settles_acquireCert d acmeOptions cd)).
  settle_steps.
Qed.

End SettlesModule.

(* ===================================================================== *)
(** ** Further properties of getCertificate *)
(* ===================================================================== *)

Section Dispatch.
Context {W : Type} {C : Collaborators W}.

Lemma dispatch_of_acquire domain o ev :
  acquire_event (normalizeDomain (Some domain)) o ev = true -> dispatch_event domain o ev = true.
Proof. unfold dispatch_event. now intros ->. Qed.

Lemma detached_within (P : event -> bool) domain (task : M W value) :
  (forall args, P (Log Error "ACME" "Cert renewal error %s: %s" args) = true) ->
  within P task -> within P (detached domain task).
Proof.
  intros Hlog Ht s. unfold detached. specialize (Ht s).
  destruct (task s) as [[v | e |] s']; cbn in *; try exact Ht.
  apply adds_emit; [apply Hlog | exact Ht].
Qed.

(** X14.  Everything [getCertificate] calls belongs to the normalized
    name of its domain and to its options: besides the calls of
    [acquireCert] for that name it only initializes the client on the
    directory of the options and looks the record up under that name. *)
Theorem getCertificate_footprint domain acmeOptions (s : State W) :
  exists l,
    trace (snd (getCertificate domain acmeOptions s)) = (trace s ++ l)%list /\
    forallb (dispatch_event domain acmeOptions) l = true.
Proof.
  revert s. change (within (dispatch_event domain acmeOptions)
                      (getCertificate domain acmeOptions)).
  unfold getCertificate.
  assert (within (dispatch_event domain acmeOptions) (ensureAcme acmeOptions)).
  { apply ensureAcme_within; [| reflexivity | reflexivity].
    unfold dispatch_event, acquire_event, critical_event, renewal_event, issuance_event,
      account_event. now rewrite String.eqb_refl. }
  pose proof (fun cd => within_weaken _ _ _ (dispatch_of_acquire domain acmeOptions)
                          (acquireCert_within (normalizeDomain (Some domain)) acmeOptions cd)).
  pose proof (fun cd => detached_within _ (normalizeDomain (Some domain)) _
                          (fun _ => eq_refl)
                          (within_weaken _ _ _ (dispatch_of_acquire domain acmeOptions)
                             (acquireCert_within (normalizeDomain (Some domain))
                                acmeOptions cd))).
  footprint_steps.
Qed.

(** X15.  For a record whose [expires] exceeds the clock plus 30 days,
    [getCertificate] returns the record as the store gave it.  After the
    initialization its only call is the lookup: no cooldown flag is read,
    no lease is asked for, no DNS query is made and the CA is not
    contacted. *)
Theorem getCertificate_fresh domain acmeOptions (s s1 : State W) b certificateData w2 t w3 :
  ensureAcme acmeOptions s = (Return b, s1) ->
  getRecord (ByServername (normalizeDomain (Some domain))) (world s1)
    = (Ok (Some certificateData), w2) ->
  clock w2 = (t, w3) ->
  expires_after certificateData (t + FRESH_REMAINING) = true ->
  getCertificate domain acmeOptions s =
    (Return (VRecord certificateData),
     set_world w3 (emit (GetRecord (ByServername (normalizeDomain (Some domain)))) s1)).
Proof.
  intros Hinit Hget Hclock Hfresh. unfold getCertificate.
  rewrite (bind_return _ _ _ _ _ Hinit).
  rewrite (bind_return _ _ _ _ _ (call_ok _ _ _ _ _ Hget)).
  unfold bind at 1, now at 1. cbn [world set_world]. rewrite Hclock, Hfresh.
  reflexivity.
Qed.

(** X16.  For a record that is not fresh and not yet expired,
    [getCertificate] returns the stored record whatever becomes of the
    renewal it starts: a value of the renewal is dropped, and an error of
    it is logged and not thrown. *)
Theorem getCertificate_stale domain acmeOptions (s s1 : State W) b certificateData
    w2 t w3 t' w4 :
  acmeInitializing (vars s) = false ->
  ensureAcme acmeOptions s = (Return b, s1) ->
  getRecord (ByServername (normalizeDomain (Some domain))) (world s1)
    = (Ok (Some certificateData), w2) ->
  clock w2 = (t, w3) ->
  expires_after certificateData (t + FRESH_REMAINING) = false ->
  clock w3 = (t', w4) ->
  expires_after certificateData t' = true ->
  fst (getCertificate domain acmeOptions s) = Return (VRecord certificateData) /\
  (forall e s4,
     acquireCert (normalizeDomain (Some domain)) acmeOptions certificateData
       (set_world w4 (emit (GetRecord (ByServername (normalizeDomain (Some domain)))) s1))
     = (Throw e, s4) ->
     getCertificate domain acmeOptions s =
       (Return (VRecord certificateData),
        emit (Log Error "ACME" "Cert renewal error %s: %s"
                [AStr (normalizeDomain (Some domain)); AStr (message e)]) s4)).
Proof.
  intros Hidle Hinit Hget Hc1 Hfresh Hc2 Hstale.
  assert (E : getCertificate domain acmeOptions s =
              bind (detached (normalizeDomain (Some domain))
                      (acquireCert (normalizeDomain (Some domain)) acmeOptions certificateData))
                (fun _ => ret (VRecord certificateData))
                (set_world w4
                   (emit (GetRecord (ByServername (normalizeDomain (Some domain)))) s1))).
  { unfold getCertificate.
    rewrite (bind_return _ _ _ _ _ Hinit).
    rewrite (bind_return _ _ _ _ _ (call_ok _ _ _ _ _ Hget)).
    unfold bind at 1, now at 1. cbn [world set_world]. rewrite Hc1, Hfresh.
    unfold bind at 1, now at 1. cbn [world set_world]. rewrite Hc2, Hstale.
    reflexivity. }
  rewrite E. split.
  - pose proof (settles_ensureAcme acmeOptions s Hidle) as [_ Hv].
    rewrite Hinit in Hv. cbn [snd] in Hv.
    pose proof (settles_acquireCert (normalizeDomain (Some domain)) acmeOptions
                  certificateData
                  (set_world w4
                     (emit (GetRecord (ByServername (normalizeDomain (Some domain)))) s1))
                  Hv) as [Hs _].
    unfold bind, detached.
    destruct (acquireCert _ _ _ _) as [[v | e |] s4]; cbn in *; congruence.
  - intros e s4 Hthrow. unfold bind, detached. rewrite Hthrow. reflexivity.
Qed.

End Dispatch.

(* ===================================================================== *)
(** ** A successful issuance *)
(* ===================================================================== *)

Section Issuance.
Context {W : Type} {C : Collaborators W}.

(** X17.  When the account is available, the CA answers with a
    certificate, the certificate parses and the store accepts the update,
    the record is updated once, with the certificate and chain of the CA,
    the validity window, names and issuer read from the certificate, the
    time of the clock as [lastCheck] and status [valid]; what is returned
    is the record as the store gives it back afterwards (nothing, if the
    store has none). *)
Theorem issue_cert_success domain acmeOptions certificateData csr (s s1 : State W)
    acmeAccount jwkAccount pem chain w2 now_ w3 parsed w4 r w5 :
  getAcmeAccount acmeOptions s = (Return (Some acmeAccount), s1) ->
  pem2jwk (acc_key acmeAccount) = Ok jwkAccount ->
  certificates_create
    {| co_account := acc_account acmeAccount; co_accountKey := jwkAccount;
       co_csr := csr; co_domains := [domain] |} (world s1)
    = (Ok (Some {| ac_cert := Some pem; ac_chain := chain |}), w2) ->
  String.eqb pem "" = false ->
  clock w2 = (now_, w3) ->
  fromPEM pem = Ok parsed ->
  record_update (_id certificateData)
    {| u_cert := pem; u_ca := chain;
       u_validFrom := p_validFrom parsed; u_expires := p_validTo parsed;
       u_altNames := dnsNames parsed; u_issuer := issuer_commonName parsed;
       u_lastCheck := now_; u_status := "valid" |} w3
    = (Ok true, w4) ->
  getRecord (ById (_id certificateData)) w4 = (Ok r, w5) ->
  fst (issue_cert domain acmeOptions certificateData csr s) = Return (of_record r) /\
  world (snd (issue_cert domain acmeOptions certificateData csr s)) = w5 /\
  trace (snd (issue_cert domain acmeOptions certificateData csr s)) =
    (trace s1 ++
       [Log Info "ACME" "Generate ACME cert for %s (account=%s)"
          [AStr domain; AStr (account_id acmeAccount)];
        CertificatesCreate
          {| co_account := acc_account acmeAccount; co_accountKey := jwkAccount;
             co_csr := csr; co_domains := [domain] |};
        Log Info "ACME" "Received certificate from ACME for %s" [AStr domain];
        CertUpdate (_id certificateData)
          {| u_cert := pem; u_ca := chain;
             u_validFrom := p_validFrom parsed; u_expires := p_validTo parsed;
             u_altNames := dnsNames parsed; u_issuer := issuer_commonName parsed;
             u_lastCheck := now_; u_status := "valid" |};
        Log Info "ACME" "Certificate successfully generated for %s (expires %s)"
          [AStr domain; ANum (p_validTo parsed)];
        GetRecord (ById (_id certificateData))])%list.
Proof.
  intros Hacc Hjwk Hca Hpem Hclock Hparse Hupdate Hget.
  unfold issue_cert. rewrite (bind_return _ _ _ _ _ Hacc).
  unfold bind, lift, log, call, now, ret. rewrite Hjwk.
  cbn [world emit set_world]. rewrite Hca, Hpem. cbn [negb world emit set_world].
  rewrite Hclock, Hparse. cbn [world emit set_world]. rewrite Hupdate.
  cbn [negb world emit set_world]. rewrite Hget.
  cbn [fst snd world trace emit set_world].
  repeat split. repeat (rewrite <- app_assoc; cbn [app]). reflexivity.
Qed.

End Issuance.

(* ===================================================================== *)
(** ** Further runs on the mock world *)
(* ===================================================================== *)

Module MoreRuns.
Import Mock.
Import Interleaving.

(** X1 on a run: a second call for another directory. *)
Lemma ensureAcme_initializes_once_witness :
  @ensureAcme World (collaborators healthy) options (start (world_of [] []))
  = (Return true,
     state (world_of [] []) [AcmeInit "https://ca.test/directory"] initialized) /\
  @ensureAcme World (collaborators healthy) options_down
    (state (world_of [] []) [AcmeInit "https://ca.test/directory"] initialized)
  = (Return true,
     state (world_of [] []) [AcmeInit "https://ca.test/directory"] initialized).
Proof.
  split; [reflexivity |].
  apply (@ensureAcme_initializes_once World (collaborators healthy) options options_down
           (start (world_of [] [])) _ true).
  reflexivity.
Defined.

(** X2 on a run: the first directory is down, the second answers. *)
Lemma ensureAcme_failure_is_retried_witness :
  acmeInitialized (vars (start (world_of [] []))) = false /\
  acmeInitializing (vars (start (world_of [] []))) = false /\
  @acme_init World (unreachable healthy) (directoryUrl options_down) (world_of [] [])
  = (Err (error_of "directory unreachable"), world_of [] []) /\
  @acme_init World (unreachable healthy) (directoryUrl options) (world_of [] [])
  = (Ok tt, world_of [] []) /\
  fst (@ensureAcme World (unreachable healthy) options_down (start (world_of [] [])))
  = Throw (error_of "directory unreachable") /\
  fst (@ensureAcme World (unreachable healthy) options
         (snd (@ensureAcme World (unreachable healthy) options_down
                 (start (world_of [] [])))))
  = Return true.
Proof.
  split; [reflexivity |]. split; [reflexivity |]. split; [reflexivity |].
  split; [reflexivity |].
  pose proof (@ensureAcme_failure_is_retried World (unreachable healthy)
                options_down options (start (world_of [] []))
                (error_of "directory unreachable") (world_of [] []) (world_of [] [])
                eq_refl eq_refl eq_refl eq_refl) as (H1 & _ & _ & H4 & _).
  split; [exact H1 | exact H4].
Defined.

(** X3 on a run: a caller has initialized the module, two more enter. *)
Lemma ready_is_absorbing_witness :
  acmeInitialized (pvars (run [Call 1; InitSettles 1 (Ok tt)] proc0)) = true /\
  In (2%nat, Return true)
    (ended (run [Call 2; Call 3] (run [Call 1; InitSettles 1 (Ok tt)] proc0))) /\
  initiating (run [Call 2; Call 3] (run [Call 1; InitSettles 1 (Ok tt)] proc0)) = [].
Proof.
  pose proof (InterleavingMore.ready_is_absorbing [Call 2; Call 3]
                (run [Call 1; InitSettles 1 (Ok tt)] proc0) eq_refl) as (_ & Hincl & Hend).
  split; [reflexivity |]. split.
  - apply Hend. left. reflexivity.
  - destruct (initiating (run [Call 2; Call 3] (run [Call 1; InitSettles 1 (Ok tt)] proc0)))
      as [| c l]; [reflexivity |].
    destruct (Hincl c (or_introl eq_refl)).
Defined.

(** X4 on a run: the account is in the settings. *)
Lemma getAcmeAccount_existing_witness :
  @ensureAcme World (collaborators healthy) options (start (world_with_account []))
  = (Return true,
     state (world_with_account []) [AcmeInit "https://ca.test/directory"] initialized) /\
  @settings_findOne World (collaborators healthy) "acme:account:production"
    (world_with_account [])
  = (Ok (Some {| doc_value := Some account |}), world_with_account []) /\
  @getAcmeAccount World (collaborators healthy) options (start (world_with_account []))
  = (Return (Some account),
     state (world_with_account [])
       [AcmeInit "https://ca.test/directory"; SettingsFindOne "acme:account:production"]
       initialized).
Proof.
  split; [reflexivity |]. split; [reflexivity |].
  apply (@getAcmeAccount_existing World (collaborators healthy) options
           (start (world_with_account []))
           (state (world_with_account []) [AcmeInit "https://ca.test/directory"] initialized)
           true account (world_with_account [])).
  - reflexivity.
  - reflexivity.
Defined.

(** X6 on a run: a name with an empty label. *)
Lemma acquireCert_refuses_bad_syntax_witness :
  @redis_exists World (collaborators healthy) "d:lock:safe:bad..name" (world_of [] [])
  = (Ok 0, world_of [] []) /\
  @joi_domain World (collaborators healthy) "bad..name" = false /\
  @acquireCert World (collaborators healthy) "bad..name" options
    (record None None) (start (world_of [] []))
  = (Return (VRecord (record None None)),
     state (world_of [] [])
       [RedisExists "d:lock:safe:bad..name";
        Log Error "ACME" "Failed to validate domain %s: %s"
          [AStr "bad..name"; AStr "${domain} is not a valid domain name"]]
       init0).
Proof.
  split; [reflexivity |]. split; [reflexivity |].
  apply (@acquireCert_refuses_bad_syntax World (collaborators healthy) "bad..name" options
           (record None None) (start (world_of [] [])) (world_of [] [])).
  - reflexivity.
  - reflexivity.
Defined.

(** X7 on a run: the allow-list holds one empty entry; the CAA record of
    another CA at [example.com] is not looked at. *)
Lemma validateDomain_skips_caa_witness :
  @joi_domain World (collaborators blank_allow_list) "example.com" = true /\
  forallb (fun d => String.eqb (@normalizeDomain World (collaborators blank_allow_list)
                                  (Some d)) "")
    (@config_caaDomains World (collaborators blank_allow_list)) = true /\
  @validateDomain World (collaborators blank_allow_list) "example.com"
    (start (world_of [] []))
  = (Return true, start (world_of [] [])).
Proof.
  split; [reflexivity |]. split; [reflexivity |].
  apply (@validateDomain_skips_caa World (collaborators blank_allow_list) "example.com"
           (start (world_of [] []))).
  - reflexivity.
  - right. reflexivity.
Defined.

(** X9 on a run: the stored record has a key. *)
Lemma renew_keeps_private_key_witness :
  Str.truthy (privateKey (record (Some "old-pem") (Some 500))) = true /\
  exists l,
    trace (snd (@renew World (collaborators healthy) "example.com" options
                  (Some (record (Some "old-pem") (Some 500)))
                  (start (world_of [] [record (Some "old-pem") (Some 500)]))))
    = (trace (start (world_of [] [record (Some "old-pem") (Some 500)])) ++ l)%list /\
    forallb (issuance_event "example.com" options
               (Some (_id (record (Some "old-pem") (Some 500))))) l = true.
Proof.
  split; [reflexivity |].
  apply (@renew_keeps_private_key World (collaborators healthy) "example.com" options
           (record (Some "old-pem") (Some 500))
           (start (world_of [] [record (Some "old-pem") (Some 500)]))).
  reflexivity.
Defined.

(** X11 on a run: the CA rejects the order. *)
Lemma acquireCert_releases_lease_once_witness :
  @holds_lease World (collaborators ca_down) "example.com"
    (start (world_of [] [record (Some "old-pem") (Some 500)])) granted
    (state (world_of [] [record (Some "old-pem") (Some 500)]) until_lease init0) /\
  fst (@acquireCert World (collaborators ca_down) "example.com" options
         (record (Some "old-pem") (Some 500))
         (start (world_of [] [record (Some "old-pem") (Some 500)]))) <> Pending /\
  exists l1 l2,
    trace (snd (@acquireCert World (collaborators ca_down) "example.com" options
                  (record (Some "old-pem") (Some 500))
                  (start (world_of [] [record (Some "old-pem") (Some 500)]))))
    = (until_lease ++ l1 ++ ReleaseLock granted :: l2)%list /\
    forallb (critical_event "example.com" options) l1 = true /\
    forallb is_log l2 = true /\
    filter is_release (l1 ++ ReleaseLock granted :: l2) = [ReleaseLock granted].
Proof.
  assert (H : @holds_lease World (collaborators ca_down) "example.com"
                (start (world_of [] [record (Some "old-pem") (Some 500)])) granted
                (state (world_of [] [record (Some "old-pem") (Some 500)]) until_lease init0)).
  { exists (state (world_of [] [record (Some "old-pem") (Some 500)])
              [RedisExists "d:lock:safe:example.com";
               Log Info "ACME" "Domain validation for %s passed" [AStr "example.com"]]
              init0),
      (world_of [] [record (Some "old-pem") (Some 500)]).
    split; [exists (world_of [] [record (Some "old-pem") (Some 500)]); split; reflexivity
           | split; reflexivity]. }
  assert (H' : fst (@acquireCert World (collaborators ca_down) "example.com" options
                      (record (Some "old-pem") (Some 500))
                      (start (world_of [] [record (Some "old-pem") (Some 500)])))
               <> Pending) by (vm_compute; discriminate).
  split; [exact H |]. split; [exact H' |].
  apply (@acquireCert_releases_lease_once World (collaborators ca_down) "example.com"
           options (record (Some "old-pem") (Some 500))
           (start (world_of [] [record (Some "old-pem") (Some 500)])) granted _ H H').
Defined.

(** X13 on a run: a first call in a fresh process. *)
Lemma getCertificate_settles_witness :
  acmeInitializing (vars (start (world_of [] [record (Some "old-pem") (Some 500)]))) = false /\
  fst (@getCertificate World (collaborators healthy) "example.com" options
         (start (world_of [] [record (Some "old-pem") (Some 500)]))) <> Pending.
Proof.
  split; [reflexivity |].
  apply (@getCertificate_settles World (collaborators healthy) "example.com" options
           (start (world_of [] [record (Some "old-pem") (Some 500)]))).
  reflexivity.
Defined.

(** X15 on a run: the record expires in more than 30 days. *)
Lemma getCertificate_fresh_witness :
  @ensureAcme World (collaborators healthy) options
    (start (world_of [] [record (Some "pem") (Some 2592001001)]))
  = (Return true,
     state (world_of [] [record (Some "pem") (Some 2592001001)])
       [AcmeInit "https://ca.test/directory"] initialized) /\
  @getRecord World (collaborators healthy) (ByServername "example.com")
    (world_of [] [record (Some "pem") (Some 2592001001)])
  = (Ok (Some (record (Some "pem") (Some 2592001001))),
     world_of [] [record (Some "pem") (Some 2592001001)]) /\
  @clock World (collaborators healthy) (world_of [] [record (Some "pem") (Some 2592001001)])
  = (1000, world_of [] [record (Some "pem") (Some 2592001001)]) /\
  expires_after (record (Some "pem") (Some 2592001001)) (1000 + FRESH_REMAINING) = true /\
  @getCertificate World (collaborators healthy) "example.com" options
    (start (world_of [] [record (Some "pem") (Some 2592001001)]))
  = (Return (VRecord (record (Some "pem") (Some 2592001001))),
     state (world_of [] [record (Some "pem") (Some 2592001001)])
       [AcmeInit "https://ca.test/directory"; GetRecord (ByServername "example.com")]
       initialized).
Proof.
  split; [reflexivity |]. split; [reflexivity |]. split; [reflexivity |].
  split; [reflexivity |].
  apply (@getCertificate_fresh World (collaborators healthy) "example.com" options
           (start (world_of [] [record (Some "pem") (Some 2592001001)]))
           (state (world_of [] [record (Some "pem") (Some 2592001001)])
              [AcmeInit "https://ca.test/directory"] initialized)
           true (record (Some "pem") (Some 2592001001))
           (world_of [] [record (Some "pem") (Some 2592001001)]) 1000
           (world_of [] [record (Some "pem") (Some 2592001001)])).
  - reflexivity.
  - reflexivity.
  - reflexivity.
  - reflexivity.
Defined.

(** X16 on a run: the record expires at 5000, the clock shows 1000, and
    the lock service times out in the background. *)
Lemma getCertificate_stale_witness :
  acmeInitializing (vars (start (world_of [] [record (Some "pem") (Some 5000)]))) = false /\
  @ensureAcme World (collaborators lock_timeout) options
    (start (world_of [] [record (Some "pem") (Some 5000)]))
  = (Return true,
     state (world_of [] [record (Some "pem") (Some 5000)])
       [AcmeInit "https://ca.test/directory"] initialized) /\
  expires_after (record (Some "pem") (Some 5000)) (1000 + FRESH_REMAINING) = false /\
  expires_after (record (Some "pem") (Some 5000)) 1000 = true /\
  fst (@getCertificate World (collaborators lock_timeout) "example.com" options
         (start (world_of [] [record (Some "pem") (Some 5000)])))
  = Return (VRecord (record (Some "pem") (Some 5000))).
Proof.
  split; [reflexivity |]. split; [reflexivity |]. split; [reflexivity |].
  split; [reflexivity |].
  apply (@getCertificate_stale World (collaborators lock_timeout) "example.com" options
           (start (world_of [] [record (Some "pem") (Some 5000)]))
           (state (world_of [] [record (Some "pem") (Some 5000)])
              [AcmeInit "https://ca.test/directory"] initialized)
           true (record (Some "pem") (Some 5000))
           (world_of [] [record (Some "pem") (Some 5000)]) 1000
           (world_of [] [record (Some "pem") (Some 5000)]) 1000
           (world_of [] [record (Some "pem") (Some 5000)])).
  - reflexivity.
  - reflexivity.
  - reflexivity.
  - reflexivity.
  - reflexivity.
  - reflexivity.
  - reflexivity.
Defined.

(** X17 on a run: the account is stored, the CA issues, the store takes
    the update. *)
Lemma issue_cert_success_witness :
  @getAcmeAccount World (collaborators healthy) options
    (start (world_with_account [record (Some "old-pem") (Some 500)]))
  = (Return (Some account),
     state (world_with_account [record (Some "old-pem") (Some 500)])
       [AcmeInit "https://ca.test/directory"; SettingsFindOne "acme:account:production"]
       initialized) /\
  fst (@issue_cert World (collaborators healthy) "example.com" options
         (record (Some "old-pem") (Some 500)) "csr"
         (start (world_with_account [record (Some "old-pem") (Some 500)])))
  = Return (VRecord (apply_updates
                       {| u_cert := "new-pem"; u_ca := ["chain-pem"];
                          u_validFrom := 5000; u_expires := 9000000000;
                          u_altNames := ["example.com"]; u_issuer := "Test CA";
                          u_lastCheck := 1000; u_status := "valid" |}
                       (record (Some "old-pem") (Some 500)))).
Proof.
  split; [reflexivity |].
  apply (@issue_cert_success World (collaborators healthy) "example.com" options
           (record (Some "old-pem") (Some 500)) "csr"
           (start (world_with_account [record (Some "old-pem") (Some 500)]))
           (state (world_with_account [record (Some "old-pem") (Some 500)])
              [AcmeInit "https://ca.test/directory";
               SettingsFindOne "acme:account:production"] initialized)
           account "jwk:account-key" "new-pem" ["chain-pem"]
           (world_with_account [record (Some "old-pem") (Some 500)]) 1000
           (world_with_account [record (Some "old-pem") (Some 500)]) parsed
           (on_store (map (fun r => if _id r =? 7
                                    then apply_updates
                                           {| u_cert := "new-pem"; u_ca := ["chain-pem"];
                                              u_validFrom := 5000; u_expires := 9000000000;
                                              u_altNames := ["example.com"];
                                              u_issuer := "Test CA";
                                              u_lastCheck := 1000; u_status := "valid" |} r
                                    else r))
              (world_with_account [record (Some "old-pem") (Some 500)]))
           (Some (apply_updates
                    {| u_cert := "new-pem"; u_ca := ["chain-pem"];
                       u_validFrom := 5000; u_expires := 9000000000;
                       u_altNames := ["example.com"]; u_issuer := "Test CA";
                       u_lastCheck := 1000; u_status := "valid" |}
                    (record (Some "old-pem") (Some 500))))
           (on_store (map (fun r => if _id r =? 7
                                    then apply_updates
                                           {| u_cert := "new-pem"; u_ca := ["chain-pem"];
                                              u_validFrom := 5000; u_expires := 9000000000;
                                              u_altNames := ["example.com"];
                                              u_issuer := "Test CA";
                                              u_lastCheck := 1000; u_status := "valid" |} r
                                    else r))
              (world_with_account [record (Some "old-pem") (Some 500)]))).
  - reflexivity.
  - reflexivity.
  - reflexivity.
  - reflexivity.
  - reflexivity.
  - reflexivity.
  - reflexivity.
  - reflexivity.
Defined.

End MoreRuns.
